(** * Smart Asset System frontend: authenticated request client,
      focus-and-scroll coordinator, notification bulk fallback, list unwrapping.

    A shallow embedding of the TypeScript sources
      - [frontend/src/api/client.ts]      (request and response interceptors),
      - [frontend/src/auth/authStore.ts]  (tokenStore),
      - [frontend/src/pages/Assets.tsx], [Assignments.tsx], [Tickets.tsx]
        (query parameters, focus effect, settle effect, edit effect),
      - [frontend/src/App.tsx]            (markAllReadMut, unwrapList),
    together with the properties the specification states about them.

    JavaScript numbers are modelled by [Z] (identifiers, pages, indexes) and
    by [N] (timer handles, milliseconds); strings by [string]. The
    conversion [Number] of the language is a parameter of the model
    ([Url.Conversions]); the examples instantiate it with a reader of
    decimal digits. *)

From Stdlib Require Import ZArith NArith List String Ascii Bool Lia.
Import ListNotations.
Open Scope string_scope.
Open Scope list_scope.
Open Scope Z_scope.

Set Implicit Arguments.

(* ===================================================================== *)
(** ** JavaScript values as they come back from the REST collaborator     *)
(* ===================================================================== *)

Module Js.

#[warnings="-register-all"]
Inductive JsValue : Type :=
| JUndefined
| JNull
| JBool (b : bool)
| JNumber (n : Z)
| JString (s : string)
| JArray (items : list JsValue)
| JObject (props : list (string * JsValue))
| JFunction.

(** [typeof v] *)
Definition typeof (v : JsValue) : string :=
  match v with
  | JUndefined => "undefined"
  | JNull => "object"
  | JBool _ => "boolean"
  | JNumber _ => "number"
  | JString _ => "string"
  | JArray _ => "object"
  | JObject _ => "object"
  | JFunction => "function"
  end.

(** [Array.isArray(v)] *)
Definition Array_isArray (v : JsValue) : bool :=
  match v with JArray _ => true | _ => false end.

(** [v !== null] *)
Definition notNull (v : JsValue) : bool :=
  match v with JNull => false | _ => true end.

(** Own-property lookup in a property list. *)
Fixpoint lookupProp (key : string) (props : list (string * JsValue)) : JsValue :=
  match props with
  | [] => JUndefined
  | (k, v) :: rest => if String.eqb k key then v else lookupProp key rest
  end.

(** How the evaluation of an expression ends: with a value, or with a
    thrown [TypeError]. *)
Inductive Completion (A : Type) : Type :=
| Normal (a : A)
| TypeError.

Arguments TypeError {A}.

(** [obj[key]], for a key that is neither an index, nor [length], nor a
    name that a built-in prototype defines ([results] is such a key): the
    own property of an object, [undefined] when it has none and on every
    other value that can be asked for a property; reading a property of
    [null] or [undefined] throws. *)
Definition getProp (obj : JsValue) (key : string) : Completion JsValue :=
  match obj with
  | JUndefined => TypeError
  | JNull => TypeError
  | JObject props => Normal (lookupProp key props)
  | _ => Normal JUndefined
  end.

(** JavaScript truthiness of a string: every string but the empty one. *)
Definition truthyString (s : string) : bool := negb (String.eqb s "").

(** JavaScript truthiness of an integer number: every one but [0]. *)
Definition truthyNumber (n : Z) : bool := negb (n =? 0).

(** The elements of a value cast [as T[]]. *)
Definition elements (v : JsValue) : list JsValue :=
  match v with JArray items => items | _ => [] end.

(** [unwrapList] of Assets.tsx, Assignments.tsx, Tickets.tsx and App.tsx
    (the four copies are the same text). An exception thrown inside the
    body leaves the function. *)
Definition unwrapList (data : JsValue) : Completion (list JsValue) :=
  if Array_isArray data then Normal (elements data)
  else if String.eqb (typeof data) "object" && notNull data then
    let obj := data in
    match getProp obj "results" with
    | TypeError => TypeError
    | Normal results =>
        if Array_isArray results then Normal (elements results) else Normal []
    end
  else Normal [].

(** The body of [unwrapList] without the test [data !== null]. *)
Definition unwrapList_unguarded (data : JsValue) : Completion (list JsValue) :=
  if Array_isArray data then Normal (elements data)
  else if String.eqb (typeof data) "object" then
    let obj := data in
    match getProp obj "results" with
    | TypeError => TypeError
    | Normal results =>
        if Array_isArray results then Normal (elements results) else Normal []
    end
  else Normal [].

End Js.

(* ===================================================================== *)
(** ** AuthenticatedRequestClient: api/client.ts and auth/authStore.ts    *)
(* ===================================================================== *)

Module Client.

(** [type Tokens = { access: string; refresh: string }] *)
Record Tokens : Type := mkTokens { access : string; refresh : string }.

Definition truthy (s : string) : bool := Js.truthyString s.

(** Truthiness of [string | undefined]. *)
Definition truthyOpt (s : option string) : bool :=
  match s with Some x => truthy x | None => false end.

(** [RetryConfig = InternalAxiosRequestConfig & { _retry?: boolean }]:
    the request line, the Authorization header and the retry mark
    (an absent [_retry] reads as [false]). *)
Record RetryConfig : Type := mkConfig {
  method : string;
  url : string;
  Authorization : option string;
  _retry : bool
}.

Definition AUTH_SCHEME : string := "Bearer".

(** [setAuthHeader(config, accessToken)] *)
Definition setAuthHeader (config : RetryConfig) (accessToken : string) : RetryConfig :=
  let value := (AUTH_SCHEME ++ " " ++ accessToken)%string in
  {| method := method config; url := url config;
     Authorization := Some value; _retry := _retry config |}.

(** [cfg._retry = true] *)
Definition markRetry (cfg : RetryConfig) : RetryConfig :=
  {| method := method cfg; url := url cfg;
     Authorization := Authorization cfg; _retry := true |}.

(** What the transport of the [api] instance answers to one request. *)
Inductive Reply : Type :=
| HttpStatus (status : Z)   (* a response came back with this status *)
| NoResponse                (* network error or timeout: [error.response] is undefined *)
| NoConfig.                 (* an error that carries no [config] *)

(** What [raw.post("/api/auth/refresh/", { refresh })] gives: the promise
    resolves with [r.data.access] (a string or undefined), or it rejects. *)
Inductive RefreshReply : Type :=
| RefreshResolved (newAccess : option string)
| RefreshRejected.

(** [AxiosError]: [error.config] and [error.response?.status]. *)
Record AxiosError : Type := mkError {
  config : option RetryConfig;
  response_status : option Z
}.

Inductive Outcome : Type :=
| Fulfilled (status : Z) (sent : RetryConfig)
| Rejected (error : AxiosError).

(** Observable actions, in the order they happen. *)
Inductive Event : Type :=
| EvSend (cfg : RetryConfig)        (* the [api] instance puts a request on the wire *)
| EvMarkRetry                       (* [cfg._retry = true] *)
| EvRefresh (refreshToken : string) (* [raw.post("/api/auth/refresh/", ...)] *)
| EvStoreSet (t : Tokens)           (* [tokenStore.set] *)
| EvStoreClear                      (* [tokenStore.clear] *)
| EvAssign (path : string).         (* [window.location.assign] *)

Section WithNetwork.

(** The backend: a state [W] and its answers to the two clients. *)
Variable W : Type.
Variable adapter : RetryConfig -> W -> Reply * W.
Variable refreshEndpoint : string -> W -> RefreshReply * W.

(** The browser: the [localStorage] slot under the key ["auth_tokens"]
    (held as the token pair its JSON text denotes; [None] when the key is
    absent), the current location, the backend and the log of actions. *)
Record Browser : Type := mkBrowser {
  storage : option Tokens;
  location : string;
  net : W;
  log : list Event
}.

Definition emit (e : Event) (b : Browser) : Browser :=
  {| storage := storage b; location := location b; net := net b;
     log := log b ++ [e] |}.

Definition withNet (w : W) (b : Browser) : Browser :=
  {| storage := storage b; location := location b; net := w; log := log b |}.

(** [tokenStore.get()] *)
Definition tokenStore_get (b : Browser) : option Tokens := storage b.

(** [tokenStore.set(tokens)] *)
Definition tokenStore_set (tokens : Tokens) (b : Browser) : Browser :=
  emit (EvStoreSet tokens)
    {| storage := Some tokens; location := location b; net := net b; log := log b |}.

(** [tokenStore.clear()] *)
Definition tokenStore_clear (b : Browser) : Browser :=
  emit EvStoreClear
    {| storage := None; location := location b; net := net b; log := log b |}.

(** [window.location.assign(path)] *)
Definition location_assign (path : string) (b : Browser) : Browser :=
  emit (EvAssign path)
    {| storage := storage b; location := path; net := net b; log := log b |}.

(** The request interceptor: attach the access token when there is one. *)
Definition requestInterceptor (config : RetryConfig) (b : Browser) : RetryConfig :=
  match tokenStore_get b with
  | Some tokens => if truthy (access tokens) then setAuthHeader config (access tokens) else config
  | None => config
  end.

(** Axios settles a reply: a 2xx status fulfils, anything else rejects with
    an error that carries the configuration that was sent. *)
Definition settle (sent : RetryConfig) (r : Reply) : Outcome :=
  match r with
  | HttpStatus st =>
      if (200 <=? st) && (st <? 300) then Fulfilled st sent
      else Rejected {| config := Some sent; response_status := Some st |}
  | NoResponse => Rejected {| config := Some sent; response_status := None |}
  | NoConfig => Rejected {| config := None; response_status := None |}
  end.

(** [error.response?.status === 401] *)
Definition is401 (error : AxiosError) : bool :=
  match response_status error with Some st => st =? 401 | None => false end.

(** The logout tail of the response interceptor:
    [tokenStore.clear(); window.location.assign("/login"); return Promise.reject(error)]. *)
Definition logout (error : AxiosError) (b : Browser) : Outcome * Browser :=
  (Rejected error, location_assign "/login" (tokenStore_clear b)).

(** The rejection handler of [api.interceptors.response.use]; [api_request]
    is [api.request], which the handler calls to replay. [error.config] is
    the object [cfg], so marking [cfg] marks the error's configuration too. *)
Definition responseError
    (api_request : RetryConfig -> Browser -> option (Outcome * Browser))
    (error : AxiosError) (b : Browser) : option (Outcome * Browser) :=
  match config error with
  | None => Some (Rejected error, b)
  | Some cfg =>
      if is401 error && negb (_retry cfg) then
        let cfg := markRetry cfg in
        let error := {| config := Some cfg; response_status := response_status error |} in
        let b := emit EvMarkRetry b in
        let tokens := tokenStore_get b in
        let refresh := option_map refresh tokens in
        if truthyOpt refresh then
          let refresh := match refresh with Some r => r | None => "" end in
          let '(r, w) := refreshEndpoint refresh (net b) in
          let b := withNet w (emit (EvRefresh refresh) b) in
          match r with
          | RefreshResolved newAccess =>
              if truthyOpt newAccess then
                let newAccess := match newAccess with Some a => a | None => "" end in
                let b := tokenStore_set {| access := newAccess; refresh := refresh |} b in
                let cfg := setAuthHeader cfg newAccess in
                api_request cfg b
              else Some (logout error b)
          | RefreshRejected => Some (logout error b)
          end
        else Some (logout error b)
      else Some (Rejected error, b)
  end.

(** One pass of a request through the [api] instance up to the settled
    reply: request interceptor, transport, status validation. *)
Definition dispatch (config : RetryConfig) (b : Browser) : Outcome * Browser :=
  let cfg := requestInterceptor config b in
  let '(r, w) := adapter cfg (net b) in
  (settle cfg r, withNet w (emit (EvSend cfg) b)).

(** [api.request(config)]: dispatch, then the response interceptors. The
    rejection handler calls [api.request] again, hence the fuel. *)
Fixpoint request (fuel : nat) (config : RetryConfig) (b : Browser)
  : option (Outcome * Browser) :=
  match fuel with
  | O => None
  | S fuel' =>
      match dispatch config b with
      | (Fulfilled st sent, b') => Some (Fulfilled st sent, b')
      | (Rejected error, b') => responseError (request fuel') error b'
      end
  end.

(** The state in which the rejection handler finds the browser after the
    first dispatch. *)
Definition afterSend (c1 : RetryConfig) (w1 : W) (b : Browser) : Browser :=
  withNet w1 (emit (EvSend c1) b).

(** The state in which the replay starts. *)
Definition afterRefresh (c1 : RetryConfig) (w1 w2 : W) (t : Tokens) (a : string)
    (b : Browser) : Browser :=
  tokenStore_set {| access := a; refresh := refresh t |}
    (withNet w2 (emit (EvRefresh (refresh t)) (emit EvMarkRetry (afterSend c1 w1 b)))).

(** The state the logout tail leaves, with or without a refresh call. *)
Definition loggedOut (b : Browser) : Browser :=
  location_assign "/login" (tokenStore_clear b).

(** Every way the refresh can fail to give a usable token. *)
Definition refreshUnavailable (b : Browser) (w1 : W) : Prop :=
  match storage b with
  | None => True
  | Some t =>
      truthy (refresh t) = false \/
      (truthy (refresh t) = true /\
       match fst (refreshEndpoint (refresh t) w1) with
       | RefreshRejected => True
       | RefreshResolved newAccess => truthyOpt newAccess = false
       end)
  end.

End WithNetwork.

(** Counting events of one kind in a log. *)
Definition isRefresh (e : Event) : bool :=
  match e with EvRefresh _ => true | _ => false end.
Definition isSend (e : Event) : bool :=
  match e with EvSend _ => true | _ => false end.
Definition isMark (e : Event) : bool :=
  match e with EvMarkRetry => true | _ => false end.

Definition count (p : Event -> bool) (evs : list Event) : nat :=
  List.length (List.filter p evs).

(** Every refresh call in the log has a retry mark somewhere before it. *)
Fixpoint markedBeforeRefresh (seenMark : bool) (evs : list Event) : bool :=
  match evs with
  | [] => true
  | EvRefresh _ :: rest => seenMark && markedBeforeRefresh seenMark rest
  | EvMarkRetry :: rest => markedBeforeRefresh true rest
  | _ :: rest => markedBeforeRefresh seenMark rest
  end.

(** Two fixed backends to run the client against: every request of the
    [api] instance is answered with the same status, every refresh call
    with the same reply. *)
Definition alwaysStatus (st : Z) : RetryConfig -> unit -> Reply * unit :=
  fun _ w => (HttpStatus st, w).

Definition refreshGives (r : RefreshReply) : string -> unit -> RefreshReply * unit :=
  fun _ w => (r, w).

Definition browserWith (t : option Tokens) : Browser unit :=
  {| storage := t; location := "/assets"; net := tt; log := [] |}.

Definition getAssets : RetryConfig :=
  {| method := "get"; url := "/api/assets/"; Authorization := None; _retry := false |}.

Definition oldTokens : Tokens := {| access := "a0"; refresh := "r0" |}.

End Client.

(* ===================================================================== *)
(** ** Query parameters of the current location                           *)
(* ===================================================================== *)

Module Url.

(** [URLSearchParams]: the name/value pairs of the query string, in order. *)
Definition URLSearchParams : Type := list (string * string).

(** [params.get(name)]: the first value under [name], [None] for [null]. *)
Fixpoint get (name : string) (params : URLSearchParams) : option string :=
  match params with
  | [] => None
  | (k, v) :: rest => if String.eqb k name then Some v else get name rest
  end.

(** [params.delete(name)]: drops every pair under [name]. *)
Definition delete (name : string) (params : URLSearchParams) : URLSearchParams :=
  List.filter (fun kv => negb (String.eqb (fst kv) name)) params.

(** Do two parameter lists spell the same query string? *)
Fixpoint eqb (a b : URLSearchParams) : bool :=
  match a, b with
  | [], [] => true
  | (k, v) :: a', (k', v') :: b' => String.eqb k k' && String.eqb v v' && eqb a' b'
  | _, _ => false
  end.

(** What [Number(v)] can evaluate to. The finite numbers of this model are
    the integers (see the head of the file). A finite value that is not an
    integer reads as [NaN] here: the pages only test the parsed value for
    truthiness and compare it with record identifiers, which are integers,
    so such a value finds no record, as [null] finds none. *)
Inductive JsNumber : Type :=
| NaN
| Infinity (negative : bool)
| Finite (n : Z).

(** [Number(v)], the conversion of a string to a number. It belongs to
    the language, not to the repository (it reads decimal, hexadecimal,
    octal and binary literals, fractions, exponents and [Infinity], skips
    surrounding white space and rounds to a double): the model takes it as
    it is, whatever it answers. *)
Class Conversions : Type := {
  Number : string -> JsNumber
}.

(** [Number.isFinite(n)] *)
Definition Number_isFinite (n : JsNumber) : bool :=
  match n with Finite _ => true | _ => false end.

(** The pattern shared by [focusId], [employeeParam] and [editId]:
    [const v = searchParams.get(name); const n = v ? Number(v) : NaN;
     return Number.isFinite(n) ? n : null]. *)
Definition idParam {lang : Conversions} (name : string) (searchParams : URLSearchParams)
  : option Z :=
  let v := get name searchParams in
  let n := match v with
           | Some v => if Js.truthyString v then Number v else NaN
           | None => NaN
           end in
  if Number_isFinite n
  then match n with Finite n => Some n | _ => None end
  else None.

Definition digit (c : ascii) : option Z :=
  let n := Z.of_nat (nat_of_ascii c) in
  if (48 <=? n) && (n <=? 57) then Some (n - 48) else None.

Fixpoint digits (acc : Z) (s : string) : option Z :=
  match s with
  | EmptyString => Some acc
  | String c rest =>
      match digit c with
      | Some d => digits (10 * acc + d) rest
      | None => None
      end
  end.

Definition ofDigits (r : option Z) : JsNumber :=
  match r with Some n => Finite n | None => NaN end.

(** A stand-in for [Number] in the examples: it reads decimal digits with
    an optional sign, where it agrees with the language for the identifiers
    the examples use (integers below 2^53 in their usual spelling). The
    examples hand it no other string; it answers [NaN] on them, which the
    language does not always do. *)
Definition decimal (v : string) : JsNumber :=
  match v with
  | EmptyString => Finite 0
  | String "-" EmptyString => NaN
  | String "+" EmptyString => NaN
  | String "-" rest => ofDigits (option_map Z.opp (digits 0 rest))
  | String "+" rest => ofDigits (digits 0 rest)
  | _ => ofDigits (digits 0 v)
  end.

Definition decimalNumber : Conversions := {| Number := decimal |}.

End Url.

(* ===================================================================== *)
(** ** FocusScrollCoordinator: Assets.tsx, Assignments.tsx, Tickets.tsx   *)
(* ===================================================================== *)

Module Focus.

Section WithConversions.

Context {lang : Url.Conversions}.

(** [GridPaginationModel] *)
Record GridPaginationModel : Type := mkPagination { page : Z; pageSize : Z }.

(** The value held by [pendingFocusRef]. *)
Record PendingFocus : Type := mkPending {
  id : Z;
  targetPage : Z;
  rowIndexWithinPage : Z
}.

(** The closures the page hands to [window.setTimeout]. *)
Inductive Callback : Type :=
| CbSetPage (targetPage : Z)
    (* [setPaginationModel(p => p.page === targetPage ? p : {...p, page: targetPage})] *)
| CbArm
    (* the arming closure; it reads [pendingFocusRef.current] when it runs *)
| CbClearHighlight.
    (* [() => setHighlightId(null)] *)

(** An outstanding timer of the window. *)
Record Timer : Type := mkTimer {
  handle : N;
  created : N;      (* clock value at [setTimeout] *)
  delay : N;        (* milliseconds *)
  callback : Callback
}.

(** The three pages carry copies of the coordinator that drifted apart:
    Assets memoizes [filteredRows] ([useMemo]); Assignments and Tickets
    build a new array at every render, so their focus effect sees a changed
    dependency at every render. Tickets has no settle effect. *)
Record PageVariant : Type := mkVariant {
  memoRows : bool;
  hasSettleEffect : bool
}.

Definition AssetsPage : PageVariant := {| memoRows := true; hasSettleEffect := true |}.
Definition AssignmentsPage : PageVariant := {| memoRows := false; hasSettleEffect := true |}.
Definition TicketsPage : PageVariant := {| memoRows := false; hasSettleEffect := false |}.

(** The page component and the part of the window it uses. [filteredRows]
    holds the identifiers of the filtered records, in order. *)
Record State : Type := mkState {
  searchParams : Url.URLSearchParams;
  filteredRows : list Z;
  paginationModel : GridPaginationModel;
  highlightId : option Z;
  pendingFocusRef : option PendingFocus;
  highlightTimerRef : option N;
  now : N;                 (* the clock, in milliseconds *)
  nextHandle : N;          (* the handle the next [setTimeout] returns *)
  timers : list Timer;     (* outstanding timers *)
  frames : list Z;         (* queued animation-frame callbacks: the row to scroll to *)
  scrolled : list Z        (* [scrollToIndexes] calls made so far *)
}.

Definition set_searchParams (v : Url.URLSearchParams) (s : State) : State :=
  mkState v (filteredRows s) (paginationModel s) (highlightId s) (pendingFocusRef s)
    (highlightTimerRef s) (now s) (nextHandle s) (timers s) (frames s) (scrolled s).
Definition set_filteredRows (v : list Z) (s : State) : State :=
  mkState (searchParams s) v (paginationModel s) (highlightId s) (pendingFocusRef s)
    (highlightTimerRef s) (now s) (nextHandle s) (timers s) (frames s) (scrolled s).
Definition set_paginationModel (v : GridPaginationModel) (s : State) : State :=
  mkState (searchParams s) (filteredRows s) v (highlightId s) (pendingFocusRef s)
    (highlightTimerRef s) (now s) (nextHandle s) (timers s) (frames s) (scrolled s).
Definition setHighlightId (v : option Z) (s : State) : State :=
  mkState (searchParams s) (filteredRows s) (paginationModel s) v (pendingFocusRef s)
    (highlightTimerRef s) (now s) (nextHandle s) (timers s) (frames s) (scrolled s).
Definition set_pendingFocusRef (v : option PendingFocus) (s : State) : State :=
  mkState (searchParams s) (filteredRows s) (paginationModel s) (highlightId s) v
    (highlightTimerRef s) (now s) (nextHandle s) (timers s) (frames s) (scrolled s).
Definition set_highlightTimerRef (v : option N) (s : State) : State :=
  mkState (searchParams s) (filteredRows s) (paginationModel s) (highlightId s)
    (pendingFocusRef s) v (now s) (nextHandle s) (timers s) (frames s) (scrolled s).
Definition set_now (v : N) (s : State) : State :=
  mkState (searchParams s) (filteredRows s) (paginationModel s) (highlightId s)
    (pendingFocusRef s) (highlightTimerRef s) v (nextHandle s) (timers s) (frames s)
    (scrolled s).
Definition set_timers (h : N) (v : list Timer) (s : State) : State :=
  mkState (searchParams s) (filteredRows s) (paginationModel s) (highlightId s)
    (pendingFocusRef s) (highlightTimerRef s) (now s) h v (frames s) (scrolled s).
Definition set_frames (v : list Z) (w : list Z) (s : State) : State :=
  mkState (searchParams s) (filteredRows s) (paginationModel s) (highlightId s)
    (pendingFocusRef s) (highlightTimerRef s) (now s) (nextHandle s) (timers s) v w.

(** [window.setTimeout(cb, ms)]: a fresh handle, returned to the caller. *)
Definition setTimeout (cb : Callback) (ms : N) (s : State) : N * State :=
  let h := nextHandle s in
  (h, set_timers (N.succ h)
        (timers s ++ [{| handle := h; created := now s; delay := ms; callback := cb |}]) s).

(** [window.clearTimeout(h)] *)
Definition clearTimeout (h : N) (s : State) : State :=
  set_timers (nextHandle s)
    (List.filter (fun t => negb (N.eqb (handle t) h)) (timers s)) s.

(** [requestAnimationFrame(() => apiRef.current?.scrollToIndexes({ rowIndex }))] *)
Definition requestAnimationFrame (rowIndex : Z) (s : State) : State :=
  set_frames (frames s ++ [rowIndex]) (scrolled s) s.

(** [focusId], derived from the location at every render. *)
Definition focusId (s : State) : option Z := Url.idParam "focus" (searchParams s).

(** [employeeParam], derived from the location at every render. *)
Definition employeeParam (s : State) : option Z := Url.idParam "employee" (searchParams s).

Fixpoint findIndexFrom (i : Z) (rows : list Z) (target : Z) : Z :=
  match rows with
  | [] => -1
  | r :: rest => if r =? target then i else findIndexFrom (i + 1) rest target
  end.

(** [filteredRows.findIndex((r) => r.id === focusId)] *)
Definition findIndex (rows : list Z) (target : Z) : Z := findIndexFrom 0 rows target.

(** [const pageSize = paginationModel.pageSize || 10] *)
Definition effectivePageSize (pm : GridPaginationModel) : Z :=
  if Js.truthyNumber (pageSize pm) then pageSize pm else 10.

(** The handle the focus effect computes for a target found at [idx]. *)
Definition computePending (target idx : Z) (pm : GridPaginationModel) : PendingFocus :=
  let pageSize := effectivePageSize pm in
  let targetPage := idx / pageSize in                  (* Math.floor(idx / pageSize) *)
  let rowIndexWithinPage := idx - targetPage * pageSize in
  {| id := target; targetPage := targetPage; rowIndexWithinPage := rowIndexWithinPage |}.

(** The focus effect (first [useEffect] of the coordinator). *)
Definition focusEffect (s : State) : State :=
  match focusId s with
  | None => s
  | Some focusId =>
      if negb (Js.truthyNumber focusId) then s
      else if (Z.of_nat (List.length (filteredRows s)) =? 0) then s
      else
        let idx := findIndex (filteredRows s) focusId in
        if idx =? -1 then s
        else
          let p := computePending focusId idx (paginationModel s) in
          let s := set_pendingFocusRef (Some p) s in
          if negb (page (paginationModel s) =? targetPage p) then
            snd (setTimeout (CbSetPage (targetPage p)) 0 s)
          else
            snd (setTimeout CbArm 0 s)
  end.

(** The settle effect (second [useEffect], on [paginationModel.page]). *)
Definition settleEffect (s : State) : State :=
  match pendingFocusRef s with
  | None => s
  | Some pending =>
      if negb (targetPage pending =? page (paginationModel s)) then s
      else snd (setTimeout CbArm 0 s)
  end.

(** [if (highlightTimerRef.current) window.clearTimeout(highlightTimerRef.current)] *)
Definition cancelHighlightTimer (s : State) : State :=
  match highlightTimerRef s with
  | Some h => if negb (N.eqb h 0) then clearTimeout h s else s
  | None => s
  end.

(** The arming closure, the same text in both effects. *)
Definition arm (s : State) : State :=
  match pendingFocusRef s with
  | None => s
  | Some pending =>
      let s := requestAnimationFrame (rowIndexWithinPage pending) s in
      let s := setHighlightId (Some (id pending)) s in
      let s := cancelHighlightTimer s in
      let '(h, s) := setTimeout CbClearHighlight 4500 s in
      let s := set_highlightTimerRef (Some h) s in
      set_pendingFocusRef None s
  end.

Definition runCallback (cb : Callback) (s : State) : State :=
  match cb with
  | CbSetPage targetPage =>
      let p := paginationModel s in
      if page p =? targetPage then s
      else set_paginationModel {| page := targetPage; pageSize := pageSize p |} s
  | CbArm => arm s
  | CbClearHighlight => setHighlightId None s
  end.

Definition optZ_eqb (a b : option Z) : bool :=
  match a, b with
  | Some x, Some y => x =? y
  | None, None => true
  | _, _ => false
  end.

Definition pageChanged (old new : State) : bool :=
  negb (page (paginationModel old) =? page (paginationModel new)).

Definition pageSizeChanged (old new : State) : bool :=
  negb (pageSize (paginationModel old) =? pageSize (paginationModel new)).

(** Did a state setter store a value that differs from the one rendered?
    (React skips the render when it did not.) *)
Definition componentStateChanged (old new : State) : bool :=
  pageChanged old new || pageSizeChanged old new
  || negb (optZ_eqb (highlightId old) (highlightId new)).

(** A render after [old], committing [new]: each effect runs when one of
    its dependencies changed. [rowsChanged] tells that [filteredRows] is a
    new array; on a page that does not memoize it, it always is. *)
Definition render (v : PageVariant) (rowsChanged : bool) (old new : State) : State :=
  let focusDeps :=
    rowsChanged || negb (memoRows v)
    || negb (optZ_eqb (focusId old) (focusId new))
    || pageChanged old new || pageSizeChanged old new in
  let s := if focusDeps then focusEffect new else new in
  if hasSettleEffect v && pageChanged old new then settleEffect s else s.

(** What can happen to a mounted page. *)
Inductive Event : Type :=
| Advance (dt : N)                               (* time passes *)
| Fire (h : N)                                   (* the window runs timer [h], if it is due *)
| Frame                                          (* the next animation frame *)
| SetPaginationModel (pm : GridPaginationModel)  (* the grid's [onPaginationModelChange] *)
| Navigate (params : Url.URLSearchParams)        (* the location changes *)
| SetRows (rows : list Z)                        (* refetch, search or filter *)
| Rerender.                                      (* a render for any other reason *)

Definition findTimer (h : N) (ts : list Timer) : option Timer :=
  List.find (fun t => N.eqb (handle t) h) ts.

Definition due (t : Timer) (s : State) : bool := (created t + delay t <=? now s)%N.

Definition step (v : PageVariant) (e : Event) (s : State) : State :=
  match e with
  | Advance dt => set_now (now s + dt)%N s
  | Fire h =>
      match findTimer h (timers s) with
      | Some t =>
          if due t s then
            let s0 := clearTimeout h s in
            let s1 := runCallback (callback t) s0 in
            if componentStateChanged s0 s1 then render v false s0 s1 else s1
          else s
      | None => s
      end
  | Frame => set_frames [] (scrolled s ++ frames s) s
  | SetPaginationModel pm => render v false s (set_paginationModel pm s)
  | Navigate params => render v false s (set_searchParams params s)
  | SetRows rows => render v true s (set_filteredRows rows s)
  | Rerender => render v false s s
  end.

Definition run (v : PageVariant) (evs : list Event) (s : State) : State :=
  List.fold_left (fun s e => step v e s) evs s.

(** The component before its first effects ran. *)
Definition initial (params : Url.URLSearchParams) (rows : list Z) : State :=
  {| searchParams := params; filteredRows := rows;
     paginationModel := {| page := 0; pageSize := 10 |};
     highlightId := None; pendingFocusRef := None; highlightTimerRef := None;
     now := 0%N; nextHandle := 1%N; timers := []; frames := []; scrolled := [] |}.

(** Mounting runs every effect once, in the order they are declared. *)
Definition mount (v : PageVariant) (params : Url.URLSearchParams) (rows : list Z) : State :=
  let s := focusEffect (initial params rows) in
  if hasSettleEffect v then settleEffect s else s.

(** [getRowClassName]: is the row with this identifier drawn highlighted? *)
Definition rowFocus (s : State) (rowId : Z) : bool :=
  optZ_eqb (highlightId s) (Some rowId).

Definition isClear (t : Timer) : bool :=
  match callback t with CbClearHighlight => true | _ => false end.

(** The outstanding highlight timers. *)
Definition highlightTimers (s : State) : list Timer := List.filter isClear (timers s).

(** Does event [e] run an arming closure that finds a pending handle? *)
Definition arms (e : Event) (s : State) : bool :=
  match e with
  | Fire h =>
      match findTimer h (timers s) with
      | Some t =>
          due t s
          && match callback t with CbArm => true | _ => false end
          && match pendingFocusRef s with Some _ => true | None => false end
      | None => false
      end
  | _ => false
  end.



(** The handle the focus effect would compute in this state, if any. *)
Definition locate (s : State) : option PendingFocus :=
  match focusId s with
  | None => None
  | Some target =>
      if negb (Js.truthyNumber target) then None
      else if (Z.of_nat (List.length (filteredRows s)) =? 0) then None
      else
        let idx := findIndex (filteredRows s) target in
        if idx =? -1 then None
        else Some (computePending target idx (paginationModel s))
  end.

(** Events other than a change of location. *)
Definition staysOnLocation (e : Event) : bool :=
  match e with
  | Navigate _ => false
  | _ => true
  end.

(** The timer table is well formed: handles are positive, below the next
    handle and pairwise distinct, and an outstanding highlight timer is the
    one [highlightTimerRef] names. *)
Definition timersOk (s : State) : Prop :=
  (0 < nextHandle s)%N /\
  (forall t, In t (timers s) -> (0 < handle t < nextHandle s)%N) /\
  NoDup (List.map handle (timers s)) /\
  (forall t, In t (timers s) -> isClear t = true ->
             highlightTimerRef s = Some (handle t)).

(** [s'] is [s] with more timers scheduled, none of them a highlight
    timer, and possibly another pending handle: all an effect can do. *)
Definition scheduled (s s' : State) : Prop :=
  searchParams s' = searchParams s /\
  filteredRows s' = filteredRows s /\
  paginationModel s' = paginationModel s /\
  highlightId s' = highlightId s /\
  highlightTimerRef s' = highlightTimerRef s /\
  now s' = now s /\
  frames s' = frames s /\
  scrolled s' = scrolled s /\
  (nextHandle s <= nextHandle s')%N /\
  exists extra,
    timers s' = timers s ++ extra /\
    NoDup (List.map handle extra) /\
    (forall t, In t extra ->
               isClear t = false /\ (nextHandle s <= handle t < nextHandle s')%N).

(** The timer the arming closure starts. *)
Definition armedTimer (s : State) : Timer :=
  {| handle := nextHandle s; created := now s; delay := 4500;
     callback := CbClearHighlight |}.

(** The pending handle is never stale: it is empty or the one [locate]
    gives for the current inputs. *)
Definition pendingFresh (s : State) : Prop :=
  pendingFocusRef s = None \/ pendingFocusRef s = locate s.


End WithConversions.

(** A filtered sequence of 25 records and the identifier at index 17. *)
Definition rows25 : list Z := List.map Z.of_nat (List.seq 101 25).
Definition id17 : Z := 118.

End Focus.

(* ===================================================================== *)
(** ** Tickets.tsx: the effect that consumes [?edit=ID]                   *)
(* ===================================================================== *)

Module Tickets.

Section WithConversions.

Context {lang : Url.Conversions}.

(** [editId], derived from the location at every render. *)
Definition editId (searchParams : Url.URLSearchParams) : option Z :=
  Url.idParam "edit" searchParams.

(** What one run of the effect asks for: the row handed to [openEdit] by a
    zero-delay timer, and the location it navigates to with
    [{ replace: true }] (the query string is held as the parameters it
    spells). *)
Record EditRequest : Type := mkEditRequest {
  openEditRow : Z;
  pathname : string;
  search : Url.URLSearchParams;
  replace : bool
}.

(** The effect "Auto-open edit dialog when URL has ?edit=ID (ADMIN only)",
    up to its decisions: [tickets] is [None] while the query has no data,
    and [None] as a result means the effect returned early. The timer it
    starts, the navigation it asks for and the cleanup it returns are
    carried out by [runEffect] below. *)
Definition editEffect (isAdmin : bool) (searchParams : Url.URLSearchParams)
    (tickets : option (list Z)) : option EditRequest :=
  if negb isAdmin then None
  else
    match editId searchParams with
    | None => None
    | Some editId =>
        if negb (Js.truthyNumber editId) then None
        else
          match tickets with
          | None => None
          | Some tickets =>
              if (Z.of_nat (List.length tickets) =? 0) then None
              else
                match List.find (fun t => t =? editId) tickets with
                | None => None
                | Some row =>
                    let params := Url.delete "edit" searchParams in
                    Some {| openEditRow := row; pathname := "/tickets";
                            search := params; replace := true |}
                end
          end
    end.

(** The part of the Tickets page and of the window that the edit effect
    works on. The router commits a location asked for with [navigate] in a
    render of its own, which may come before or after the zero-delay timer
    runs; until then the request is kept in [navigation]. *)
Record Page : Type := mkPage {
  isAdmin : bool;
  searchParams : Url.URLSearchParams;       (* [useSearchParams()] of the committed render *)
  tickets : option (list Z);
  navigation : option Url.URLSearchParams;  (* asked for with [navigate], not yet committed *)
  timers : list (N * Z);                    (* outstanding timers: handle, row for [openEdit] *)
  nextHandle : N;
  cleanup : option N;                       (* [() => window.clearTimeout(t)] of the last run *)
  editing : option Z;                       (* [editing] *)
  openForm : bool                           (* [openForm] *)
}.

(** [window.clearTimeout(t)] *)
Definition clearTimeout (t : N) (s : Page) : Page :=
  mkPage (isAdmin s) (searchParams s) (tickets s) (navigation s)
    (List.filter (fun ht => negb (N.eqb (fst ht) t)) (timers s))
    (nextHandle s) (cleanup s) (editing s) (openForm s).

(** The cleanup of the previous run of the effect, if it returned one. *)
Definition runCleanup (s : Page) : Page :=
  match cleanup s with
  | Some t =>
      let s := clearTimeout t s in
      mkPage (isAdmin s) (searchParams s) (tickets s) (navigation s) (timers s)
        (nextHandle s) None (editing s) (openForm s)
  | None => s
  end.

(** One run of the effect: past the guards it starts the zero-delay timer
    [t] for [openEdit(row)], asks the router for the location without
    [edit], and returns the cleanup that clears [t]. *)
Definition runEffect (s : Page) : Page :=
  match editEffect (isAdmin s) (searchParams s) (tickets s) with
  | None => s
  | Some r =>
      let t := nextHandle s in
      mkPage (isAdmin s) (searchParams s) (tickets s) (Some (search r))
        (timers s ++ [(t, openEditRow r)]) (N.succ t) (Some t)
        (editing s) (openForm s)
  end.

(** A render in which a dependency of the effect changed: the cleanup of
    the previous run, then the effect. *)
Definition rerunEffect (s : Page) : Page := runEffect (runCleanup s).

(** [openEdit(row)] *)
Definition openEdit (row : Z) (s : Page) : Page :=
  mkPage (isAdmin s) (searchParams s) (tickets s) (navigation s) (timers s)
    (nextHandle s) (cleanup s) (Some row) true.

Inductive PageEvent : Type :=
| TimerFires (h : N)                       (* the window runs timer [h] *)
| LocationCommitted                        (* the router commits the location asked for *)
| TicketsArrive (ts : option (list Z))     (* the query delivers data: a new array *)
| RoleArrives (admin : bool)               (* the [me] query settles [isAdmin] *)
| Renders.                                 (* a render that changes no dependency *)

Definition pageStep (e : PageEvent) (s : Page) : Page :=
  match e with
  | TimerFires h =>
      match List.find (fun ht => N.eqb (fst ht) h) (timers s) with
      | Some (_, row) => openEdit row (clearTimeout h s)
      | None => s
      end
  | LocationCommitted =>
      match navigation s with
      | Some params =>
          let s' := mkPage (isAdmin s) params (tickets s) None (timers s)
                      (nextHandle s) (cleanup s) (editing s) (openForm s) in
          if Url.eqb params (searchParams s) then s' else rerunEffect s'
      | None => s
      end
  | TicketsArrive ts =>
      rerunEffect (mkPage (isAdmin s) (searchParams s) ts (navigation s) (timers s)
                     (nextHandle s) (cleanup s) (editing s) (openForm s))
  | RoleArrives admin =>
      if Bool.eqb admin (isAdmin s) then s
      else rerunEffect (mkPage admin (searchParams s) (tickets s) (navigation s)
                          (timers s) (nextHandle s) (cleanup s) (editing s)
                          (openForm s))
  | Renders => s
  end.

Definition pageRun (evs : list PageEvent) (s : Page) : Page :=
  List.fold_left (fun s e => pageStep e s) evs s.

(** The page after its first render: the effect ran once. *)
Definition pageMount (admin : bool) (params : Url.URLSearchParams)
    (ts : option (list Z)) : Page :=
  runEffect (mkPage admin params ts None [] 1%N None None false).

(** Nothing is pending on the page and the form is closed: the page as it
    is from its first render until the effect gets past its guards. *)
Definition idle (s : Page) : Prop :=
  timers s = [] /\ navigation s = None /\ cleanup s = None /\
  editing s = None /\ openForm s = false.

(** The page is at rest: nothing is scheduled or asked for, the form is
    closed, and the location has no [edit] parameter. *)
Definition atRest (s : Page) : Prop :=
  timers s = [] /\ navigation s = None /\ editing s = None /\ openForm s = false /\
  Url.get "edit" (searchParams s) = None.

End WithConversions.

End Tickets.

(* ===================================================================== *)
(** ** App.tsx: the "mark all read" mutation                              *)
(* ===================================================================== *)

Module Notifications.

(** The fields of [NotificationItem] that [isRead] looks at. *)
Record NotificationItem : Type := mkNotification {
  id : Z;
  read_at : option string;   (* string | null | undefined *)
  is_read : option bool;     (* boolean | null | undefined *)
  read : option bool         (* boolean | undefined *)
}.

(** [isRead] of App.tsx *)
Definition isRead (n : NotificationItem) : bool :=
  if match read_at n with Some s => Js.truthyString s | None => false end then true
  else
    match is_read n with
    | Some b => b
    | None => match read n with Some b => b | None => false end
    end.

(** Calls put on the wire, in order. *)
Inductive Call : Type :=
| PostMarkAllRead        (* POST /api/notifications/mark-all-read/ *)
| PatchRead (id : Z).    (* PATCH /api/notifications/{id}/ { read: true } *)

(** What the mutation function resolves with. *)
Inductive Value : Type :=
| BulkResponse   (* the response of the bulk endpoint *)
| Null.

Section WithBackend.

(** The backend: a state [W]; each call either resolves ([true]) or
    rejects ([false]). *)
Variable W : Type.
Variable postMarkAllRead : W -> bool * W.
Variable patchRead : Z -> W -> bool * W.

Record Session : Type := mkSession { net : W; calls : list Call }.

(** Computations that may throw: [inl tt] is a thrown exception. *)
Definition M (A : Type) : Type := Session -> (unit + A) * Session.

Definition ret {A : Type} (a : A) : M A := fun s => (inr a, s).

Definition bind {A B : Type} (m : M A) (k : A -> M B) : M B :=
  fun s => match m s with
           | (inr a, s') => k a s'
           | (inl e, s') => (inl e, s')
           end.

(** [try { m } catch { handler }] *)
Definition tryCatch {A : Type} (m : M A) (handler : M A) : M A :=
  fun s => match m s with
           | (inr a, s') => (inr a, s')
           | (inl _, s') => handler s'
           end.

(** [await api.post("/api/notifications/mark-all-read/", {})] *)
Definition api_post_markAllRead : M Value :=
  fun s =>
    let '(ok, w) := postMarkAllRead (net s) in
    let s' := {| net := w; calls := calls s ++ [PostMarkAllRead] |} in
    (if ok then inr BulkResponse else inl tt, s').

(** [await api.patch(`/api/notifications/${id}/`, { read: true })] *)
Definition api_patch_read (id : Z) : M unit :=
  fun s =>
    let '(ok, w) := patchRead id (net s) in
    let s' := {| net := w; calls := calls s ++ [PatchRead id] |} in
    (if ok then inr tt else inl tt, s').

(** [for (const n of unread) { try { await api.patch(...) } catch { } }] *)
Fixpoint patchEach (unread : list NotificationItem) : M unit :=
  match unread with
  | [] => ret tt
  | n :: rest =>
      bind (tryCatch (api_patch_read (id n)) (ret tt)) (fun _ => patchEach rest)
  end.

(** [mutationFn] of [markAllReadMut] in App.tsx; [notifications] is the
    query data the closure holds ([None] for [undefined]). *)
Definition markAllReadMut_mutationFn (notifications : option (list NotificationItem))
  : M Value :=
  tryCatch api_post_markAllRead
    (let list := match notifications with Some l => l | None => [] end in
     let unread := List.filter (fun n => negb (isRead n)) list in
     bind (patchEach unread) (fun _ => ret Null)).

(** [markAllRead] of NotificationsDrawerContent.tsx, a component that no
    route mounts: the bulk call alone. *)
Definition drawer_markAllRead : M unit :=
  bind api_post_markAllRead (fun _ => ret tt).

End WithBackend.

(** A backend to run the mutation against: the identifiers it holds as
    read, the identifiers whose patch it rejects, and whether its bulk
    endpoint works. *)
Record Backend : Type := mkBackend {
  readIds : list Z;
  rejecting : list Z;
  bulkWorks : bool
}.

Definition memZ (x : Z) (l : list Z) : bool := List.existsb (Z.eqb x) l.

Definition backend_post (allIds : list Z) (w : Backend) : bool * Backend :=
  if bulkWorks w
  then (true, {| readIds := readIds w ++ allIds; rejecting := rejecting w;
                 bulkWorks := bulkWorks w |})
  else (false, w).

Definition backend_patch (id : Z) (w : Backend) : bool * Backend :=
  if memZ id (rejecting w) then (false, w)
  else (true, {| readIds := readIds w ++ [id]; rejecting := rejecting w;
                 bulkWorks := bulkWorks w |}).

(** Five unread notifications and one that is read. *)
Definition unreadItem (i : Z) : NotificationItem :=
  {| id := i; read_at := None; is_read := Some false; read := None |}.

Definition readItem (i : Z) : NotificationItem :=
  {| id := i; read_at := Some "2024-05-01T10:00:00Z"; is_read := None; read := None |}.

Definition sixItems : list NotificationItem :=
  [unreadItem 1; unreadItem 2; readItem 6; unreadItem 3; unreadItem 4; unreadItem 5].

End Notifications.

(* ===================================================================== *)
(** ** client.ts: the base URL; the route guard over the token store      *)
(* ===================================================================== *)

Module BaseUrl.

(** [normalizeBaseURL(url)]: [url.replace(/\/+$/, "")], the run of slashes
    at the very end of the string is dropped. *)
Fixpoint normalizeBaseURL (url : string) : string :=
  match url with
  | EmptyString => EmptyString
  | String c rest =>
      let r := normalizeBaseURL rest in
      if Ascii.eqb c "/" && String.eqb r "" then EmptyString else String c r
  end.

(** [k] slashes. *)
Fixpoint slashes (k : nat) : string :=
  match k with
  | O => EmptyString
  | S k' => String "/" (slashes k')
  end.

(** Does the string end with a slash? *)
Fixpoint endsWithSlash (s : string) : bool :=
  match s with
  | EmptyString => false
  | String c EmptyString => Ascii.eqb c "/"
  | String _ rest => endsWithSlash rest
  end.

End BaseUrl.

Module Guard.

(** What a guarded route renders. *)
Inductive Rendered : Type :=
| NavigateTo (path : string) (replace : bool)
| Children.

(** [ProtectedRoute]: [if (!tokens?.access) return <Navigate to="/login" replace />].
    The effect at the top of [App] tests the same condition. *)
Definition ProtectedRoute (W : Type) (b : Client.Browser W) : Rendered :=
  match Client.tokenStore_get b with
  | Some tokens =>
      if negb (Client.truthy (Client.access tokens)) then NavigateTo "/login" true
      else Children
  | None => NavigateTo "/login" true
  end.

End Guard.

(* ===================================================================== *)
(** ** The list pages: the unmount cleanup                                *)
(* ===================================================================== *)

Module FocusMore.
Import Focus.

(** The cleanup of the third effect, run when the page unmounts:
    [if (highlightTimerRef.current) window.clearTimeout(highlightTimerRef.current)]. *)
Definition unmountCleanup (s : State) : State :=
  match highlightTimerRef s with
  | Some h => if negb (N.eqb h 0) then clearTimeout h s else s
  | None => s
  end.

(** [highlightTimerRef] names a handle already given out, and an
    outstanding timer under that handle is a highlight timer. *)
Definition refOk (s : State) : Prop :=
  (forall h, highlightTimerRef s = Some h -> (h < nextHandle s)%N) /\
  (forall t, In t (timers s) -> highlightTimerRef s = Some (handle t) ->
             isClear t = true).

(** The outstanding timers that are not highlight timers. *)
Definition otherTimers (s : State) : list Timer :=
  List.filter (fun t => negb (isClear t)) (timers s).

End FocusMore.

(* ===================================================================== *)
(** ** App.tsx: optimistic updates of the notification cache               *)
(* ===================================================================== *)

Module Cache.
Import Notifications.

(** The query data under ["notifications"]: [None] for [undefined]. *)
Definition QueryData : Type := option (list NotificationItem).

(** [qc.getQueryData(["notifications"]) ?? []], also the default of the
    updater's parameter in [(old = []) => ...] and [notifications ?? []]. *)
Definition orEmpty (c : QueryData) : list NotificationItem :=
  match c with Some l => l | None => [] end.

Section WithClock.

(** [new Date().toISOString()] at the time of the update. *)
Variable nowIso : string.

(** [{ ...n, is_read: true, read: true, read_at: n.read_at ?? now }] *)
Definition markedRead (n : NotificationItem) : NotificationItem :=
  {| id := id n;
     read_at := Some (match read_at n with Some at_ => at_ | None => nowIso end);
     is_read := Some true;
     read := Some true |}.

(** [onMutate] of [markAllReadMut]: the context [{ prev }] and the cache
    after [setQueryData]. *)
Definition markAll_onMutate (c : QueryData) : list NotificationItem * QueryData :=
  let prev := orEmpty c in
  (prev, Some (List.map markedRead (orEmpty c))).

(** [onMutate] of [markOneReadMut]. *)
Definition markOne_onMutate (target : Z) (c : QueryData)
  : list NotificationItem * QueryData :=
  let prev := orEmpty c in
  (prev, Some (List.map (fun n => if id n =? target then markedRead n else n)
                 (orEmpty c))).

(** [onError]: [if (ctx?.prev) qc.setQueryData(["notifications"], ctx.prev)];
    an array is truthy, so a context always restores. *)
Definition onError (ctx : option (list NotificationItem)) (c : QueryData) : QueryData :=
  match ctx with
  | Some prev => Some prev
  | None => c
  end.

(** [unreadOnly]: [(notifications ?? []).filter((n) => !isRead(n))] *)
Definition unreadOnly (c : QueryData) : list NotificationItem :=
  List.filter (fun n => negb (isRead n)) (orEmpty c).

(** [unreadCount] *)
Definition unreadCount (c : QueryData) : nat := List.length (unreadOnly c).

Section WithBackend.

Variable W : Type.
Variable postMarkAllRead : W -> bool * W.
Variable patchRead : Z -> W -> bool * W.


(** One [markOneReadMut.mutate(id)] up to [onSettled]; its [mutationFn] is
    the single patch, which throws when the backend rejects it. *)
Definition markOneReadMut_mutate (target : Z) (c : QueryData) (s : Session W)
  : QueryData * Session W :=
  let '(prev, c1) := markOne_onMutate target c in
  match api_patch_read patchRead target s with
  | (inr _, s') => (c1, s')
  | (inl _, s') => (onError (Some prev) c1, s')
  end.

End WithBackend.

End WithClock.

End Cache.

(* ===================================================================== *)
(** ** Preferences kept in localStorage: theme and sidebar                *)
(* ===================================================================== *)

Module Prefs.

(** [localStorage]: the key/value pairs it holds, at most one per key. *)
Definition LocalStorage : Type := list (string * string).

(** [localStorage.getItem(key)]: [None] for [null]. *)
Fixpoint getItem (key : string) (ls : LocalStorage) : option string :=
  match ls with
  | [] => None
  | (k, v) :: rest => if String.eqb k key then Some v else getItem key rest
  end.

(** [localStorage.removeItem(key)] *)
Definition removeItem (key : string) (ls : LocalStorage) : LocalStorage :=
  List.filter (fun kv => negb (String.eqb (fst kv) key)) ls.

(** [localStorage.setItem(key, value)] *)
Definition setItem (key value : string) (ls : LocalStorage) : LocalStorage :=
  (key, value) :: removeItem key ls.

(** [type ThemeMode = "light" | "dark"] *)
Inductive ThemeMode : Type := light | dark.

Definition modeString (m : ThemeMode) : string :=
  match m with light => "light" | dark => "dark" end.

Definition THEME_KEY : string := "ui_theme_mode".

(** [themeStore.get()] *)
Definition themeStore_get (ls : LocalStorage) : ThemeMode :=
  match getItem THEME_KEY ls with
  | Some v => if String.eqb v "light" then light
              else if String.eqb v "dark" then dark
              else dark
  | None => dark
  end.

(** [themeStore.set(mode)]; the ["theme_mode_changed"] event it dispatches
    is taken up by the caller's listener (see [toggleTheme]). *)
Definition themeStore_set (mode : ThemeMode) (ls : LocalStorage) : LocalStorage :=
  setItem THEME_KEY (modeString mode) ls.

(** The [mode] state of [App] next to the storage it mirrors. *)
Record AppTheme : Type := mkAppTheme { mode : ThemeMode; storage : LocalStorage }.

(** [useState(() => themeStore.get())] *)
Definition initTheme (ls : LocalStorage) : AppTheme :=
  {| mode := themeStore_get ls; storage := ls |}.

(** [toggleTheme]: [themeStore.set(next)] fires the event, whose listener
    runs [setMode(themeStore.get())]. *)
Definition toggleTheme (a : AppTheme) : AppTheme :=
  let next := match mode a with dark => light | light => dark end in
  let ls := themeStore_set next (storage a) in
  {| mode := themeStore_get ls; storage := ls |}.

Definition SIDEBAR_KEY : string := "sidebar_open".

(** The initializer of [sidebarOpen]:
    [v === null ? true : v === "1"]. *)
Definition sidebarInit (ls : LocalStorage) : bool :=
  match getItem SIDEBAR_KEY ls with
  | None => true
  | Some v => String.eqb v "1"
  end.

(** The effect on [sidebarOpen]:
    [localStorage.setItem("sidebar_open", sidebarOpen ? "1" : "0")]. *)
Definition sidebarPersist (sidebarOpen : bool) (ls : LocalStorage) : LocalStorage :=
  setItem SIDEBAR_KEY (if sidebarOpen then "1" else "0") ls.

End Prefs.

(* ===================================================================== *)
(** ** Assignments.tsx: dates of the edit form                            *)
(* ===================================================================== *)

Module Dates.

(** [s.slice(0, n)] *)
Fixpoint sliceTo (n : nat) (s : string) : string :=
  match n, s with
  | O, _ => EmptyString
  | S _, EmptyString => EmptyString
  | S n', String c rest => String c (sliceTo n' rest)
  end.

(** [ymd(s)]: [if (!s) return ""; return String(s).slice(0, 10)];
    [None] stands for [null] and [undefined]. *)
Definition ymd (s : option string) : string :=
  match s with
  | Some x => if negb (Js.truthyString x) then "" else sliceTo 10 x
  | None => ""
  end.

(** The date fields of an assignment row. *)
Record AssignmentDates : Type := mkDates {
  date_assigned : string;
  date_returned : option string     (* string | null *)
}.

(** The date fields [openEdit(row)] puts in the form:
    [date_assigned: ymd(row.date_assigned)],
    [date_returned: row.date_returned ? ymd(row.date_returned) : ""]. *)
Definition openEdit_dates (row : AssignmentDates) : string * string :=
  (ymd (Some (date_assigned row)),
   match date_returned row with
   | Some r => if Js.truthyString r then ymd (Some r) else ""
   | None => ""
   end).

(** The date fields of the payload of [createMut] and [updateMut]:
    [date_assigned: form.date_assigned],
    [date_returned: form.date_returned || null]. *)
Definition payload_dates (form : string * string) : AssignmentDates :=
  {| date_assigned := fst form;
     date_returned := if Js.truthyString (snd form) then Some (snd form) else None |}.

End Dates.

(* ===================================================================== *)
(** ** Assets.tsx: the filtered sequence                                  *)
(* ===================================================================== *)

Module AssetsList.

(** [type Asset] *)
Record Asset : Type := mkAsset {
  id : Z;
  name : string;
  serial_number : string;
  status : string;
  type : option string
}.

Section WithStringMethods.

(** The string methods of the language the filter calls:
    [s.trim()], [s.toLowerCase()] and [t.includes(q)]. *)
Variable trim : string -> string.
Variable toLowerCase : string -> string.
Variable includes : string -> string -> bool.

(** [`${a.name} ${a.serial_number} ${a.status} ${a.type ?? ""}`.toLowerCase()] *)
Definition rowText (a : Asset) : string :=
  toLowerCase
    (name a ++ " " ++ serial_number a ++ " " ++ status a ++ " "
     ++ match type a with Some t => t | None => "" end)%string.

(** The predicate handed to [all.filter]. *)
Definition keepRow (statusFilter search : string) (a : Asset) : bool :=
  if Js.truthyString statusFilter && negb (String.eqb (status a) statusFilter)
  then false
  else
    let q := toLowerCase (trim search) in
    if Js.truthyString q then
      let t := rowText a in
      if negb (includes t q) then false else true
    else true.

(** [filteredRows]: [(assets ?? []).filter(...)]. *)
Definition filteredRows (assets : option (list Asset)) (statusFilter search : string)
  : list Asset :=
  List.filter (keepRow statusFilter search)
    (match assets with Some all => all | None => [] end).

(** The identifiers the coordinator looks at. *)
Definition rowIds (rows : list Asset) : list Z := List.map id rows.

End WithStringMethods.

(** Stand-ins for the string methods on plain ASCII text that needs no
    trimming: identity and a substring test. *)
Fixpoint isPrefix (q t : string) : bool :=
  match q, t with
  | EmptyString, _ => true
  | String a q', String b t' => Ascii.eqb a b && isPrefix q' t'
  | String _ _, EmptyString => false
  end.

Fixpoint isInfix (t q : string) : bool :=
  isPrefix q t || match t with
                  | EmptyString => false
                  | String _ t' => isInfix t' q
                  end.

Definition laptop : Asset :=
  {| id := 1; name := "laptop"; serial_number := "sn-1"; status := "AVAILABLE";
     type := None |}.
Definition phone : Asset :=
  {| id := 2; name := "phone"; serial_number := "sn-2"; status := "REPAIR";
     type := Some "mobile" |}.

End AssetsList.

(* ===================================================================== *)
(** * Properties                                                          *)
(* ===================================================================== *)

(** ** List unwrapping *)

Section UnwrapListFacts.
Import Js.

Lemma unwrapList_array (items : list JsValue) :
  unwrapList (JArray items) = Normal items.
Proof. reflexivity. Qed.

Lemma unwrapList_envelope (props : list (string * JsValue)) (items : list JsValue) :
  lookupProp "results" props = JArray items ->
  unwrapList (JObject props) = Normal items.
Proof.
  intros Hres. unfold unwrapList. cbn. rewrite Hres. reflexivity.
Qed.

Lemma unwrapList_object_other (props : list (string * JsValue)) :
  (forall items, lookupProp "results" props <> JArray items) ->
  unwrapList (JObject props) = Normal [].
Proof.
  intros Hno. unfold unwrapList. cbn.
  destruct (lookupProp "results" props) eqn:E; try reflexivity.
  exfalso. eapply Hno. reflexivity.
Qed.

Lemma unwrapList_returns (data : JsValue) : exists items, unwrapList data = Normal items.
Proof.
  destruct data as [| | b | n | s | items | props |];
    try (exists []; reflexivity).
  - exists items. reflexivity.
  - unfold unwrapList. cbn.
    destruct (Array_isArray (lookupProp "results" props)); eexists; reflexivity.
Qed.

(** C10. [unwrapList] never throws and always returns a list: the input's
    elements when the input is an array, the elements of the [results]
    field when the input is a non-null object whose [results] field is an
    array, and the empty list for every other input. For [null] it is the
    test [data !== null] that keeps it from throwing: reading [results]
    from [null] throws, and so does the body without that test. *)
Theorem unwrapList_cases (data : JsValue) :
  (exists items, unwrapList data = Normal items) /\
  (forall items, data = JArray items -> unwrapList data = Normal items) /\
  (forall props items,
      data = JObject props -> getProp data "results" = Normal (JArray items) ->
      unwrapList data = Normal items) /\
  ((forall items, data <> JArray items) ->
   (forall props items,
      data = JObject props -> getProp data "results" <> Normal (JArray items)) ->
   unwrapList data = Normal []) /\
  (data = JNull ->
   getProp data "results" = TypeError /\
   unwrapList_unguarded data = TypeError /\
   unwrapList data = Normal []).
Proof.
  split; [apply unwrapList_returns |]. split; [| split; [| split]].
  - intros items ->. apply unwrapList_array.
  - intros props items -> Hres. apply unwrapList_envelope.
    cbn in Hres. injection Hres as Hres. exact Hres.
  - intros Harr Henv. destruct data; try reflexivity.
    + exfalso. eapply Harr. reflexivity.
    + apply unwrapList_object_other. intros items Hres.
      eapply Henv; [reflexivity |]. cbn. rewrite Hres. reflexivity.
  - intros ->. repeat split.
Qed.

Lemma unwrapList_cases_witness :
  unwrapList (JArray [JNumber 1; JNumber 2]) = Normal [JNumber 1; JNumber 2] /\
  unwrapList (JObject [("count", JNumber 1); ("results", JArray [JNumber 7])])
  = Normal [JNumber 7] /\
  unwrapList JNull = Normal [] /\
  unwrapList_unguarded JNull = TypeError /\
  unwrapList (JObject [("results", JString "x")]) = Normal [].
Proof.
  split; [| split; [| split; [| split]]].
  - apply (proj1 (proj2 (unwrapList_cases (JArray [JNumber 1; JNumber 2]))) _ eq_refl).
  - apply (proj1 (proj2 (proj2 (unwrapList_cases
             (JObject [("count", JNumber 1); ("results", JArray [JNumber 7])]))))
             _ _ eq_refl eq_refl).
  - apply (proj2 (proj2 (proj2 (proj2 (unwrapList_cases JNull)))) eq_refl).
  - apply (proj2 (proj2 (proj2 (proj2 (unwrapList_cases JNull)))) eq_refl).
  - apply (proj1 (proj2 (proj2 (proj2
             (unwrapList_cases (JObject [("results", JString "x")])))))).
    + intros items H. discriminate H.
    + intros props items H. injection H as <-. cbn. discriminate.
Defined.

End UnwrapListFacts.

(** ** The authenticated request client *)

Section ClientFacts.
Import Client.

Variable W : Type.
Variable adapter : RetryConfig -> W -> Reply * W.
Variable refreshEndpoint : string -> W -> RefreshReply * W.

Local Abbreviation request := (@request W adapter refreshEndpoint).
Local Abbreviation dispatch := (@dispatch W adapter).
Local Abbreviation responseError := (@responseError W refreshEndpoint).
Local Abbreviation afterSend := (@afterSend W).
Local Abbreviation afterRefresh := (@afterRefresh W).
Local Abbreviation refreshUnavailable := (@refreshUnavailable W refreshEndpoint).

Lemma requestInterceptor_retry (cfg : RetryConfig) (b : Browser W) :
  _retry (requestInterceptor cfg b) = _retry cfg.
Proof.
  unfold requestInterceptor. destruct (tokenStore_get b) as [t|]; [| reflexivity].
  destruct (truthy (access t)); reflexivity.
Qed.

(** The outcome of one dispatch, the configuration it sent and the backend
    state it left. *)
Lemma dispatch_eq (cfg : RetryConfig) (b : Browser W) :
  dispatch cfg b =
  (settle (requestInterceptor cfg b)
          (fst (adapter (requestInterceptor cfg b) (net b))),
   withNet (snd (adapter (requestInterceptor cfg b) (net b)))
           (emit (EvSend (requestInterceptor cfg b)) b)).
Proof.
  unfold Client.dispatch.
  destruct (adapter (requestInterceptor cfg b) (net b)); reflexivity.
Qed.

Lemma settle_rejected_config (sent : RetryConfig) (r : Reply) (error : AxiosError) :
  settle sent r = Rejected error ->
  config error = None \/ config error = Some sent.
Proof.
  destruct r as [st| |]; cbn.
  - destruct ((200 <=? st) && (st <? 300)); [discriminate |].
    intros [= <-]. right. reflexivity.
  - intros [= <-]. right. reflexivity.
  - intros [= <-]. left. reflexivity.
Qed.

(** A request that already carries the retry mark goes through the
    rejection handler untouched: one dispatch and nothing else. *)
Lemma request_marked (n : nat) (cfg : RetryConfig) (b : Browser W) :
  _retry cfg = true ->
  request (S n) cfg b = Some (dispatch cfg b).
Proof.
  intros Hm. cbn [Client.request]. rewrite dispatch_eq.
  destruct (settle _ _) as [st sent | error] eqn:Hs; [reflexivity |].
  unfold Client.responseError.
  destruct (settle_rejected_config _ _ Hs) as [-> | ->]; [reflexivity |].
  rewrite requestInterceptor_retry, Hm, andb_false_r. reflexivity.
Qed.

Lemma log_emit (e : Event) (b : Browser W) : log (emit e b) = log b ++ [e].
Proof. reflexivity. Qed.

Lemma dispatch_log (cfg : RetryConfig) (b : Browser W) :
  log (snd (dispatch cfg b)) = log b ++ [EvSend (requestInterceptor cfg b)].
Proof. rewrite dispatch_eq. reflexivity. Qed.

(** A first 401 on an unmarked request hands the error to the handler. *)
Lemma request_first_401 (n : nat) (cfg : RetryConfig) (b : Browser W) (w1 : W) :
  adapter (requestInterceptor cfg b) (net b) = (HttpStatus 401, w1) ->
  request (S n) cfg b =
  responseError (request n)
    {| config := Some (requestInterceptor cfg b); response_status := Some 401 |}
    (afterSend (requestInterceptor cfg b) w1 b).
Proof.
  intros Ha. cbn [Client.request]. unfold Client.dispatch. rewrite Ha. reflexivity.
Qed.

(** Refresh resolved with a usable access token: the pair is stored and
    the marked request is replayed; the replay's outcome is the result. *)
Lemma handler_refreshed (n : nat) (c1 : RetryConfig) (b : Browser W) (w1 w2 : W)
    (t : Tokens) (a : string) :
  _retry c1 = false ->
  storage b = Some t -> truthy (refresh t) = true ->
  refreshEndpoint (refresh t) w1 = (RefreshResolved (Some a), w2) ->
  truthy a = true ->
  responseError (request (S n))
    {| config := Some c1; response_status := Some 401 |} (afterSend c1 w1 b)
  = Some (dispatch (setAuthHeader (markRetry c1) a) (afterRefresh c1 w1 w2 t a b)).
Proof.
  intros Hr Hs Ht Href Ha. unfold Client.responseError. cbn.
  rewrite Hr, Hs. cbn. rewrite Ht, Href. cbn. rewrite Ha.
  apply request_marked. reflexivity.
Qed.

(** In each of them the handler logs out and rejects with the error it was
    given (its configuration now marked). *)
Lemma handler_logout (k : RetryConfig -> Browser W -> option (Outcome * Browser W))
    (c1 : RetryConfig) (b : Browser W) (w1 : W) :
  _retry c1 = false ->
  refreshUnavailable b w1 ->
  exists b',
    Client.responseError refreshEndpoint k
      {| config := Some c1; response_status := Some 401 |} (afterSend c1 w1 b)
    = Some (Rejected {| config := Some (markRetry c1); response_status := Some 401 |}, b')
    /\ storage b' = None /\ location b' = "/login".
Proof.
  intros Hr Hu. unfold Client.responseError, Client.refreshUnavailable, Client.afterSend in *. cbn.
  rewrite Hr. cbn.
  destruct (storage b) as [t|]; cbn.
  - destruct Hu as [Hf | [Ht Hu]].
    + rewrite Hf. eexists. repeat split.
    + rewrite Ht. destruct (refreshEndpoint (refresh t) w1) as [r w2]. cbn in Hu.
      destruct r as [newAccess|].
      * rewrite Hu. eexists. repeat split.
      * eexists. repeat split.
  - eexists. repeat split.
Qed.

Local Ltac close_bound :=
  unfold Client.logout, Client.location_assign, Client.tokenStore_clear,
    Client.tokenStore_set, Client.emit, Client.withNet;
  cbn; repeat rewrite <- List.app_assoc; cbn;
  repeat split; try reflexivity; try (rewrite List.app_nil_r; reflexivity); try lia.

Lemma count_app (p : Event -> bool) (xs ys : list Event) :
  count p (xs ++ ys) = (count p xs + count p ys)%nat.
Proof. unfold count. rewrite List.filter_app, List.length_app. reflexivity. Qed.

(** Whatever the handler is given, it makes at most one refresh call and
    at most one further dispatch, and it marks before it refreshes. *)
Lemma handler_bound (n : nat) (error : AxiosError) (b1 : Browser W) :
  exists out b' evs,
    responseError (request (S n)) error b1 = Some (out, b') /\
    log b' = log b1 ++ evs /\
    (count isRefresh evs <= 1)%nat /\
    (count isSend evs <= 1)%nat /\
    markedBeforeRefresh false evs = true.
Proof.
  remember (request (S n)) as k eqn:Hk. unfold Client.responseError.
  destruct (config error) as [c|].
  2:{ exists (Rejected error), b1, []. close_bound. }
  destruct (is401 error && negb (_retry c)).
  2:{ exists (Rejected error), b1, []. close_bound. }
  cbn. destruct (storage b1) as [t|]; cbn.
  2:{ do 2 eexists. exists [EvMarkRetry; EvStoreClear; EvAssign "/login"].
      close_bound. }
  destruct (truthy (refresh t)).
  2:{ do 2 eexists. exists [EvMarkRetry; EvStoreClear; EvAssign "/login"].
      close_bound. }
  destruct (refreshEndpoint (refresh t) (net b1)) as [r w2].
  destruct r as [newAccess|].
  2:{ do 2 eexists.
      exists [EvMarkRetry; EvRefresh (refresh t); EvStoreClear; EvAssign "/login"].
      close_bound. }
  destruct (truthyOpt newAccess) eqn:Hna.
  2:{ do 2 eexists.
      exists [EvMarkRetry; EvRefresh (refresh t); EvStoreClear; EvAssign "/login"].
      close_bound. }
  destruct newAccess as [a|]; [| discriminate].
  subst k. rewrite request_marked by reflexivity. rewrite dispatch_eq.
  do 2 eexists.
  eexists [EvMarkRetry; EvRefresh (refresh t);
           EvStoreSet {| access := a; refresh := refresh t |}; EvSend _].
  close_bound.
Qed.

(** C1. At most one refresh-and-replay cycle per original request: with
    any backend, [api.request] returns, having made at most one refresh
    call and at most two dispatches, the refresh never before the retry
    mark; and when the original request gets a 401, the refresh gives a new
    token and the replay gets a 401 again, that second 401 is handed to the
    caller as a rejection, with one refresh call in all. *)
Theorem retry_once (cfg : RetryConfig) (b : Browser W) (n : nat) :
  (exists out b' evs,
      request (2 + n) cfg b = Some (out, b') /\
      log b' = log b ++ evs /\
      (count isRefresh evs <= 1)%nat /\
      (count isSend evs <= 2)%nat /\
      markedBeforeRefresh false evs = true) /\
  (forall (t : Tokens) (a : string) (w1 w2 w3 : W),
      let c1 := requestInterceptor cfg b in
      let c2 := setAuthHeader (markRetry c1) a in
      _retry cfg = false ->
      storage b = Some t -> truthy (refresh t) = true ->
      adapter c1 (net b) = (HttpStatus 401, w1) ->
      refreshEndpoint (refresh t) w1 = (RefreshResolved (Some a), w2) ->
      truthy a = true ->
      adapter c2 w2 = (HttpStatus 401, w3) ->
      exists b',
        request (2 + n) cfg b
        = Some (Rejected {| config := Some c2; response_status := Some 401 |}, b') /\
        log b' = log b ++ [EvSend c1; EvMarkRetry; EvRefresh (refresh t);
                           EvStoreSet {| access := a; refresh := refresh t |};
                           EvSend c2]).
Proof.
  split.
  - change (2 + n)%nat with (S (S n)). cbn [Client.request].
    rewrite dispatch_eq.
    destruct (settle _ _) as [st sent | error].
    + do 2 eexists. exists [EvSend (requestInterceptor cfg b)].
      close_bound.
    + destruct (handler_bound n error
                  (withNet (snd (adapter (requestInterceptor cfg b) (net b)))
                     (emit (EvSend (requestInterceptor cfg b)) b)))
        as (out & b' & evs & Hreq & Hlog & Hr & Hs & Hm).
      exists out, b', (EvSend (requestInterceptor cfg b) :: evs).
      split; [exact Hreq |]. split.
      * rewrite Hlog. cbn. rewrite <- List.app_assoc. reflexivity.
      * change (EvSend (requestInterceptor cfg b) :: evs)
          with ([EvSend (requestInterceptor cfg b)] ++ evs).
        rewrite !count_app. cbn. repeat split; try lia. exact Hm.
  - intros t a w1 w2 w3 c1 c2 Hr Hs Ht Ha1 Href Ha Ha2.
    change (2 + n)%nat with (S (S n)).
    rewrite (request_first_401 (S n) cfg b Ha1).
    fold c1.
    rewrite (@handler_refreshed n c1 b w1 w2 t a); auto.
    2:{ subst c1. rewrite requestInterceptor_retry. exact Hr. }
    fold c2. rewrite dispatch_eq.
    assert (Hc2 : requestInterceptor c2 (afterRefresh c1 w1 w2 t a b) = c2).
    { unfold requestInterceptor. cbn. rewrite Ha. reflexivity. }
    rewrite Hc2. cbn [net Client.afterRefresh tokenStore_set emit withNet].
    rewrite Ha2. cbn. eexists. split; [reflexivity |].
    cbn. repeat rewrite <- List.app_assoc. reflexivity.
Qed.

(** C2 (amended). Credential consistency after a 401 on an unmarked
    request. When the refresh call resolves with a non-empty access token,
    storage afterwards holds that access token next to the refresh token it
    held before, and the page stays where it is. When there is no stored
    pair, the stored refresh token is empty, the refresh call rejects, or
    it resolves without a non-empty access token, storage afterwards holds
    no credentials, the location is the login entry point, and the caller
    gets the original 401 error as a rejection. *)
Theorem refresh_credentials (cfg : RetryConfig) (b : Browser W) (n : nat) (w1 : W) :
  _retry cfg = false ->
  adapter (requestInterceptor cfg b) (net b) = (HttpStatus 401, w1) ->
  (forall (t : Tokens) (a : string) (w2 : W),
      storage b = Some t -> truthy (refresh t) = true ->
      refreshEndpoint (refresh t) w1 = (RefreshResolved (Some a), w2) ->
      truthy a = true ->
      exists out b',
        request (2 + n) cfg b = Some (out, b') /\
        storage b' = Some {| access := a; refresh := refresh t |} /\
        location b' = location b) /\
  (refreshUnavailable b w1 ->
      exists b',
        request (2 + n) cfg b
        = Some (Rejected {| config := Some (markRetry (requestInterceptor cfg b));
                            response_status := Some 401 |}, b') /\
        storage b' = None /\
        location b' = "/login").
Proof.
  intros Hr Ha1.
  assert (Hr1 : _retry (requestInterceptor cfg b) = false)
    by (rewrite requestInterceptor_retry; exact Hr).
  change (2 + n)%nat with (S (S n)).
  rewrite (request_first_401 (S n) cfg b Ha1).
  split.
  - intros t a w2 Hs Ht Href Ha.
    rewrite (@handler_refreshed n _ b w1 w2 t a Hr1 Hs Ht Href Ha).
    rewrite dispatch_eq. do 2 eexists. split; [reflexivity |].
    split; reflexivity.
  - intros Hu.
    destruct (@handler_logout (request (S n)) _ b w1 Hr1 Hu) as (b' & Hreq & Hst & Hloc).
    exists b'. auto.
Qed.

End ClientFacts.

Lemma retry_once_witness :
  exists b',
    Client.request (Client.alwaysStatus 401)
      (Client.refreshGives (Client.RefreshResolved (Some "a1")))
      2 Client.getAssets (Client.browserWith (Some Client.oldTokens))
    = Some (Client.Rejected
              {| Client.config :=
                   Some (Client.setAuthHeader
                           (Client.markRetry
                              (Client.setAuthHeader Client.getAssets "a0")) "a1");
                 Client.response_status := Some 401 |}, b') /\
    Client.count Client.isRefresh (Client.log b') = 1%nat /\
    Client.count Client.isSend (Client.log b') = 2%nat.
Proof.
  destruct (proj2 (retry_once (Client.alwaysStatus 401)
                     (Client.refreshGives (Client.RefreshResolved (Some "a1")))
                     Client.getAssets (Client.browserWith (Some Client.oldTokens)) 0)
              Client.oldTokens "a1" tt tt tt
              eq_refl eq_refl eq_refl eq_refl eq_refl eq_refl eq_refl)
    as [b' [Hreq Hlog]].
  exists b'. split; [exact Hreq |]. rewrite Hlog. split; reflexivity.
Defined.

(** C2, the claim as written fails: the refresh call succeeds (the promise
    resolves) but its body carries no access token; storage is cleared
    instead of keeping the refresh token. *)
Lemma refresh_resolved_without_token_clears :
  Client.refreshGives (Client.RefreshResolved None) "r0" tt
    = (Client.RefreshResolved None, tt) /\
  exists out b',
    Client.request (Client.alwaysStatus 401)
      (Client.refreshGives (Client.RefreshResolved None))
      2 Client.getAssets (Client.browserWith (Some Client.oldTokens))
    = Some (out, b') /\
    Client.log b'
    = [Client.EvSend (Client.setAuthHeader Client.getAssets "a0");
       Client.EvMarkRetry; Client.EvRefresh "r0"; Client.EvStoreClear;
       Client.EvAssign "/login"] /\
    Client.storage b' = None /\
    ~ (exists t, Client.storage b' = Some t /\
                 Client.refresh t = Client.refresh Client.oldTokens).
Proof.
  split; [reflexivity |].
  do 2 eexists. split; [reflexivity |]. cbn.
  split; [reflexivity |]. split; [reflexivity |].
  intros [t [H _]]. discriminate H.
Qed.

Lemma refresh_credentials_witness :
  (exists out b',
      Client.request (Client.alwaysStatus 401)
        (Client.refreshGives (Client.RefreshResolved (Some "a1")))
        2 Client.getAssets (Client.browserWith (Some Client.oldTokens))
      = Some (out, b') /\
      Client.storage b' = Some {| Client.access := "a1"; Client.refresh := "r0" |} /\
      Client.location b' = "/assets") /\
  (exists b',
      Client.request (Client.alwaysStatus 401)
        (Client.refreshGives Client.RefreshRejected)
        2 Client.getAssets (Client.browserWith (Some Client.oldTokens))
      = Some (Client.Rejected
                {| Client.config :=
                     Some (Client.markRetry (Client.setAuthHeader Client.getAssets "a0"));
                   Client.response_status := Some 401 |}, b') /\
      Client.storage b' = None /\
      Client.location b' = "/login").
Proof.
  split.
  - apply (proj1 (@refresh_credentials unit (Client.alwaysStatus 401)
                    (Client.refreshGives (Client.RefreshResolved (Some "a1")))
                    Client.getAssets (Client.browserWith (Some Client.oldTokens)) 0 tt
                    eq_refl eq_refl)
             Client.oldTokens "a1" tt eq_refl eq_refl eq_refl eq_refl).
  - apply (proj2 (@refresh_credentials unit (Client.alwaysStatus 401)
                    (Client.refreshGives Client.RefreshRejected)
                    Client.getAssets (Client.browserWith (Some Client.oldTokens)) 0 tt
                    eq_refl eq_refl)).
    cbn. right. split; [reflexivity | exact I].
Defined.

(** ** The focus-and-scroll coordinator *)

Section FocusFacts.
Import Focus.

Context {lang : Url.Conversions}.

Lemma findIndex_nil (target : Z) : findIndex [] target = -1.
Proof. reflexivity. Qed.

Lemma length_zero_nil (rows : list Z) :
  (Z.of_nat (List.length rows) =? 0) = true -> rows = [].
Proof.
  destruct rows; [reflexivity |]. cbn [List.length]. intros H.
  apply Z.eqb_eq in H. lia.
Qed.

(** The focus effect and [locate] agree on the pending handle. *)
Lemma focusEffect_pending (s : State) :
  pendingFocusRef (focusEffect s)
  = match locate s with Some p => Some p | None => pendingFocusRef s end.
Proof.
  unfold focusEffect, locate.
  destruct (focusId s) as [target|]; [| reflexivity].
  destruct (negb (Js.truthyNumber target)); [reflexivity |].
  destruct (Z.of_nat (List.length (filteredRows s)) =? 0); [reflexivity |].
  destruct (findIndex (filteredRows s) target =? -1); [reflexivity |].
  cbn. destruct (negb _); reflexivity.
Qed.

Lemma locate_found (s : State) (target idx : Z) :
  focusId s = Some target -> Js.truthyNumber target = true ->
  findIndex (filteredRows s) target = idx -> idx <> -1 ->
  locate s = Some (computePending target idx (paginationModel s)).
Proof.
  intros Hf Ht Hidx Hne. unfold locate. rewrite Hf, Ht. cbn.
  destruct (Z.of_nat (List.length (filteredRows s)) =? 0) eqn:Hlen.
  - apply length_zero_nil in Hlen. rewrite Hlen in Hidx.
    rewrite findIndex_nil in Hidx. congruence.
  - rewrite Hidx. destruct (idx =? -1) eqn:E; [| reflexivity].
    apply Z.eqb_eq in E. contradiction.
Qed.

(** C3. Locating: for a focus request (a non-zero identifier in the
    location) whose target is found at index [idx] of the filtered
    sequence, the coordinator computes
    [targetPage = floor(idx / pageSize)] and
    [rowIndexWithinPage = idx - targetPage * pageSize], where [pageSize] is
    the one the effect divides by (the model's page size, or 10 when that
    is 0); with 25 records, page size 10 and the target at index 17 this is
    page 1, row 7. *)
Theorem focus_locating (s : State) (target idx : Z) :
  focusId s = Some target -> Js.truthyNumber target = true ->
  findIndex (filteredRows s) target = idx -> idx <> -1 ->
  let pageSize := effectivePageSize (paginationModel s) in
  pendingFocusRef (focusEffect s)
  = Some {| id := target;
            targetPage := idx / pageSize;
            rowIndexWithinPage := idx - (idx / pageSize) * pageSize |}
  /\ (Focus.pageSize (paginationModel s) <> 0 ->
      pageSize = Focus.pageSize (paginationModel s))
  /\ (List.length rows25 = 25%nat /\ findIndex rows25 id17 = 17 /\
      (Url.Number "118" = Url.Finite 118 ->
       pendingFocusRef (focusEffect (initial [("focus", "118")] rows25))
       = Some {| id := id17; targetPage := 1; rowIndexWithinPage := 7 |})).
Proof.
  intros Hf Ht Hidx Hne pageSize.
  split; [| split].
  - rewrite focusEffect_pending, (locate_found s Hf Ht Hidx Hne). reflexivity.
  - intros Hnz. subst pageSize. unfold effectivePageSize, Js.truthyNumber.
    destruct (Focus.pageSize (paginationModel s) =? 0) eqn:E; [| reflexivity].
    apply Z.eqb_eq in E. contradiction.
  - split; [reflexivity |]. split; [reflexivity |]. intros Hn.
    rewrite focusEffect_pending.
    rewrite (@locate_found (initial [("focus", "118")] rows25) 118 17);
      try reflexivity; [| discriminate].
    unfold focusId, Url.idParam. cbn. rewrite Hn. reflexivity.
Qed.

Lemma focusEffect_absent (s : State) (target : Z) :
  focusId s = Some target ->
  findIndex (filteredRows s) target = -1 ->
  focusEffect s = s.
Proof.
  intros Hf Hidx. unfold focusEffect. rewrite Hf, Hidx.
  destruct (negb (Js.truthyNumber target)); [reflexivity |].
  destruct (Z.of_nat (List.length (filteredRows s)) =? 0); reflexivity.
Qed.

Lemma pageChanged_same (s s' : State) :
  paginationModel s' = paginationModel s -> pageChanged s s' = false.
Proof. intros H. unfold pageChanged. rewrite H, Z.eqb_refl. reflexivity. Qed.

(** C4. Silent miss: a focus request whose target is not in the filtered
    sequence changes nothing but the location it arrived with: the
    highlight, the pending handle and the pagination model stay as they
    were, no timer (page change or arming) and no scroll is scheduled, and
    the effect simply returns. *)
Theorem silent_miss (v : PageVariant) (s : State)
    (params : Url.URLSearchParams) (target : Z) :
  Url.idParam "focus" params = Some target ->
  findIndex (filteredRows s) target = -1 ->
  let s' := step v (Navigate params) s in
  s' = set_searchParams params s /\
  focusEffect s' = s' /\
  highlightId s' = highlightId s /\
  highlightTimerRef s' = highlightTimerRef s /\
  pendingFocusRef s' = pendingFocusRef s /\
  paginationModel s' = paginationModel s /\
  timers s' = timers s /\
  frames s' = frames s /\
  scrolled s' = scrolled s.
Proof.
  intros Hf Hidx s'.
  assert (Heff : focusEffect (set_searchParams params s) = set_searchParams params s)
    by (apply (@focusEffect_absent _ target); [exact Hf | exact Hidx]).
  assert (Hs' : s' = set_searchParams params s).
  { subst s'. cbn [step]. unfold render. rewrite Heff.
    rewrite (@pageChanged_same s (set_searchParams params s)) by reflexivity.
    rewrite andb_false_r. destruct (_ || _); reflexivity. }
  rewrite Hs'. repeat split. exact Heff.
Qed.

(** *** What effects may do: schedule timers that are not highlight timers *)

Lemma scheduled_refl (s : State) : scheduled s s.
Proof.
  unfold scheduled. repeat split; try lia.
  exists []. rewrite List.app_nil_r. repeat split; try constructor.
  all: destruct H.
Qed.

Lemma scheduled_trans (s1 s2 s3 : State) :
  scheduled s1 s2 -> scheduled s2 s3 -> scheduled s1 s3.
Proof.
  intros (A1 & A2 & A3 & A4 & A5 & A6 & A7 & A8 & A9 & e1 & At & And & Ae)
         (B1 & B2 & B3 & B4 & B5 & B6 & B7 & B8 & B9 & e2 & Bt & Bnd & Be).
  unfold scheduled. repeat split; try congruence; try lia.
  exists (e1 ++ e2). split; [| split].
  - rewrite Bt, At, List.app_assoc. reflexivity.
  - rewrite List.map_app. apply List.NoDup_app; auto.
    intros h H1 H2.
    apply List.in_map_iff in H1. destruct H1 as (t1 & <- & H1).
    apply List.in_map_iff in H2. destruct H2 as (t2 & E & H2).
    apply Ae in H1. apply Be in H2. lia.
  - intros t Ht. apply List.in_app_or in Ht. destruct Ht as [Ht | Ht].
    + apply Ae in Ht. split; [tauto | lia].
    + apply Be in Ht. split; [tauto | lia].
Qed.

Lemma setTimeout_scheduled (cb : Callback) (ms : N) (s : State) :
  match cb with CbClearHighlight => false | _ => true end = true ->
  scheduled s (snd (setTimeout cb ms s)).
Proof.
  intros Hcb. unfold scheduled, setTimeout. cbn. repeat split; try lia.
  eexists. split; [reflexivity |]. split.
  - cbn. constructor; [intros [] | constructor].
  - intros t [<- | []]. cbn. split; [| lia].
    unfold isClear. cbn. destruct cb; try reflexivity. discriminate.
Qed.

Lemma set_pending_scheduled (p : option PendingFocus) (s : State) :
  scheduled s (set_pendingFocusRef p s).
Proof.
  unfold scheduled. cbn. repeat split; try lia.
  exists []. rewrite List.app_nil_r. repeat split; try constructor.
  all: destruct H.
Qed.

Lemma focusEffect_scheduled (s : State) : scheduled s (focusEffect s).
Proof.
  unfold focusEffect.
  destruct (focusId s) as [target|]; [| apply scheduled_refl].
  destruct (negb (Js.truthyNumber target)); [apply scheduled_refl |].
  destruct (Z.of_nat (List.length (filteredRows s)) =? 0); [apply scheduled_refl |].
  destruct (findIndex (filteredRows s) target =? -1); [apply scheduled_refl |].
  cbv zeta.
  destruct (negb _);
    (eapply scheduled_trans;
     [apply set_pending_scheduled | apply setTimeout_scheduled; reflexivity]).
Qed.

Lemma settleEffect_scheduled (s : State) : scheduled s (settleEffect s).
Proof.
  unfold settleEffect.
  destruct (pendingFocusRef s) as [p|]; [| apply scheduled_refl].
  destruct (negb _); [apply scheduled_refl |].
  apply setTimeout_scheduled. reflexivity.
Qed.

Lemma render_scheduled (v : PageVariant) (rc : bool) (old new : State) :
  scheduled new (render v rc old new).
Proof.
  unfold render.
  set (fd := _ || _ || _ || _ || _).
  destruct fd; destruct (hasSettleEffect v && pageChanged old new);
    repeat first [ apply scheduled_refl
                 | apply focusEffect_scheduled
                 | apply settleEffect_scheduled
                 | eapply scheduled_trans; [apply focusEffect_scheduled |] ].
Qed.

Lemma mount_scheduled (v : PageVariant) (params : Url.URLSearchParams) (rows : list Z) :
  scheduled (initial params rows) (mount v params rows).
Proof.
  unfold mount. destruct (hasSettleEffect v).
  - eapply scheduled_trans; [apply focusEffect_scheduled | apply settleEffect_scheduled].
  - apply focusEffect_scheduled.
Qed.

Lemma filter_none (A : Type) (f : A -> bool) (l : list A) :
  (forall x, In x l -> f x = false) -> List.filter f l = [].
Proof.
  induction l as [|a l IH]; intros H; [reflexivity |]. cbn.
  rewrite (H a (or_introl eq_refl)). apply IH. intros x Hx. apply H. right. exact Hx.
Qed.

Lemma highlightTimers_scheduled (s s' : State) :
  scheduled s s' -> highlightTimers s' = highlightTimers s.
Proof.
  intros (_ & _ & _ & _ & _ & _ & _ & _ & _ & extra & Ht & _ & He).
  unfold highlightTimers. rewrite Ht, List.filter_app.
  rewrite (@filter_none _ isClear extra), List.app_nil_r; [reflexivity |].
  intros t Hin. apply He in Hin. tauto.
Qed.

Lemma timersOk_scheduled (s s' : State) :
  timersOk s -> scheduled s s' -> timersOk s'.
Proof.
  intros (P1 & P2 & P3 & P4)
         (_ & _ & _ & _ & Href & _ & _ & _ & Hn & extra & Ht & Hnd & He).
  unfold timersOk. rewrite Ht, Href. repeat split.
  - lia.
  - apply List.in_app_or in H. destruct H as [H | H].
    + apply P2 in H. lia.
    + apply He in H. lia.
  - apply List.in_app_or in H. destruct H as [H | H].
    + apply P2 in H. lia.
    + apply He in H. lia.
  - rewrite List.map_app. apply List.NoDup_app; auto.
    intros h H1 H2.
    apply List.in_map_iff in H1. destruct H1 as (t1 & <- & H1).
    apply List.in_map_iff in H2. destruct H2 as (t2 & E & H2).
    apply P2 in H1. apply He in H2. lia.
  - intros t Hin Hc. apply List.in_app_or in Hin. destruct Hin as [Hin | Hin].
    + apply P4; assumption.
    + apply He in Hin. destruct Hin as [Hin _]. congruence.
Qed.

(** *** The timer table stays well formed *)

Lemma NoDup_map_filter (A B : Type) (f : A -> B) (p : A -> bool) (l : list A) :
  NoDup (List.map f l) -> NoDup (List.map f (List.filter p l)).
Proof.
  induction l as [|a l IH]; cbn; intros H; [constructor |].
  inversion H as [| x xs Hnin Hnd]; subst.
  destruct (p a); cbn; [| apply IH; exact Hnd].
  constructor; [| apply IH; exact Hnd].
  intros Hin. apply Hnin. apply List.in_map_iff in Hin.
  destruct Hin as (y & Ey & Hy). apply List.filter_In in Hy.
  apply List.in_map_iff. exists y. tauto.
Qed.

Lemma clearTimeout_ok (h : N) (s : State) : timersOk s -> timersOk (clearTimeout h s).
Proof.
  intros (P1 & P2 & P3 & P4). unfold timersOk, clearTimeout. cbn.
  split; [exact P1 |]. split; [| split].
  - intros t Hin. apply List.filter_In in Hin. apply P2. tauto.
  - apply NoDup_map_filter. exact P3.
  - intros t Hin. apply List.filter_In in Hin. apply P4. tauto.
Qed.



(** After the cancellation in the arming closure no highlight timer is
    outstanding. *)
Lemma cancel_highlightTimers (s : State) :
  timersOk s -> highlightTimers (cancelHighlightTimer s) = [].
Proof.
  intros (P1 & P2 & P3 & P4). unfold highlightTimers, cancelHighlightTimer.
  apply filter_none. intros t Hin.
  destruct (isClear t) eqn:Hc; [exfalso | reflexivity].
  destruct (highlightTimerRef s) as [h|] eqn:Href.
  - destruct (negb (h =? 0)%N) eqn:Hz.
    + unfold clearTimeout in Hin. cbn in Hin. apply List.filter_In in Hin.
      destruct Hin as [Hin Hne]. specialize (P4 t Hin Hc).
      try rewrite Href in P4. injection P4 as P4. subst h. rewrite N.eqb_refl in Hne. discriminate.
    + specialize (P4 t Hin Hc). try rewrite Href in P4. injection P4 as P4. subst h.
      apply negb_false_iff, N.eqb_eq in Hz. apply P2 in Hin. lia.
  - specialize (P4 t Hin Hc). try rewrite Href in P4. discriminate.
Qed.

Lemma cancel_sub (s : State) (t : Timer) :
  In t (timers (cancelHighlightTimer s)) -> In t (timers s).
Proof.
  unfold cancelHighlightTimer. destruct (highlightTimerRef s) as [h|]; [| auto].
  destruct (negb (h =? 0)%N); [| auto].
  unfold clearTimeout. cbn. intros H. apply List.filter_In in H. tauto.
Qed.

Lemma cancel_nextHandle (s : State) :
  nextHandle (cancelHighlightTimer s) = nextHandle s.
Proof.
  unfold cancelHighlightTimer. destruct (highlightTimerRef s) as [h|]; [| reflexivity].
  destruct (negb (h =? 0)%N); reflexivity.
Qed.

Lemma cancel_nodup (s : State) :
  NoDup (List.map handle (timers s)) ->
  NoDup (List.map handle (timers (cancelHighlightTimer s))).
Proof.
  unfold cancelHighlightTimer. destruct (highlightTimerRef s) as [h|]; [| auto].
  destruct (negb (h =? 0)%N); [| auto].
  unfold clearTimeout. cbn. apply NoDup_map_filter.
Qed.

(** The arming closure, spelled out on a state with a pending handle. *)
Lemma arm_pending (s : State) (p : PendingFocus) :
  pendingFocusRef s = Some p ->
  highlightId (arm s) = Some (id p) /\
  pendingFocusRef (arm s) = None /\
  highlightTimerRef (arm s) = Some (nextHandle s) /\
  frames (arm s) = frames s ++ [rowIndexWithinPage p] /\
  scrolled (arm s) = scrolled s /\
  now (arm s) = now s /\
  nextHandle (arm s) = N.succ (nextHandle s) /\
  timers (arm s) = timers (cancelHighlightTimer s) ++ [armedTimer s] /\
  searchParams (arm s) = searchParams s /\
  filteredRows (arm s) = filteredRows s /\
  paginationModel (arm s) = paginationModel s.
Proof.
  intros Hp. unfold arm. rewrite Hp. unfold setTimeout, armedTimer.
  unfold cancelHighlightTimer. cbn.
  destruct (highlightTimerRef s) as [h|]; [destruct (negb (h =? 0)%N) |];
    cbn; repeat split.
Qed.

Lemma arm_none (s : State) : pendingFocusRef s = None -> arm s = s.
Proof. intros Hp. unfold arm. rewrite Hp. reflexivity. Qed.

Lemma arm_ok (s : State) : timersOk s -> timersOk (arm s).
Proof.
  intros Hok. destruct (pendingFocusRef s) as [p|] eqn:Hp.
  2:{ rewrite arm_none; assumption. }
  destruct (arm_pending s Hp) as (_ & _ & Href & _ & _ & _ & Hn & Ht & _).
  pose proof (cancel_highlightTimers Hok) as Hnone.
  destruct Hok as (P1 & P2 & P3 & P4).
  unfold timersOk. rewrite Href, Hn, Ht. repeat split; try lia.
  - apply List.in_app_or in H. destruct H as [H | [<- | []]]; [| cbn; lia].
    apply cancel_sub, P2 in H. lia.
  - apply List.in_app_or in H. destruct H as [H | [<- | []]]; [| cbn; lia].
    apply cancel_sub, P2 in H. lia.
  - rewrite List.map_app. apply List.NoDup_app.
    + apply cancel_nodup. exact P3.
    + cbn. constructor; [intros [] | constructor].
    + intros h H1 [<- | []]. apply List.in_map_iff in H1.
      destruct H1 as (t & E & Hin). apply cancel_sub, P2 in Hin. cbn in E. lia.
  - intros t Hin Hc. apply List.in_app_or in Hin. destruct Hin as [Hin | [<- | []]].
    + exfalso. unfold highlightTimers in Hnone.
      assert (Hin' : In t (List.filter isClear (timers (cancelHighlightTimer s))))
        by (apply List.filter_In; split; assumption).
      rewrite Hnone in Hin'. destruct Hin'.
    + reflexivity.
Qed.

Lemma runCallback_ok (cb : Callback) (s : State) : timersOk s -> timersOk (runCallback cb s).
Proof.
  intros Hok. destruct cb as [tp| |]; cbn.
  - destruct (page (paginationModel s) =? tp); exact Hok.
  - apply arm_ok. exact Hok.
  - exact Hok.
Qed.

Lemma step_ok (v : PageVariant) (e : Event) (s : State) :
  timersOk s -> timersOk (step v e s).
Proof.
  intros Hok. destruct e as [dt | h | | pm | params | rows |]; cbn [step].
  - exact Hok.
  - destruct (findTimer h (timers s)) as [t|]; [| exact Hok].
    destruct (due t s); [| exact Hok].
    assert (H1 : timersOk (runCallback (callback t) (clearTimeout h s)))
      by (apply runCallback_ok, clearTimeout_ok; exact Hok).
    destruct (componentStateChanged _ _); [| exact H1].
    eapply timersOk_scheduled; [exact H1 | apply render_scheduled].
  - exact Hok.
  - eapply timersOk_scheduled; [| apply render_scheduled]. exact Hok.
  - eapply timersOk_scheduled; [| apply render_scheduled]. exact Hok.
  - eapply timersOk_scheduled; [| apply render_scheduled]. exact Hok.
  - eapply timersOk_scheduled; [| apply render_scheduled]. exact Hok.
Qed.

Lemma initial_ok (params : Url.URLSearchParams) (rows : list Z) :
  timersOk (initial params rows).
Proof.
  unfold timersOk, initial. cbn. repeat split; try lia; try constructor.
Qed.

Lemma run_ok (v : PageVariant) (evs : list Event) (s : State) :
  timersOk s -> timersOk (run v evs s).
Proof.
  revert s. induction evs as [|e evs IH]; intros s Hok; [exact Hok |].
  cbn. apply IH, step_ok, Hok.
Qed.

Lemma reachable_ok (v : PageVariant) (evs : list Event)
    (params : Url.URLSearchParams) (rows : list Z) :
  timersOk (run v evs (mount v params rows)).
Proof.
  apply run_ok. eapply timersOk_scheduled; [apply initial_ok | apply mount_scheduled].
Qed.

(** *** At most one highlight, at most one highlight timer *)

Lemma highlightTimers_le1 (s : State) :
  timersOk s -> (List.length (highlightTimers s) <= 1)%nat.
Proof.
  intros (P1 & P2 & P3 & P4).
  assert (Hnd : NoDup (List.map handle (highlightTimers s)))
    by (apply NoDup_map_filter; exact P3).
  assert (Hall : forall t, In t (highlightTimers s) ->
                           highlightTimerRef s = Some (handle t)).
  { intros t Hin. apply List.filter_In in Hin. apply P4; tauto. }
  destruct (highlightTimers s) as [|a [|b l]]; cbn; try lia.
  exfalso.
  pose proof (Hall a (or_introl eq_refl)) as Ha.
  pose proof (Hall b (or_intror (or_introl eq_refl))) as Hb.
  rewrite Ha in Hb. injection Hb as Hb.
  cbn in Hnd. inversion Hnd as [| x xs Hnin _]; subst.
  apply Hnin. left. symmetry. exact Hb.
Qed.

Lemma rowFocus_unique (s : State) (r1 r2 : Z) :
  rowFocus s r1 = true -> rowFocus s r2 = true -> r1 = r2.
Proof.
  unfold rowFocus, optZ_eqb. destruct (highlightId s) as [i|]; [| discriminate].
  intros H1 H2. apply Z.eqb_eq in H1, H2. congruence.
Qed.

(** What an arming step is made of. *)
Lemma arming_step (v : PageVariant) (e : Event) (s : State) :
  arms e s = true ->
  exists h t p,
    e = Fire h /\ findTimer h (timers s) = Some t /\ callback t = CbArm /\
    due t s = true /\ pendingFocusRef s = Some p /\
    scheduled (arm (clearTimeout h s)) (step v e s).
Proof.
  destruct e as [dt | h | | pm | params | rows |]; cbn [arms]; try discriminate.
  destruct (findTimer h (timers s)) as [t|] eqn:Hf; [| discriminate].
  destruct (due t s) eqn:Hd; [| discriminate].
  destruct (callback t) eqn:Hc; try discriminate.
  destruct (pendingFocusRef s) as [p|] eqn:Hp; [| discriminate].
  intros _. exists h, t, p.
  do 5 (split; [first [reflexivity | assumption] |]).
  cbn [step]. rewrite Hf, Hd, Hc. cbn [runCallback].
  destruct (componentStateChanged _ _);
    [apply render_scheduled | apply scheduled_refl].
Qed.

Lemma arming_result (v : PageVariant) (e : Event) (s : State) :
  timersOk s -> arms e s = true ->
  exists p,
    pendingFocusRef s = Some p /\
    highlightId (step v e s) = Some (id p) /\
    highlightTimers (step v e s) = [armedTimer s] /\
    frames (step v e s) = frames s ++ [rowIndexWithinPage p] /\
    now (step v e s) = now s.
Proof.
  intros Hok Ha.
  destruct (arming_step v e s Ha) as (h & t & p & -> & Hf & Hc & Hd & Hp & Hsch).
  exists p. split; [exact Hp |].
  assert (Hp0 : pendingFocusRef (clearTimeout h s) = Some p) by exact Hp.
  destruct (arm_pending _ Hp0) as (Hh & _ & _ & Hfr & _ & Hnow & _ & Ht & _).
  pose proof (highlightTimers_scheduled Hsch) as Hht.
  destruct Hsch as (_ & _ & _ & Hh' & _ & Hnow' & Hfr' & _).
  rewrite Hh', Hh, Hht, Hfr', Hfr, Hnow', Hnow. repeat split.
  unfold highlightTimers at 1. rewrite Ht, List.filter_app.
  pose proof (cancel_highlightTimers (clearTimeout_ok h Hok)) as Hnone.
  unfold highlightTimers in Hnone. rewrite Hnone. reflexivity.
Qed.

(** C6. In every state the page can reach, at most one highlight timer is
    outstanding and at most one record is drawn highlighted; an arming
    (a focus request taking effect) leaves exactly the timer it starts, and
    a highlight timer that was outstanding before it is cancelled. *)
Theorem single_highlight (v : PageVariant) (params : Url.URLSearchParams)
    (rows : list Z) (evs : list Event) :
  let s := run v evs (mount v params rows) in
  (List.length (highlightTimers s) <= 1)%nat /\
  (forall r1 r2, rowFocus s r1 = true -> rowFocus s r2 = true -> r1 = r2) /\
  (forall e, arms e s = true ->
     highlightTimers (step v e s) = [armedTimer s] /\
     (forall t, In t (highlightTimers s) -> ~ In t (timers (step v e s)))).
Proof.
  intros s. pose proof (reachable_ok v evs params rows) as Hok. fold s in Hok.
  split; [apply highlightTimers_le1; exact Hok |].
  split; [apply rowFocus_unique |].
  intros e Ha.
  destruct (arming_result v e Hok Ha) as (p & _ & _ & Hht & _).
  split; [exact Hht |].
  intros t Hin Hin'. apply List.filter_In in Hin. destruct Hin as [Hin Hc].
  assert (Ht : In t (highlightTimers (step v e s)))
    by (apply List.filter_In; split; assumption).
  rewrite Hht in Ht. destruct Ht as [<- | []].
  destruct Hok as (_ & P2 & _). apply P2 in Hin. cbn in Hin. lia.
Qed.

(** *** Highlight expiry *)










(** *** Page-size changes and the pending handle *)

Lemma locate_ext (s s' : State) :
  searchParams s' = searchParams s ->
  filteredRows s' = filteredRows s ->
  pageSize (paginationModel s') = pageSize (paginationModel s) ->
  locate s' = locate s.
Proof.
  intros Hp Hr Hs. unfold locate, focusId, computePending, effectivePageSize.
  rewrite Hp, Hr, Hs. reflexivity.
Qed.


Lemma locate_scheduled (s s' : State) : scheduled s s' -> locate s' = locate s.
Proof.
  intros (Hp & Hr & Hm & _). apply locate_ext; congruence.
Qed.

Lemma locate_some_inv (s : State) (p : PendingFocus) :
  locate s = Some p ->
  exists target,
    focusId s = Some target /\
    p = computePending target (findIndex (filteredRows s) target) (paginationModel s).
Proof.
  unfold locate. destruct (focusId s) as [target|]; [| discriminate].
  destruct (negb (Js.truthyNumber target)); [discriminate |].
  destruct (Z.of_nat (List.length (filteredRows s)) =? 0); [discriminate |].
  destruct (findIndex (filteredRows s) target =? -1); [discriminate |].
  intros [= <-]. exists target. split; reflexivity.
Qed.

Lemma settleEffect_pending (s : State) :
  pendingFocusRef (settleEffect s) = pendingFocusRef s.
Proof.
  unfold settleEffect. destruct (pendingFocusRef s) as [p|] eqn:Hp; [| exact Hp].
  destruct (negb _); [exact Hp |]. cbn. exact Hp.
Qed.

Lemma focusEffect_fresh (s : State) :
  (locate s = None -> pendingFresh s) -> pendingFresh (focusEffect s).
Proof.
  intros H. unfold pendingFresh.
  rewrite focusEffect_pending, (locate_scheduled (focusEffect_scheduled s)).
  destruct (locate s) as [p|] eqn:Hl; [right; reflexivity |].
  destruct (H eq_refl) as [Hn | Hn]; [left; exact Hn | right; rewrite Hn; exact Hl].
Qed.

Lemma settleEffect_fresh (s : State) : pendingFresh s -> pendingFresh (settleEffect s).
Proof.
  unfold pendingFresh.
  rewrite settleEffect_pending, (locate_scheduled (settleEffect_scheduled s)). auto.
Qed.





Lemma mount_fresh (v : PageVariant) (params : Url.URLSearchParams) (rows : list Z) :
  pendingFresh (mount v params rows).
Proof.
  unfold mount.
  assert (H : pendingFresh (focusEffect (initial params rows)))
    by (apply focusEffect_fresh; intros _; left; reflexivity).
  destruct (hasSettleEffect v); [apply settleEffect_fresh |]; exact H.
Qed.

(** *** The location is left alone *)

Lemma runCallback_searchParams (cb : Callback) (s : State) :
  searchParams (runCallback cb s) = searchParams s.
Proof.
  destruct cb as [tp| |]; cbn [runCallback].
  - destruct (_ =? tp); reflexivity.
  - destruct (pendingFocusRef s) as [p|] eqn:Hp.
    + apply (arm_pending _ Hp).
    + rewrite arm_none by exact Hp. reflexivity.
  - reflexivity.
Qed.

Lemma render_searchParams (v : PageVariant) (rc : bool) (old new : State) :
  searchParams (render v rc old new) = searchParams new.
Proof. apply (render_scheduled v rc old new). Qed.

Lemma step_searchParams (v : PageVariant) (e : Event) (s : State) :
  staysOnLocation e = true -> searchParams (step v e s) = searchParams s.
Proof.
  intros Hk. destruct e as [dt | h | | pm | params | rows |];
    try discriminate; cbn [step]; try reflexivity;
    try (rewrite render_searchParams; reflexivity).
  destruct (findTimer h (timers s)) as [t|]; [| reflexivity].
  destruct (due t s); [| reflexivity].
  destruct (componentStateChanged _ _);
    [rewrite render_searchParams |]; rewrite runCallback_searchParams; reflexivity.
Qed.

Lemma run_searchParams (v : PageVariant) (evs : list Event) (s : State) :
  List.forallb staysOnLocation evs = true ->
  searchParams (run v evs s) = searchParams s.
Proof.
  revert s. induction evs as [|e evs IH]; intros s Hk; [reflexivity |].
  cbn in Hk. apply andb_true_iff in Hk. destruct Hk as [Hk1 Hk2].
  change (run v (e :: evs) s) with (run v evs (step v e s)).
  rewrite IH by exact Hk2. apply step_searchParams. exact Hk1.
Qed.






End FocusFacts.

Section FocusExamples.
Import Focus.

Local Existing Instance Url.decimalNumber.

Lemma focus_locating_witness :
  pendingFocusRef (focusEffect (initial [("focus", "118")] rows25))
  = Some {| id := 118; targetPage := 17 / 10; rowIndexWithinPage := 17 - (17 / 10) * 10 |}.
Proof.
  refine (proj1 (@focus_locating Url.decimalNumber (initial [("focus", "118")] rows25) 118 17
                   eq_refl eq_refl eq_refl _)).
  discriminate.
Defined.

Lemma silent_miss_witness :
  let s := mount AssetsPage [] rows25 in
  let s' := step AssetsPage (Navigate [("focus", "999")]) s in
  highlightId s' = highlightId s /\ timers s' = timers s /\
  paginationModel s' = paginationModel s.
Proof.
  pose proof (@silent_miss Url.decimalNumber AssetsPage (mount AssetsPage [] rows25)
                [("focus", "999")] 999 eq_refl eq_refl) as H.
  cbv zeta in H. destruct H as (_ & _ & Hh & _ & _ & Hp & Ht & _).
  split; [exact Hh | split; [exact Ht | exact Hp]].
Defined.

Lemma single_highlight_witness :
  let s := Focus.run Focus.AssetsPage [Focus.Fire 1%N]
             (Focus.mount Focus.AssetsPage [("focus", "118")] Focus.rows25) in
  let s' := Focus.step Focus.AssetsPage (Focus.Fire 2%N) s in
  Focus.arms (Focus.Fire 2%N) s = true /\
  Focus.highlightTimers s' = [Focus.armedTimer s] /\
  (Focus.rowFocus s' 118 = true -> Focus.rowFocus s' 118 = true -> 118 = 118).
Proof.
  pose proof (@single_highlight Url.decimalNumber
          Focus.AssetsPage [("focus", "118")] Focus.rows25
                [Focus.Fire 1%N]) as H.
  cbv zeta in H. destruct H as (_ & Hrow & Harm).
  split; [reflexivity |]. split.
  - apply (Harm (Focus.Fire 2%N) eq_refl).
  - intros _ _. reflexivity.
Defined.





End FocusExamples.

(** ** Query parameters: what is stripped and what is not *)

Section QueryParamFacts.
Import Focus.

Context {lang : Url.Conversions}.

Lemma get_delete_same (k : string) (params : Url.URLSearchParams) :
  Url.get k (Url.delete k params) = None.
Proof.
  unfold Url.delete. induction params as [|[k' v'] rest IH]; [reflexivity |].
  cbn. destruct (String.eqb k' k) eqn:E; cbn; [exact IH |].
  rewrite E. exact IH.
Qed.

Lemma get_delete_other (k k0 : string) (params : Url.URLSearchParams) :
  k0 <> k -> Url.get k0 (Url.delete k params) = Url.get k0 params.
Proof.
  intros Hne. unfold Url.delete.
  induction params as [|[k' v'] rest IH]; [reflexivity |].
  cbn. destruct (String.eqb k' k) eqn:E; cbn.
  - apply String.eqb_eq in E. subst k'.
    destruct (String.eqb k k0) eqn:E0; [| exact IH].
    apply String.eqb_eq in E0. congruence.
  - destruct (String.eqb k' k0); [reflexivity | exact IH].
Qed.

Lemma editEffect_inv (isAdmin : bool) (params : Url.URLSearchParams)
    (tickets : option (list Z)) (r : Tickets.EditRequest) :
  Tickets.editEffect isAdmin params tickets = Some r ->
  Tickets.search r = Url.delete "edit" params /\
  Tickets.replace r = true /\ Tickets.pathname r = "/tickets".
Proof.
  unfold Tickets.editEffect. destruct (negb isAdmin); [discriminate |].
  destruct (Tickets.editId params) as [e|]; [| discriminate].
  destruct (negb (Js.truthyNumber e)); [discriminate |].
  destruct tickets as [ts|]; [| discriminate].
  destruct (Z.of_nat (List.length ts) =? 0); [discriminate |].
  destruct (List.find _ ts); [| discriminate].
  intros [= <-]. repeat split.
Qed.

Lemma editEffect_without_edit (isAdmin : bool) (params : Url.URLSearchParams)
    (tickets : option (list Z)) :
  Url.get "edit" params = None -> Tickets.editEffect isAdmin params tickets = None.
Proof.
  intros H. unfold Tickets.editEffect, Tickets.editId, Url.idParam. rewrite H.
  destruct (negb isAdmin); reflexivity.
Qed.

(** C9 (amended). Of the three navigation parameters only [?edit=] is
    stripped once consumed: when the Tickets edit effect fires it replaces
    the location by one without [edit], keeping every other parameter, and
    on that location it does not fire again. [?focus=] and [?employee=] are
    read from the current location at every render and no effect, timer or
    render removes them: they stay until the location itself changes. *)
Theorem query_params_consumed :
  (forall isAdmin params tickets r,
      Tickets.editEffect isAdmin params tickets = Some r ->
      Tickets.replace r = true /\ Tickets.pathname r = "/tickets" /\
      Url.get "edit" (Tickets.search r) = None /\
      (forall k, k <> "edit" -> Url.get k (Tickets.search r) = Url.get k params) /\
      Tickets.editEffect isAdmin (Tickets.search r) tickets = None) /\
  (forall v evs s,
      List.forallb staysOnLocation evs = true ->
      searchParams (run v evs s) = searchParams s /\
      focusId (run v evs s) = focusId s /\
      employeeParam (run v evs s) = employeeParam s).
Proof.
  split.
  - intros isAdmin params tickets r Hr.
    destruct (editEffect_inv _ _ _ Hr) as (Hs & Hrep & Hpath).
    rewrite Hs. repeat split; auto.
    + apply get_delete_same.
    + intros k Hk. apply get_delete_other. exact Hk.
    + apply editEffect_without_edit, get_delete_same.
  - intros v evs s Hk. pose proof (run_searchParams v evs s Hk) as H.
    unfold focusId, employeeParam. rewrite H. repeat split.
Qed.

End QueryParamFacts.

Section QueryParamExamples.
Import Focus.

Local Existing Instance Url.decimalNumber.

Lemma query_params_consumed_witness :
  (exists r,
      Tickets.editEffect true [("edit", "7"); ("focus", "7")] (Some [5; 7]) = Some r /\
      Tickets.search r = [("focus", "7")] /\
      Tickets.editEffect true (Tickets.search r) (Some [5; 7]) = None) /\
  searchParams
    (run AssetsPage [Fire 1%N; Fire 2%N; Frame]
       (mount AssetsPage [("focus", "118")] rows25)) = [("focus", "118")].
Proof.
  split.
  - eexists. split; [reflexivity |]. split; [reflexivity |].
    apply (proj1 (@query_params_consumed Url.decimalNumber) true
             [("edit", "7"); ("focus", "7")] (Some [5; 7]) _ eq_refl).
  - exact (proj1 (proj2 (@query_params_consumed Url.decimalNumber) AssetsPage
                    [Fire 1%N; Fire 2%N; Frame]
                    (mount AssetsPage [("focus", "118")] rows25) eq_refl)).
Defined.

(** C9, the claim as written fails for [?focus=] and [?employee=]: after
    the Assets page has consumed the focus request (page switched, row
    scrolled to, record highlighted) both parameters are still in the
    location; and on the Assignments page a mere re-render after that
    schedules another arming, which scrolls again. *)
Lemma focus_param_not_stripped :
  let s := run AssetsPage [Fire 1%N; Fire 2%N; Frame]
             (mount AssetsPage [("focus", "118"); ("employee", "3")] rows25) in
  let a := run AssignmentsPage [Fire 1%N; Fire 2%N; Fire 5%N; Frame]
             (mount AssignmentsPage [("focus", "118"); ("employee", "3")] rows25) in
  let a' := step AssignmentsPage Rerender a in
  (highlightId s = Some 118 /\ scrolled s = [7] /\ pendingFocusRef s = None) /\
  Url.get "focus" (searchParams s) = Some "118" /\
  Url.get "employee" (searchParams s) = Some "3" /\
  focusId s = Some 118 /\
  (pendingFocusRef a = None /\ pendingFocusRef a' <> None /\
   arms (Fire 7%N) a' = true /\
   scrolled (run AssignmentsPage [Fire 7%N; Frame] a') = scrolled a ++ [7]).
Proof.
  vm_compute. repeat split. discriminate.
Qed.



End QueryParamExamples.

(** ** The "mark all read" mutation *)

Section NotificationFacts.
Import Notifications.

Variable W : Type.
Variable postMarkAllRead : W -> bool * W.
Variable patchRead : Z -> W -> bool * W.

Local Abbreviation patchEach := (@patchEach W patchRead).
Local Abbreviation mutationFn := (@markAllReadMut_mutationFn W postMarkAllRead patchRead).

(** The per-item loop never throws; it patches every item once, in order,
    whatever each patch answers. *)
Lemma patchEach_spec (unread : list NotificationItem) (s : Session W) :
  patchEach unread s
  = (inr tt,
     {| net := List.fold_left (fun w n => snd (patchRead (id n) w)) unread (net s);
        calls := calls s ++ List.map (fun n => PatchRead (id n)) unread |}).
Proof.
  revert s. induction unread as [|n rest IH]; intros s.
  - cbn. rewrite List.app_nil_r. destruct s; reflexivity.
  - cbn [Notifications.patchEach]. unfold bind, tryCatch, api_patch_read, ret.
    destruct (patchRead (id n) (net s)) as [ok w] eqn:Hp.
    destruct ok; cbn; rewrite IH; cbn; rewrite Hp, <- List.app_assoc; reflexivity.
Qed.

Lemma mutationFn_bulk_rejected (notifications : option (list NotificationItem))
    (s : Session W) :
  fst (postMarkAllRead (net s)) = false ->
  let unread := List.filter (fun n => negb (isRead n))
                  (match notifications with Some l => l | None => [] end) in
  mutationFn notifications s
  = (inr Null,
     {| net := List.fold_left (fun w n => snd (patchRead (id n) w)) unread
                 (snd (postMarkAllRead (net s)));
        calls := calls s ++ PostMarkAllRead
                   :: List.map (fun n => PatchRead (id n)) unread |}).
Proof.
  intros Hb unread. unfold markAllReadMut_mutationFn, tryCatch, api_post_markAllRead.
  destruct (postMarkAllRead (net s)) as [ok w]. cbn in Hb. subst ok.
  unfold bind. fold unread. rewrite patchEach_spec. cbn.
  rewrite <- List.app_assoc. reflexivity.
Qed.

(** The drawer component's [markAllRead] has no fallback: a rejected bulk
    call is thrown to its caller and no patch is sent. *)
Lemma drawer_markAllRead_throws (s : Session W) :
  fst (postMarkAllRead (net s)) = false ->
  @drawer_markAllRead W postMarkAllRead s
  = (inl tt, {| net := snd (postMarkAllRead (net s));
                calls := calls s ++ [PostMarkAllRead] |}).
Proof.
  intros Hb. unfold drawer_markAllRead, bind, api_post_markAllRead.
  destruct (postMarkAllRead (net s)) as [ok w]. cbn in Hb. subst ok. reflexivity.
Qed.

End NotificationFacts.

Lemma fold_left_map_id (A B C : Type) (f : A -> C -> A) (g : B -> C)
    (l : list B) (a : A) :
  List.fold_left (fun a x => f a (g x)) l a = List.fold_left f (List.map g l) a.
Proof.
  revert a. induction l as [|x l IH]; intros a; [reflexivity |]. cbn. apply IH.
Qed.

Lemma backend_fold (rejecting : list Z) (ids : list Z) (readIds0 : list Z) :
  List.fold_left (fun w i => snd (Notifications.backend_patch i w)) ids
    {| Notifications.readIds := readIds0; Notifications.rejecting := rejecting;
       Notifications.bulkWorks := false |}
  = {| Notifications.readIds :=
         readIds0 ++ List.filter (fun i => negb (Notifications.memZ i rejecting)) ids;
       Notifications.rejecting := rejecting; Notifications.bulkWorks := false |}.
Proof.
  revert readIds0. induction ids as [|i ids IH]; intros readIds0.
  - cbn. rewrite List.app_nil_r. reflexivity.
  - cbn [List.fold_left List.filter]. unfold Notifications.backend_patch at 2.
    cbn [Notifications.rejecting]. destruct (Notifications.memZ i rejecting); cbn.
    + apply IH.
    + rewrite IH, <- List.app_assoc. reflexivity.
Qed.

(** C8. The mutation function of "mark all read" never throws. When the
    bulk endpoint rejects, every notification that is unread is patched
    once, in order, whether or not earlier patches were rejected, and the
    function resolves with [null]; against a backend that rejects some of
    the patches, the ones it accepted are recorded as read. *)
Theorem markAllRead_fallback :
  (forall (W : Type) (post : W -> bool * W) (patch : Z -> W -> bool * W)
          (notifications : option (list Notifications.NotificationItem))
          (s : Notifications.Session W),
      exists v s',
        Notifications.markAllReadMut_mutationFn post patch notifications s
        = (inr v, s')) /\
  (forall (W : Type) (post : W -> bool * W) (patch : Z -> W -> bool * W)
          (notifications : option (list Notifications.NotificationItem))
          (s : Notifications.Session W),
      fst (post (Notifications.net s)) = false ->
      exists s',
        Notifications.markAllReadMut_mutationFn post patch notifications s
        = (inr Notifications.Null, s') /\
        Notifications.calls s'
        = Notifications.calls s ++ Notifications.PostMarkAllRead
            :: List.map (fun n => Notifications.PatchRead (Notifications.id n))
                 (List.filter (fun n => negb (Notifications.isRead n))
                    (match notifications with Some l => l | None => [] end))) /\
  (forall (allIds readIds0 rejecting : list Z)
          (list : list Notifications.NotificationItem),
      exists s',
        Notifications.markAllReadMut_mutationFn
          (Notifications.backend_post allIds) Notifications.backend_patch (Some list)
          {| Notifications.net :=
               {| Notifications.readIds := readIds0;
                  Notifications.rejecting := rejecting;
                  Notifications.bulkWorks := false |};
             Notifications.calls := [] |}
        = (inr Notifications.Null, s') /\
        Notifications.readIds (Notifications.net s')
        = readIds0
          ++ List.filter (fun i => negb (Notifications.memZ i rejecting))
               (List.map Notifications.id
                  (List.filter (fun n => negb (Notifications.isRead n)) list))).
Proof.
  split; [| split].
  - intros W post patch notifications s.
    destruct (fst (post (Notifications.net s))) eqn:Hb.
    + unfold Notifications.markAllReadMut_mutationFn, Notifications.tryCatch,
        Notifications.api_post_markAllRead.
      destruct (post (Notifications.net s)) as [ok w]. cbn in Hb. subst ok.
      do 2 eexists. reflexivity.
    + rewrite (mutationFn_bulk_rejected post patch notifications s Hb).
      do 2 eexists. reflexivity.
  - intros W post patch notifications s Hb.
    rewrite (mutationFn_bulk_rejected post patch notifications s Hb).
    eexists. split; reflexivity.
  - intros allIds readIds0 rejecting list.
    rewrite mutationFn_bulk_rejected by reflexivity.
    eexists. split; [reflexivity |]. cbn [Notifications.net Notifications.backend_post
      Notifications.bulkWorks snd].
    rewrite (fold_left_map_id (fun w i => snd (Notifications.backend_patch i w))
               Notifications.id).
    rewrite backend_fold. reflexivity.
Qed.

Lemma markAllRead_fallback_witness :
  let backend := {| Notifications.readIds := []; Notifications.rejecting := [1; 3; 5];
                    Notifications.bulkWorks := false |} in
  let session := {| Notifications.net := backend; Notifications.calls := [] |} in
  (exists s',
      Notifications.markAllReadMut_mutationFn
        (Notifications.backend_post [1; 2; 6; 3; 4; 5]) Notifications.backend_patch
        (Some Notifications.sixItems) session
      = (inr Notifications.Null, s') /\
      Notifications.calls s'
      = [Notifications.PostMarkAllRead; Notifications.PatchRead 1;
         Notifications.PatchRead 2; Notifications.PatchRead 3;
         Notifications.PatchRead 4; Notifications.PatchRead 5]) /\
  (exists s',
      Notifications.markAllReadMut_mutationFn
        (Notifications.backend_post [1; 2; 6; 3; 4; 5]) Notifications.backend_patch
        (Some Notifications.sixItems) session
      = (inr Notifications.Null, s') /\
      Notifications.readIds (Notifications.net s') = [2; 4]).
Proof.
  intros backend session. split.
  - apply (proj1 (proj2 markAllRead_fallback) Notifications.Backend
             (Notifications.backend_post [1; 2; 6; 3; 4; 5])
             Notifications.backend_patch (Some Notifications.sixItems) session
             eq_refl).
  - apply (proj2 (proj2 markAllRead_fallback) [1; 2; 6; 3; 4; 5] [] [1; 3; 5]
             Notifications.sixItems).
Defined.

(** * Further properties of the modelled code *)

(** ** The base URL *)

Section BaseUrlFacts.
Import BaseUrl.

Lemma normalize_nonempty_last (url : string) :
  normalizeBaseURL url <> "" -> endsWithSlash (normalizeBaseURL url) = false.
Proof.
  induction url as [|c rest IH]; cbn; [congruence |].
  destruct (Ascii.eqb c "/" && String.eqb (normalizeBaseURL rest) "") eqn:E;
    [congruence |].
  intros _. destruct (normalizeBaseURL rest) as [|d r] eqn:Hr.
  - rewrite andb_true_r in E. cbn. exact E.
  - apply IH. discriminate.
Qed.

Lemma normalize_decompose (url : string) :
  exists k, url = (normalizeBaseURL url ++ slashes k)%string.
Proof.
  induction url as [|c rest [k IH]]; [exists O; reflexivity |]. cbn.
  destruct (Ascii.eqb c "/" && String.eqb (normalizeBaseURL rest) "") eqn:E.
  - apply andb_true_iff in E. destruct E as [Ec Er].
    apply Ascii.eqb_eq in Ec. apply String.eqb_eq in Er. rewrite Er in IH. cbn in IH.
    exists (S k). cbn. congruence.
  - exists k. cbn. congruence.
Qed.

Lemma normalize_fixed (s : string) :
  endsWithSlash s = false -> normalizeBaseURL s = s.
Proof.
  induction s as [|c rest IH]; [reflexivity |]. cbn. destruct rest as [|d r].
  - intros Hc. cbn. rewrite Hc. reflexivity.
  - intros H. rewrite (IH H). cbn. rewrite andb_false_r. reflexivity.
Qed.

(** X1. [normalizeBaseURL] removes the trailing slashes and nothing else:
    the input is the result followed by slashes only, the result does not
    end with a slash, normalizing again changes nothing, and a URL without
    a trailing slash is returned as it is. *)
Theorem normalizeBaseURL_strips (url : string) :
  (exists k, url = (normalizeBaseURL url ++ slashes k)%string) /\
  endsWithSlash (normalizeBaseURL url) = false /\
  normalizeBaseURL (normalizeBaseURL url) = normalizeBaseURL url /\
  (endsWithSlash url = false -> normalizeBaseURL url = url).
Proof.
  assert (Hend : endsWithSlash (normalizeBaseURL url) = false).
  { destruct (normalizeBaseURL url) as [|c r] eqn:E; [reflexivity |].
    rewrite <- E. apply normalize_nonempty_last. rewrite E. discriminate. }
  split; [apply normalize_decompose |]. split; [exact Hend |].
  split; [apply normalize_fixed; exact Hend | apply normalize_fixed].
Qed.

Lemma normalizeBaseURL_strips_witness :
  normalizeBaseURL "http://127.0.0.1:8000" = "http://127.0.0.1:8000" /\
  normalizeBaseURL "https://api.example.com//" = "https://api.example.com".
Proof.
  split.
  - apply (proj2 (proj2 (proj2 (normalizeBaseURL_strips "http://127.0.0.1:8000")))).
    reflexivity.
  - reflexivity.
Defined.

End BaseUrlFacts.

(** ** The request client beyond the retry claims *)

Section ClientMore.
Import Client.

Variable W : Type.
Variable adapter : RetryConfig -> W -> Reply * W.
Variable refreshEndpoint : string -> W -> RefreshReply * W.

Local Abbreviation request := (@request W adapter refreshEndpoint).
Local Abbreviation dispatch := (@dispatch W adapter).
Local Abbreviation afterSend := (@afterSend W).
Local Abbreviation afterRefresh := (@afterRefresh W).
Local Abbreviation refreshUnavailable := (@refreshUnavailable W refreshEndpoint).

(** X2. The request interceptor sets [Authorization] to the scheme, a
    blank and the stored access token exactly when a pair with a non-empty
    access token is stored; otherwise the configuration goes out as the
    caller made it. It never touches the method, the URL or the retry
    mark. *)
Theorem requestInterceptor_header (cfg : RetryConfig) (b : Browser W) :
  method (requestInterceptor cfg b) = method cfg /\
  url (requestInterceptor cfg b) = url cfg /\
  _retry (requestInterceptor cfg b) = _retry cfg /\
  (forall t, storage b = Some t -> truthy (access t) = true ->
             Authorization (requestInterceptor cfg b)
             = Some ("Bearer " ++ access t)%string) /\
  ((storage b = None \/ exists t, storage b = Some t /\ access t = "") ->
   requestInterceptor cfg b = cfg).
Proof.
  unfold requestInterceptor, tokenStore_get.
  destruct (storage b) as [t|] eqn:Hs.
  - destruct (truthy (access t)) eqn:Ht; cbn.
    + do 3 (split; [reflexivity |]). split.
      * intros t' [= <-] _. reflexivity.
      * intros [H | [t' [[= <-] Ha]]]; [discriminate |].
        rewrite Ha in Ht. discriminate.
    + do 3 (split; [reflexivity |]). split.
      * intros t' [= <-] Ht'. congruence.
      * reflexivity.
  - do 3 (split; [reflexivity |]). split; [discriminate | reflexivity].
Qed.

(** X3. Pass-through: when the request already carries the retry mark, or
    the reply is anything but a 401 status, [api.request] makes one
    dispatch and hands back its settled outcome (fulfilled, or rejected
    with the transport's error) as it is; credential storage and the
    location are not touched and no refresh call is made. *)
Theorem request_pass_through (cfg : RetryConfig) (b : Browser W) (n : nat) :
  _retry cfg = true \/
  fst (adapter (requestInterceptor cfg b) (net b)) <> HttpStatus 401 ->
  let c1 := requestInterceptor cfg b in
  let r := fst (adapter c1 (net b)) in
  let w := snd (adapter c1 (net b)) in
  exists b',
    request (1 + n) cfg b = Some (settle c1 r, b') /\
    storage b' = storage b /\ location b' = location b /\
    net b' = w /\ log b' = log b ++ [EvSend c1].
Proof.
  intros Hcase c1 r w.
  exists (withNet w (emit (EvSend c1) b)).
  split; [| repeat split].
  change (1 + n)%nat with (S n).
  destruct Hcase as [Hm | Hne].
  - rewrite (@request_marked W adapter refreshEndpoint n cfg b Hm).
    rewrite dispatch_eq. reflexivity.
  - cbn [Client.request]. rewrite dispatch_eq.
    fold c1 r w.
    destruct r as [st| |] eqn:Hr; cbn.
    + destruct ((200 <=? st) && (st <? 300)); [reflexivity |].
      unfold Client.responseError. cbn.
      destruct (st =? 401) eqn:E; [| reflexivity].
      apply Z.eqb_eq in E. subst st. contradiction.
    + reflexivity.
    + reflexivity.
Qed.

(** X4. The replay after a successful refresh is the original request with
    the new token: same method and URL, [Authorization] carrying the token
    the refresh returned, the refresh call made with the stored refresh
    token; and whatever that replay settles to (a success as well as a
    failure) is the result of the original call. *)
Theorem replay_carries_new_token (cfg : RetryConfig) (b : Browser W) (n : nat)
    (t : Tokens) (a : string) (w1 w2 : W) :
  _retry cfg = false ->
  storage b = Some t -> truthy (refresh t) = true ->
  adapter (requestInterceptor cfg b) (net b) = (HttpStatus 401, w1) ->
  refreshEndpoint (refresh t) w1 = (RefreshResolved (Some a), w2) ->
  truthy a = true ->
  let c1 := requestInterceptor cfg b in
  let c2 := setAuthHeader (markRetry c1) a in
  method c2 = method cfg /\ url c2 = url cfg /\
  Authorization c2 = Some ("Bearer " ++ a)%string /\
  exists b',
    request (2 + n) cfg b = Some (settle c2 (fst (adapter c2 w2)), b') /\
    log b' = log b ++ [EvSend c1; EvMarkRetry; EvRefresh (refresh t);
                       EvStoreSet {| access := a; refresh := refresh t |};
                       EvSend c2].
Proof.
  intros Hr Hs Ht Ha1 Href Ha c1 c2.
  assert (Hmu : method c1 = method cfg /\ url c1 = url cfg).
  { unfold c1, requestInterceptor. destruct (tokenStore_get b) as [t0|]; [| auto].
    destruct (truthy (access t0)); auto. }
  split; [apply Hmu |]. split; [apply Hmu |]. split; [reflexivity |].
  change (2 + n)%nat with (S (S n)).
  rewrite (@request_first_401 W adapter refreshEndpoint (S n) cfg b w1 Ha1).
  fold c1.
  rewrite (@handler_refreshed W adapter refreshEndpoint n c1 b w1 w2 t a); auto.
  2:{ subst c1. rewrite requestInterceptor_retry. exact Hr. }
  fold c2. rewrite dispatch_eq.
  assert (Hc2 : requestInterceptor c2 (afterRefresh c1 w1 w2 t a b) = c2).
  { unfold requestInterceptor. cbn. rewrite Ha. reflexivity. }
  rewrite Hc2. eexists. split; [reflexivity |].
  cbn. repeat rewrite <- List.app_assoc. reflexivity.
Qed.

(** X5. The route guard after a 401: once the refresh has failed (or could
    not be tried) the guard sends every protected route to the login page;
    after a refresh that returned a token the guard lets the route
    render. *)
Theorem guard_after_401 (cfg : RetryConfig) (b : Browser W) (n : nat) (w1 : W) :
  _retry cfg = false ->
  adapter (requestInterceptor cfg b) (net b) = (HttpStatus 401, w1) ->
  (refreshUnavailable b w1 ->
   exists out b',
     request (2 + n) cfg b = Some (out, b') /\
     Guard.ProtectedRoute b' = Guard.NavigateTo "/login" true) /\
  (forall t a w2,
      storage b = Some t -> truthy (refresh t) = true ->
      refreshEndpoint (refresh t) w1 = (RefreshResolved (Some a), w2) ->
      truthy a = true ->
      exists out b',
        request (2 + n) cfg b = Some (out, b') /\
        Guard.ProtectedRoute b' = Guard.Children).
Proof.
  intros Hr Ha1.
  assert (Hr1 : _retry (requestInterceptor cfg b) = false)
    by (rewrite requestInterceptor_retry; exact Hr).
  change (2 + n)%nat with (S (S n)).
  rewrite (@request_first_401 W adapter refreshEndpoint (S n) cfg b w1 Ha1).
  split.
  - intros Hu.
    destruct (@handler_logout W refreshEndpoint (request (S n)) _ b w1 Hr1 Hu)
      as (b' & Hreq & Hst & _).
    do 2 eexists. split; [exact Hreq |].
    unfold Guard.ProtectedRoute, tokenStore_get. rewrite Hst. reflexivity.
  - intros t a w2 Hs Ht Href Ha.
    rewrite (@handler_refreshed W adapter refreshEndpoint n _ b w1 w2 t a Hr1 Hs Ht Href Ha).
    rewrite dispatch_eq. do 2 eexists. split; [reflexivity |].
    unfold Guard.ProtectedRoute, tokenStore_get. cbn. rewrite Ha. reflexivity.
Qed.

End ClientMore.

Lemma requestInterceptor_header_witness :
  Client.Authorization (Client.requestInterceptor Client.getAssets (Client.browserWith (Some Client.oldTokens)))
  = Some "Bearer a0" /\
  Client.requestInterceptor Client.getAssets (Client.browserWith None) = Client.getAssets.
Proof.
  pose proof (@requestInterceptor_header unit Client.getAssets (Client.browserWith (Some Client.oldTokens)))
    as (_ & _ & _ & H1 & _).
  pose proof (@requestInterceptor_header unit Client.getAssets (Client.browserWith None))
    as (_ & _ & _ & _ & H2).
  split; [apply (H1 Client.oldTokens eq_refl eq_refl) | apply H2; left; reflexivity].
Defined.

Lemma request_pass_through_witness :
  exists b',
    Client.request (Client.alwaysStatus 500) (Client.refreshGives Client.RefreshRejected) 1 Client.getAssets
      (Client.browserWith (Some Client.oldTokens))
    = Some (Client.Rejected {| Client.config := Some (Client.setAuthHeader Client.getAssets "a0");
                        Client.response_status := Some 500 |}, b') /\
    Client.storage b' = Some Client.oldTokens /\ Client.location b' = "/assets".
Proof.
  destruct (@request_pass_through unit (Client.alwaysStatus 500) (Client.refreshGives Client.RefreshRejected)
              Client.getAssets (Client.browserWith (Some Client.oldTokens)) 0)
    as (b' & Hreq & Hs & Hl & _).
  - right. discriminate.
  - exists b'. split; [exact Hreq | split; [exact Hs | exact Hl]].
Defined.

Lemma replay_carries_new_token_witness :
  exists b',
    Client.request (fun c w => if Client._retry c then (Client.HttpStatus 200, w)
                               else (Client.HttpStatus 401, w))
      (Client.refreshGives (Client.RefreshResolved (Some "a1")))
      2 Client.getAssets (Client.browserWith (Some Client.oldTokens))
    = Some (Client.Fulfilled 200
              (Client.setAuthHeader
                 (Client.markRetry (Client.setAuthHeader Client.getAssets "a0")) "a1"),
            b').
Proof.
  destruct (@replay_carries_new_token unit
              (fun c w => if Client._retry c then (Client.HttpStatus 200, w)
                          else (Client.HttpStatus 401, w))
              (Client.refreshGives (Client.RefreshResolved (Some "a1")))
              Client.getAssets (Client.browserWith (Some Client.oldTokens)) 0
              Client.oldTokens "a1" tt tt
              eq_refl eq_refl eq_refl eq_refl eq_refl eq_refl)
    as (_ & _ & _ & b' & Hreq & _).
  exists b'. exact Hreq.
Defined.

Lemma guard_after_401_witness :
  (exists out b',
      Client.request (Client.alwaysStatus 401) (Client.refreshGives Client.RefreshRejected)
        2 Client.getAssets (Client.browserWith (Some Client.oldTokens)) = Some (out, b') /\
      Guard.ProtectedRoute b' = Guard.NavigateTo "/login" true) /\
  (exists out b',
      Client.request (Client.alwaysStatus 401)
        (Client.refreshGives (Client.RefreshResolved (Some "a1")))
        2 Client.getAssets (Client.browserWith (Some Client.oldTokens)) = Some (out, b') /\
      Guard.ProtectedRoute b' = Guard.Children).
Proof.
  split.
  - apply (proj1 (@guard_after_401 unit (Client.alwaysStatus 401)
                    (Client.refreshGives Client.RefreshRejected)
                    Client.getAssets (Client.browserWith (Some Client.oldTokens)) 0 tt
                    eq_refl eq_refl)).
    cbn. right. split; [reflexivity | exact I].
  - apply (proj2 (@guard_after_401 unit (Client.alwaysStatus 401)
                    (Client.refreshGives (Client.RefreshResolved (Some "a1")))
                    Client.getAssets (Client.browserWith (Some Client.oldTokens)) 0 tt
                    eq_refl eq_refl)
             Client.oldTokens "a1" tt eq_refl eq_refl eq_refl eq_refl).
Defined.

(** ** The coordinator beyond the focus claims *)

Section FocusMoreFacts.
Import Focus FocusMore.

Context {lang : Url.Conversions}.

Lemma findIndexFrom_spec (rows : list Z) (target i : Z) :
  0 <= i ->
  (findIndexFrom i rows target = -1 /\ ~ In target rows) \/
  (i <= findIndexFrom i rows target < i + Z.of_nat (List.length rows) /\
   List.nth (Z.to_nat (findIndexFrom i rows target - i)) rows 0 = target /\
   forall j, i <= j < findIndexFrom i rows target ->
             List.nth (Z.to_nat (j - i)) rows 0 <> target).
Proof.
  revert i. induction rows as [|r rest IH]; intros i Hi; cbn [findIndexFrom].
  - left. split; [reflexivity | intros []].
  - destruct (r =? target) eqn:E.
    + apply Z.eqb_eq in E. right. cbn [List.length]. split; [lia |].
      rewrite Z.sub_diag. cbn. split; [exact E | intros j Hj; lia].
    + apply Z.eqb_neq in E.
      destruct (IH (i + 1)) as [[H1 H2] | (H1 & H2 & H3)]; [lia | left | right].
      * split; [exact H1 |]. intros [Hin | Hin]; [congruence | contradiction].
      * cbn [List.length]. split; [lia |].
        set (f := findIndexFrom (i + 1) rest target) in *.
        replace (Z.to_nat (f - i)) with (S (Z.to_nat (f - (i + 1)))) by lia.
        cbn [List.nth]. split; [exact H2 |].
        intros j Hj. destruct (Z.eq_dec j i) as [-> | Hne].
        -- rewrite Z.sub_diag. cbn. exact E.
        -- replace (Z.to_nat (j - i)) with (S (Z.to_nat (j - (i + 1)))) by lia.
           cbn [List.nth]. apply H3. lia.
Qed.

Lemma findIndex_first_occurrence (rows : list Z) (target : Z) :
  (findIndex rows target = -1 <-> ~ In target rows) /\
  (findIndex rows target <> -1 ->
   0 <= findIndex rows target < Z.of_nat (List.length rows) /\
   List.nth (Z.to_nat (findIndex rows target)) rows 0 = target /\
   forall j, 0 <= j < findIndex rows target ->
             List.nth (Z.to_nat j) rows 0 <> target).
Proof.
  unfold findIndex.
  destruct (@findIndexFrom_spec rows target 0 (Z.le_refl 0))
    as [[H1 H2] | (H1 & H2 & H3)].
  - split; [tauto | congruence].
  - rewrite Z.sub_0_r in H2. split.
    + split; [lia |]. intros Hn. exfalso. apply Hn. rewrite <- H2.
      apply List.nth_In. lia.
    + intros _. split; [lia |]. split; [exact H2 |].
      intros j Hj. specialize (H3 j Hj). rewrite Z.sub_0_r in H3. exact H3.
Qed.


(** X6. [findIndex] finds the first occurrence: it answers [-1] exactly
    when the identifier is not in the sequence; otherwise it answers a
    valid index, the record there has the identifier, and no earlier
    record has it. *)
Theorem findIndex_first (rows : list Z) (target : Z) :
  (findIndex rows target = -1 <-> ~ In target rows) /\
  (findIndex rows target <> -1 ->
   0 <= findIndex rows target < Z.of_nat (List.length rows) /\
   List.nth (Z.to_nat (findIndex rows target)) rows 0 = target /\
   forall j, 0 <= j < findIndex rows target ->
             List.nth (Z.to_nat j) rows 0 <> target).
Proof. exact (findIndex_first_occurrence rows target). Qed.

Lemma effectivePageSize_pos (pm : GridPaginationModel) :
  0 <= pageSize pm -> 0 < effectivePageSize pm.
Proof.
  unfold effectivePageSize, Js.truthyNumber. intros H.
  destruct (pageSize pm =? 0) eqn:E; cbn; [lia |]. apply Z.eqb_neq in E. lia.
Qed.

(** X7. The handle addresses the target: with a page size that is not
    negative, for a target found at [idx] the handle the focus effect
    stores has a page number that is not negative, a row offset within one
    page, page and offset add up to [idx] again, and the record at that
    position of the filtered sequence is the target. *)
Theorem pending_addresses_target (s : State) (target : Z) :
  focusId s = Some target -> Js.truthyNumber target = true ->
  findIndex (filteredRows s) target <> -1 ->
  0 <= pageSize (paginationModel s) ->
  let size := effectivePageSize (paginationModel s) in
  exists p,
    pendingFocusRef (focusEffect s) = Some p /\
    id p = target /\
    0 <= targetPage p /\
    0 <= rowIndexWithinPage p < size /\
    targetPage p * size + rowIndexWithinPage p = findIndex (filteredRows s) target /\
    List.nth (Z.to_nat (targetPage p * size + rowIndexWithinPage p))
      (filteredRows s) 0 = target.
Proof.
  intros Hf Ht Hne Hps size.
  pose proof (effectivePageSize_pos _ Hps) as Hpos. fold size in Hpos.
  destruct (proj2 (findIndex_first_occurrence (filteredRows s) target) Hne) as (Hr & Hn & _).
  exists (computePending target (findIndex (filteredRows s) target) (paginationModel s)).
  split.
  - rewrite focusEffect_pending, (locate_found s Hf Ht eq_refl Hne). reflexivity.
  - unfold computePending. fold size. cbn.
    set (idx := findIndex (filteredRows s) target) in *.
    assert (H0 : 0 <= idx / size) by (apply Z.div_pos; lia).
    pose proof (Z.mod_pos_bound idx size Hpos) as Hm.
    pose proof (Z.div_mod idx size ltac:(lia)) as Hd.
    assert (Hrow : idx - idx / size * size = idx mod size) by lia.
    rewrite Hrow.
    assert (Hsum : idx / size * size + idx mod size = idx) by lia.
    rewrite Hsum. repeat split; try lia; try reflexivity; try exact Hn.
Qed.

Lemma focusEffect_idle (s : State) :
  focusId s = None \/ focusId s = Some 0 -> focusEffect s = s.
Proof.
  intros [H | H]; unfold focusEffect; rewrite H; reflexivity.
Qed.

(** X8. No focus request, no action: when the location has no [focus]
    parameter, an empty one, one that [Number] reads as [NaN] or as an
    infinity, or one it reads as 0, arriving at it changes nothing but the
    location: nothing is scheduled, highlighted or scrolled, whatever the
    filtered sequence holds. *)
Theorem no_focus_request (v : PageVariant) (s : State) (params : Url.URLSearchParams) :
  (Url.get "focus" params = None -> Url.idParam "focus" params = None) /\
  (Url.get "focus" params = Some "" -> Url.idParam "focus" params = None) /\
  (forall w, Url.get "focus" params = Some w ->
             Url.Number_isFinite (Url.Number w) = false ->
             Url.idParam "focus" params = None) /\
  (forall w, Url.get "focus" params = Some w -> w <> "" ->
             Url.Number w = Url.Finite 0 ->
             Url.idParam "focus" params = Some 0) /\
  (Url.idParam "focus" params = None \/ Url.idParam "focus" params = Some 0 ->
   step v (Navigate params) s = set_searchParams params s /\
   focusEffect (set_searchParams params s) = set_searchParams params s).
Proof.
  split; [| split; [| split; [| split]]].
  - intros H. unfold Url.idParam. rewrite H. reflexivity.
  - intros H. unfold Url.idParam. rewrite H. reflexivity.
  - intros w H Hn. unfold Url.idParam. rewrite H. cbv zeta.
    destruct (Js.truthyString w); [| reflexivity]. rewrite Hn. reflexivity.
  - intros w H Hw Hn. unfold Url.idParam. rewrite H. cbv zeta.
    apply String.eqb_neq in Hw. unfold Js.truthyString. rewrite Hw. cbn [negb].
    rewrite Hn. reflexivity.
  - intros H.
    assert (Heff : focusEffect (set_searchParams params s) = set_searchParams params s)
      by (apply focusEffect_idle; exact H).
    split; [| exact Heff].
    cbn [step]. unfold render. rewrite Heff.
    rewrite (@pageChanged_same s (set_searchParams params s)) by reflexivity.
    rewrite andb_false_r. destruct (_ || _); reflexivity.
Qed.

(** *** Unmounting *)

Lemma refOk_scheduled (s s' : State) :
  timersOk s -> refOk s -> scheduled s s' -> refOk s'.
Proof.
  intros (_ & P2 & _) [R1 R2]
         (_ & _ & _ & _ & Href & _ & _ & _ & Hn & extra & Ht & _ & He).
  unfold refOk. rewrite Href, Ht. split.
  - intros h Hh. apply R1 in Hh. lia.
  - intros t Hin Hh. apply List.in_app_or in Hin. destruct Hin as [Hin | Hin].
    + apply R2; assumption.
    + apply R1 in Hh. apply He in Hin. lia.
Qed.

Lemma refOk_clearTimeout (h : N) (s : State) : refOk s -> refOk (clearTimeout h s).
Proof.
  intros [R1 R2]. unfold refOk, clearTimeout. cbn. split; [exact R1 |].
  intros t Hin. apply List.filter_In in Hin. apply R2. tauto.
Qed.

Lemma refOk_arm (s : State) : timersOk s -> refOk s -> refOk (arm s).
Proof.
  intros Hok Href. destruct (pendingFocusRef s) as [p|] eqn:Hp.
  2:{ rewrite arm_none; assumption. }
  destruct (arm_pending s Hp) as (_ & _ & Hr & _ & _ & _ & Hn & Ht & _).
  destruct Hok as (_ & P2 & _).
  unfold refOk. rewrite Hr, Hn, Ht. split.
  - intros h [= <-]. lia.
  - intros t Hin [= Hh]. apply List.in_app_or in Hin.
    destruct Hin as [Hin | [<- | []]]; [| reflexivity].
    apply cancel_sub, P2 in Hin. lia.
Qed.

Lemma refOk_step (v : PageVariant) (e : Event) (s : State) :
  timersOk s -> refOk s -> refOk (step v e s).
Proof.
  intros Hok Href.
  destruct e as [dt | h | | pm | params | rows |]; cbn [step];
    try exact Href;
    try (eapply refOk_scheduled; [| | apply render_scheduled]; assumption).
  destruct (findTimer h (timers s)) as [t|]; [| exact Href].
  destruct (due t s); [| exact Href].
  assert (Hok0 : timersOk (clearTimeout h s)) by (apply clearTimeout_ok; exact Hok).
  assert (Href0 : refOk (clearTimeout h s)) by (apply refOk_clearTimeout; exact Href).
  assert (H1 : refOk (runCallback (callback t) (clearTimeout h s))).
  { destruct (callback t) as [tp| |]; cbn [runCallback].
    - destruct (_ =? tp); exact Href0.
    - apply refOk_arm; assumption.
    - exact Href0. }
  destruct (componentStateChanged _ _); [| exact H1].
  eapply refOk_scheduled; [| exact H1 | apply render_scheduled].
  apply runCallback_ok. exact Hok0.
Qed.

Lemma reachable_refOk (v : PageVariant) (evs : list Event)
    (params : Url.URLSearchParams) (rows : list Z) :
  refOk (run v evs (mount v params rows)).
Proof.
  assert (H : forall s, timersOk s -> refOk s -> refOk (run v evs s)).
  { induction evs as [|e evs IH]; intros s Hok Href; [exact Href |].
    change (run v (e :: evs) s) with (run v evs (step v e s)).
    apply IH; [apply step_ok | apply refOk_step]; assumption. }
  apply H.
  - eapply timersOk_scheduled; [apply initial_ok | apply mount_scheduled].
  - eapply refOk_scheduled; [apply initial_ok | | apply mount_scheduled].
    split; [discriminate | intros t []].
Qed.

Lemma filter_filter_same (A : Type) (f g : A -> bool) (l : list A) :
  (forall x, In x l -> f x = true -> g x = true) ->
  List.filter f (List.filter g l) = List.filter f l.
Proof.
  induction l as [|a l IH]; intros H; [reflexivity |]. cbn.
  destruct (g a) eqn:Eg; cbn.
  - destruct (f a); [f_equal |]; apply IH; intros x Hx; apply H; right; exact Hx.
  - destruct (f a) eqn:Ef.
    + rewrite (H a (or_introl eq_refl) Ef) in Eg. discriminate.
    + apply IH. intros x Hx. apply H. right. exact Hx.
Qed.

(** X9. Unmounting cancels the highlight timer and nothing else: in every
    state the page can reach, after the cleanup no highlight timer is
    outstanding, while the page-change and arming timers that were
    outstanding still are, and the cleanup itself changes neither the
    highlight nor the pending handle. *)
Theorem unmount_cancels_highlight (v : PageVariant) (params : Url.URLSearchParams)
    (rows : list Z) (evs : list Event) :
  let s := run v evs (mount v params rows) in
  highlightTimers (unmountCleanup s) = [] /\
  otherTimers (unmountCleanup s) = otherTimers s /\
  highlightId (unmountCleanup s) = highlightId s /\
  pendingFocusRef (unmountCleanup s) = pendingFocusRef s.
Proof.
  intros s.
  pose proof (reachable_ok v evs params rows) as Hok. fold s in Hok.
  pose proof (reachable_refOk v evs params rows) as [_ R2]. fold s in R2.
  split; [apply (cancel_highlightTimers Hok) |].
  unfold unmountCleanup, otherTimers.
  destruct (highlightTimerRef s) as [h|] eqn:Href; [| repeat split].
  destruct (negb (h =? 0)%N); [| repeat split].
  split; [| split; reflexivity].
  unfold clearTimeout. cbn. apply filter_filter_same.
  intros t Hin Hc. destruct (N.eqb (handle t) h) eqn:E; [| reflexivity].
  apply N.eqb_eq in E. subst h. rewrite (R2 t Hin eq_refl) in Hc. discriminate.
Qed.

(** *** From arrival to highlight *)

Lemma focusEffect_found (s : State) (target idx : Z) :
  focusId s = Some target -> Js.truthyNumber target = true ->
  findIndex (filteredRows s) target = idx -> idx <> -1 ->
  focusEffect s
  = let p := computePending target idx (paginationModel s) in
    let s' := set_pendingFocusRef (Some p) s in
    if negb (page (paginationModel s) =? targetPage p)
    then snd (setTimeout (CbSetPage (targetPage p)) 0 s')
    else snd (setTimeout CbArm 0 s').
Proof.
  intros Hf Ht Hidx Hne. unfold focusEffect. rewrite Hf, Ht. cbn [negb].
  destruct (Z.of_nat (List.length (filteredRows s)) =? 0) eqn:Hlen.
  - apply length_zero_nil in Hlen. rewrite Hlen in Hidx.
    rewrite findIndex_nil in Hidx. congruence.
  - rewrite Hidx. destruct (idx =? -1) eqn:E; [| reflexivity].
    apply Z.eqb_eq in E. contradiction.
Qed.

Lemma focusEffect_locate_none (s : State) : locate s = None -> focusEffect s = s.
Proof.
  unfold locate, focusEffect.
  destruct (focusId s) as [target|]; [| reflexivity].
  destruct (negb (Js.truthyNumber target)); [reflexivity |].
  destruct (Z.of_nat (List.length (filteredRows s)) =? 0); [reflexivity |].
  destruct (findIndex (filteredRows s) target =? -1); [reflexivity | discriminate].
Qed.


Lemma mount_found (v : PageVariant) (params : Url.URLSearchParams) (rows : list Z)
    (target : Z) (p : PendingFocus) :
  Url.idParam "focus" params = Some target -> Js.truthyNumber target = true ->
  findIndex rows target <> -1 ->
  p = computePending target (findIndex rows target) {| page := 0; pageSize := 10 |} ->
  (targetPage p <> 0 ->
   mount v params rows
   = set_timers 2
       [{| handle := 1; created := 0; delay := 0; callback := CbSetPage (targetPage p) |}]
       (set_pendingFocusRef (Some p) (initial params rows))) /\
  (targetPage p = 0 ->
   timersOk (mount v params rows) /\
   arms (Fire 1%N) (mount v params rows) = true /\
   pendingFocusRef (mount v params rows) = Some p /\
   frames (mount v params rows) = [] /\
   paginationModel (mount v params rows) = {| page := 0; pageSize := 10 |}).
Proof.
  intros Hf Ht Hne Hp.
  assert (Hfe : focusEffect (initial params rows)
                = if negb (0 =? targetPage p)
                  then snd (setTimeout (CbSetPage (targetPage p)) 0
                              (set_pendingFocusRef (Some p) (initial params rows)))
                  else snd (setTimeout CbArm 0
                              (set_pendingFocusRef (Some p) (initial params rows)))).
  { rewrite (@focusEffect_found (initial params rows) target (findIndex rows target)
               Hf Ht eq_refl Hne).
    cbv zeta. change (paginationModel (initial params rows))
      with {| page := 0; pageSize := 10 |}.
    rewrite <- Hp. reflexivity. }
  clear Hp. split; intros Htp.
  - assert (E0 : (0 =? targetPage p) = false) by (apply Z.eqb_neq; lia).
    assert (E1 : (targetPage p =? 0) = false) by (apply Z.eqb_neq; lia).
    unfold mount. rewrite Hfe, E0. cbn [negb].
    unfold settleEffect, setTimeout. cbn. rewrite E1. cbn.
    destruct (hasSettleEffect v); reflexivity.
  - split; [eapply timersOk_scheduled; [apply initial_ok | apply mount_scheduled] |].
    unfold mount. rewrite Hfe, Htp. cbn [Z.eqb negb].
    unfold settleEffect, setTimeout, arms. cbn. rewrite Htp. cbn.
    destruct (hasSettleEffect v); cbn; repeat split.
Qed.


Lemma fire_setPage (v : PageVariant) (s : State) (h : N) (t : Timer) (tp : Z) :
  findTimer h (timers s) = Some t -> due t s = true ->
  callback t = CbSetPage tp -> page (paginationModel s) <> tp ->
  step v (Fire h) s
  = let new := set_paginationModel
                 {| page := tp; pageSize := pageSize (paginationModel s) |}
                 (clearTimeout h s) in
    if hasSettleEffect v then settleEffect (focusEffect new) else focusEffect new.
Proof.
  intros Hf Hd Hc Hne. cbn [step]. rewrite Hf, Hd, Hc. cbn [runCallback].
  change (paginationModel (clearTimeout h s)) with (paginationModel s).
  assert (E : (page (paginationModel s) =? tp) = false) by (apply Z.eqb_neq; exact Hne).
  rewrite E.
  assert (Hpc : pageChanged (clearTimeout h s)
                  (set_paginationModel
                     {| page := tp; pageSize := pageSize (paginationModel s) |}
                     (clearTimeout h s)) = true).
  { unfold pageChanged. cbn. rewrite E. reflexivity. }
  unfold componentStateChanged. rewrite Hpc. cbn [orb].
  unfold render. rewrite Hpc, andb_true_r, orb_true_r. cbn [orb].
  reflexivity.
Qed.

Lemma findTimer_fresh (s : State) (l rest : list Timer) (t : Timer) :
  (forall x, In x l -> (handle x < handle t)%N) ->
  findTimer (handle t) (l ++ t :: rest) = Some t.
Proof.
  intros H. unfold findTimer. induction l as [|a l IH]; cbn.
  - rewrite N.eqb_refl. reflexivity.
  - assert (Ha : (handle a < handle t)%N) by (apply H; left; reflexivity).
    destruct (N.eqb (handle a) (handle t)) eqn:E.
    + apply N.eqb_eq in E. lia.
    + apply IH. intros x Hx. apply H. right. exact Hx.
Qed.

Lemma locate_some_full (s : State) (p : PendingFocus) :
  locate s = Some p ->
  exists target,
    focusId s = Some target /\ Js.truthyNumber target = true /\
    findIndex (filteredRows s) target <> -1 /\
    p = computePending target (findIndex (filteredRows s) target) (paginationModel s).
Proof.
  unfold locate. destruct (focusId s) as [target|]; [| discriminate].
  destruct (Js.truthyNumber target) eqn:Ht; [| discriminate]. cbn [negb].
  destruct (Z.of_nat (List.length (filteredRows s)) =? 0); [discriminate |].
  destruct (findIndex (filteredRows s) target =? -1) eqn:E; [discriminate |].
  apply Z.eqb_neq in E. intros [= <-]. exists target. repeat split; auto.
Qed.

(** Firing the page-change timer of a located target: the page is the
    target page and an arming is ready to run. *)
Lemma page_switch_located (v : PageVariant) (s : State) (h : N) (t : Timer)
    (p : PendingFocus) :
  timersOk s ->
  findTimer h (timers s) = Some t -> due t s = true ->
  callback t = CbSetPage (targetPage p) ->
  page (paginationModel s) <> targetPage p ->
  locate s = Some p ->
  let s1 := step v (Fire h) s in
  arms (Fire (nextHandle s)) s1 = true /\
  pendingFocusRef s1 = Some p /\
  highlightId s1 = highlightId s /\
  frames s1 = frames s /\
  paginationModel s1
  = {| page := targetPage p; pageSize := pageSize (paginationModel s) |}.
Proof.
  intros Hok Hf Hd Hc Hne Hl s1. subst s1.
  rewrite (@fire_setPage v s h t (targetPage p) Hf Hd Hc Hne). cbv zeta.
  set (new := set_paginationModel _ (clearTimeout h s)).
  destruct (@locate_some_full s p Hl) as (target & Hfo & Ht & Hidx & Hp).
  assert (Hfe : focusEffect new
                = snd (setTimeout CbArm 0 (set_pendingFocusRef (Some p) new))).
  { rewrite (@focusEffect_found new target (findIndex (filteredRows s) target)
               Hfo Ht eq_refl Hidx).
    cbv zeta.
    assert (Hp' : computePending target (findIndex (filteredRows s) target)
                    (paginationModel new) = p) by (rewrite Hp; reflexivity).
    rewrite Hp'. subst new. cbn [paginationModel set_paginationModel page].
    rewrite Z.eqb_refl. reflexivity. }
  assert (Hlt : forall x, In x (timers (clearTimeout h s)) ->
                          (handle x < nextHandle s)%N).
  { intros x Hx. apply (proj1 (proj2 (@clearTimeout_ok h s Hok))) in Hx. cbn in Hx. lia. }
  set (armT := {| handle := nextHandle s; created := now s; delay := 0;
                  callback := CbArm |}).
  set (sF := snd (setTimeout CbArm 0 (set_pendingFocusRef (Some p) new))) in *.
  assert (HsF : timers sF = timers (clearTimeout h s) ++ [armT] /\
                pendingFocusRef sF = Some p /\ highlightId sF = highlightId s /\
                frames sF = frames s /\ now sF = now s /\
                paginationModel sF
                = {| page := targetPage p; pageSize := pageSize (paginationModel s) |})
    by (repeat split).
  destruct HsF as (T1 & T2 & T3 & T4 & T5 & T6).
  assert (Hs1 : exists rest,
             timers (if hasSettleEffect v then settleEffect sF else sF)
             = timers (clearTimeout h s) ++ armT :: rest /\
             pendingFocusRef (if hasSettleEffect v then settleEffect sF else sF)
             = Some p /\
             highlightId (if hasSettleEffect v then settleEffect sF else sF)
             = highlightId s /\
             frames (if hasSettleEffect v then settleEffect sF else sF) = frames s /\
             now (if hasSettleEffect v then settleEffect sF else sF) = now s /\
             paginationModel (if hasSettleEffect v then settleEffect sF else sF)
             = {| page := targetPage p; pageSize := pageSize (paginationModel s) |}).
  { destruct (hasSettleEffect v).
    - pose proof (settleEffect_scheduled sF)
        as (_ & _ & S3 & S4 & _ & S6 & S7 & _ & _ & extra & St & _).
      exists extra. rewrite St, T1, <- List.app_assoc, settleEffect_pending.
      rewrite S3, S4, S6, S7. repeat split; assumption.
    - exists []. repeat split; assumption. }
  rewrite <- Hfe in Hs1.
  destruct Hs1 as (rest & U1 & U2 & U3 & U4 & U5 & U6).
  split; [| repeat split; assumption].
  unfold arms. rewrite U1.
  change (nextHandle s) with (handle armT).
  rewrite (@findTimer_fresh s _ rest armT Hlt).
  unfold due. rewrite U5, U2. cbn. rewrite N.add_0_r, N.leb_refl. reflexivity.
Qed.

(** X10. From arrival to highlight. Arriving with a focus request whose
    target is found: when the target is on another page than the first,
    mounting highlights nothing and leaves one request, the page change;
    once that ran the grid shows the target page, still nothing is
    highlighted or scrolled; and the arming that follows highlights the
    target and queues the scroll to its row on that page. When the target
    is on the first page no page change is asked for and the first timer
    is the arming. *)
Theorem focus_end_to_end (v : PageVariant) (params : Url.URLSearchParams)
    (rows : list Z) (target : Z) :
  Url.idParam "focus" params = Some target -> Js.truthyNumber target = true ->
  findIndex rows target <> -1 ->
  let p := computePending target (findIndex rows target)
             {| page := 0; pageSize := 10 |} in
  let s0 := mount v params rows in
  (targetPage p <> 0 ->
   let s1 := step v (Fire 1%N) s0 in
   let s2 := step v (Fire 2%N) s1 in
   highlightId s0 = None /\ frames s0 = [] /\
   timers s0 = [{| handle := 1; created := 0; delay := 0;
                   callback := CbSetPage (targetPage p) |}] /\
   paginationModel s1 = {| page := targetPage p; pageSize := 10 |} /\
   highlightId s1 = None /\ frames s1 = [] /\
   highlightId s2 = Some target /\
   frames s2 = [rowIndexWithinPage p] /\
   paginationModel s2 = {| page := targetPage p; pageSize := 10 |}) /\
  (targetPage p = 0 ->
   let s1 := step v (Fire 1%N) s0 in
   highlightId s1 = Some target /\
   frames s1 = [rowIndexWithinPage p] /\
   paginationModel s1 = {| page := 0; pageSize := 10 |}).
Proof.
  intros Hf Ht Hne p s0.
  destruct (@mount_found v params rows target p Hf Ht Hne eq_refl) as [Hm1 Hm0].
  fold s0 in Hm1, Hm0.
  assert (Hpage : forall e s, timersOk s -> arms e s = true ->
                              paginationModel (step v e s) = paginationModel s).
  { intros e s Hok Ha.
    destruct (@arming_step _ v e s Ha) as (h & t & q & _ & _ & _ & _ & Hq & Hsch).
    destruct Hsch as (_ & _ & Hpm & _). rewrite Hpm.
    assert (Hq0 : pendingFocusRef (clearTimeout h s) = Some q) by exact Hq.
    apply (arm_pending _ Hq0). }
  split; intros Htp.
  - specialize (Hm1 Htp). intros s1 s2.
    assert (Hok0 : timersOk s0)
      by (eapply timersOk_scheduled; [apply initial_ok | apply mount_scheduled]).
    assert (Hl : locate s0 = Some p).
    { unfold s0. rewrite (locate_scheduled (mount_scheduled v params rows)).
      apply (@locate_found _ (initial params rows) target (findIndex rows target));
        auto. }
    assert (Hfind : findTimer 1%N (timers s0)
                    = Some {| handle := 1; created := 0; delay := 0;
                              callback := CbSetPage (targetPage p) |})
      by (rewrite Hm1; reflexivity).
    assert (Hpg : page (paginationModel s0) <> targetPage p)
      by (rewrite Hm1; intros E; apply Htp; symmetry; exact E).
    destruct (@page_switch_located v s0 1%N _ p Hok0 Hfind) as (A1 & A2 & A3 & A4 & A5);
      try reflexivity; try assumption.
    { rewrite Hm1. reflexivity. }
    assert (Hn : nextHandle s0 = 2%N) by (rewrite Hm1; reflexivity).
    rewrite Hn in A1. fold s1 in A1, A2, A3, A4, A5.
    assert (Hok1 : timersOk s1) by (apply step_ok; exact Hok0).
    destruct (@arming_result _ v (Fire 2%N) s1 Hok1 A1) as (q & Hq & B1 & _ & B2 & _).
    rewrite A2 in Hq. injection Hq as <-. fold s2 in B1, B2.
    assert (H0h : highlightId s0 = None) by (rewrite Hm1; reflexivity).
    assert (H0f : frames s0 = []) by (rewrite Hm1; reflexivity).
    assert (H0s : pageSize (paginationModel s0) = 10) by (rewrite Hm1; reflexivity).
    rewrite H0h in A3. rewrite H0f in A4. rewrite H0s in A5.
    split; [exact H0h |]. split; [exact H0f |]. split; [rewrite Hm1; reflexivity |].
    split; [exact A5 |]. split; [exact A3 |]. split; [exact A4 |].
    split; [exact B1 |]. split; [rewrite B2, A4; reflexivity |].
    unfold s2. rewrite (Hpage _ _ Hok1 A1). exact A5.
  - specialize (Hm0 Htp). destruct Hm0 as (Hok0 & A1 & A2 & A3 & A4). intros s1.
    destruct (@arming_result _ v (Fire 1%N) s0 Hok0 A1) as (q & Hq & B1 & _ & B2 & _).
    rewrite A2 in Hq. injection Hq as <-. fold s1 in B1, B2.
    split; [exact B1 |]. split; [rewrite B2, A3; reflexivity |].
    unfold s1. rewrite (Hpage _ _ Hok0 A1). exact A4.
Qed.

(** X11. A handle that went stale is still armed. On a page with the settle
    effect, when a page change is pending for a handle and the target then
    drops out of the filtered sequence (or the focus request goes away),
    the focus effect returns without clearing the handle: once the page
    change lands the settle effect schedules an arming, and that arming
    highlights the handle's record and queues the scroll to its old row. *)
Theorem stale_pending_still_arms (v : PageVariant) (s : State) (h : N) (t : Timer)
    (p : PendingFocus) :
  hasSettleEffect v = true -> timersOk s ->
  pendingFocusRef s = Some p -> locate s = None ->
  findTimer h (timers s) = Some t -> due t s = true ->
  callback t = CbSetPage (targetPage p) ->
  page (paginationModel s) <> targetPage p ->
  let s1 := step v (Fire h) s in
  let s2 := step v (Fire (nextHandle s)) s1 in
  pendingFocusRef s1 = Some p /\
  page (paginationModel s1) = targetPage p /\
  arms (Fire (nextHandle s)) s1 = true /\
  highlightId s2 = Some (id p) /\
  frames s2 = frames s ++ [rowIndexWithinPage p].
Proof.
  intros Hv Hok Hp Hl Hf Hd Hc Hne s1 s2.
  assert (Hs1 : s1 = snd (setTimeout CbArm 0
                            (set_paginationModel
                               {| page := targetPage p;
                                  pageSize := pageSize (paginationModel s) |}
                               (clearTimeout h s)))).
  { unfold s1. rewrite (@fire_setPage v s h t (targetPage p) Hf Hd Hc Hne).
    cbv zeta. rewrite Hv.
    set (new := set_paginationModel _ (clearTimeout h s)).
    assert (Hln : locate new = None).
    { rewrite (@locate_ext _ s new); [exact Hl | reflexivity | reflexivity | reflexivity]. }
    rewrite (focusEffect_locate_none new Hln).
    unfold settleEffect. subst new. cbn [pendingFocusRef set_paginationModel clearTimeout
      set_timers paginationModel page]. rewrite Hp. cbn [targetPage page paginationModel].
    rewrite Z.eqb_refl. reflexivity. }
  assert (Hlt : forall x, In x (timers (clearTimeout h s)) ->
                          (handle x < nextHandle s)%N).
  { intros x Hx. apply (proj1 (proj2 (@clearTimeout_ok h s Hok))) in Hx. cbn in Hx. lia. }
  set (armT := {| handle := nextHandle s; created := now s; delay := 0;
                  callback := CbArm |}).
  assert (Ha : arms (Fire (nextHandle s)) s1 = true).
  { unfold arms. rewrite Hs1.
    change (timers (snd (setTimeout CbArm 0 _)))
      with (timers (clearTimeout h s) ++ [armT]).
    change (nextHandle s) with (handle armT) at 1.
    rewrite (@findTimer_fresh s _ [] armT Hlt).
    unfold due. cbn. rewrite N.add_0_r, N.leb_refl, Hp. reflexivity. }
  assert (Hp1 : pendingFocusRef s1 = Some p) by (rewrite Hs1; exact Hp).
  split; [exact Hp1 |]. split; [rewrite Hs1; reflexivity |]. split; [exact Ha |].
  assert (Hok1 : timersOk s1) by (apply step_ok; exact Hok).
  destruct (@arming_result _ v (Fire (nextHandle s)) s1 Hok1 Ha) as (q & Hq & B1 & _ & B2 & _).
  rewrite Hp1 in Hq. injection Hq as <-. fold s2 in B1, B2.
  split; [exact B1 |]. rewrite B2, Hs1. reflexivity.
Qed.

End FocusMoreFacts.

Section FocusMoreExamples.
Import Focus FocusMore.

Local Existing Instance Url.decimalNumber.

Lemma findIndex_first_witness :
  0 <= findIndex rows25 id17 < 25 /\
  List.nth (Z.to_nat (findIndex rows25 id17)) rows25 0 = id17.
Proof.
  destruct (proj2 (findIndex_first rows25 id17)) as (H1 & H2 & _).
  - discriminate.
  - split; [exact H1 | exact H2].
Defined.

Lemma pending_addresses_target_witness :
  exists p,
    pendingFocusRef (focusEffect (initial [("focus", "118")] rows25)) = Some p /\
    0 <= rowIndexWithinPage p < 10 /\
    targetPage p * 10 + rowIndexWithinPage p = 17.
Proof.
  destruct (@pending_addresses_target Url.decimalNumber (initial [("focus", "118")] rows25) 118
              eq_refl eq_refl) as (p & Hp & _ & _ & Hrow & Hsum & _).
  - discriminate.
  - discriminate.
  - exists p. split; [exact Hp |]. split; [exact Hrow | exact Hsum].
Defined.

Lemma no_focus_request_witness :
  let s := mount AssetsPage [] [0; 5; 9] in
  Url.idParam "focus" [("focus", "abc")] = None /\
  Url.idParam "focus" [("focus", "0")] = Some 0 /\
  step AssetsPage (Navigate [("focus", "0")]) s = set_searchParams [("focus", "0")] s /\
  step AssetsPage (Navigate [("focus", "abc")]) s
  = set_searchParams [("focus", "abc")] s.
Proof.
  intros s.
  pose proof (@no_focus_request Url.decimalNumber AssetsPage s [("focus", "abc")])
    as (_ & _ & Hnan & _ & Hidle).
  pose proof (@no_focus_request Url.decimalNumber AssetsPage s [("focus", "0")])
    as (_ & _ & _ & Hzero & Hidle0).
  split; [exact (Hnan "abc" eq_refl eq_refl) |].
  split; [apply (Hzero "0" eq_refl); [discriminate | reflexivity] |].
  split.
  - apply Hidle0. right. reflexivity.
  - apply Hidle. left. reflexivity.
Defined.

Lemma focus_end_to_end_witness :
  let s0 := Focus.mount Focus.TicketsPage [("focus", "211")]
              [201; 202; 203; 204; 205; 206; 207; 208; 209; 210; 211; 212] in
  let s2 := Focus.run Focus.TicketsPage [Focus.Fire 1%N; Focus.Fire 2%N] s0 in
  Focus.highlightId s2 = Some 211 /\ Focus.frames s2 = [0] /\
  Focus.paginationModel s2 = {| Focus.page := 1; Focus.pageSize := 10 |}.
Proof.
  destruct (proj1 (@focus_end_to_end Url.decimalNumber Focus.TicketsPage [("focus", "211")]
                     [201; 202; 203; 204; 205; 206; 207; 208; 209; 210; 211; 212] 211
                     eq_refl eq_refl ltac:(discriminate)) ltac:(discriminate))
    as (_ & _ & _ & _ & _ & _ & H1 & H2 & H3).
  split; [exact H1 | split; [exact H2 | exact H3]].
Defined.

Lemma stale_pending_still_arms_witness :
  let s := Focus.step Focus.AssetsPage (Focus.SetRows [101; 102; 103])
             (Focus.mount Focus.AssetsPage [("focus", "118")] Focus.rows25) in
  Focus.locate s = None /\
  Focus.highlightId
    (Focus.run Focus.AssetsPage [Focus.Fire 1%N; Focus.Fire 2%N] s) = Some 118.
Proof.
  intros s. split; [reflexivity |].
  refine (proj1 (proj2 (proj2 (proj2
            (@stale_pending_still_arms Url.decimalNumber Focus.AssetsPage s 1%N
               {| Focus.handle := 1; Focus.created := 0; Focus.delay := 0;
                  Focus.callback := Focus.CbSetPage 1 |}
               {| Focus.id := 118; Focus.targetPage := 1; Focus.rowIndexWithinPage := 7 |}
               eq_refl _ eq_refl eq_refl eq_refl eq_refl eq_refl _))))).
  - apply step_ok. eapply timersOk_scheduled; [apply initial_ok | apply mount_scheduled].
  - discriminate.
Defined.

End FocusMoreExamples.

(** ** The edit parameter of the Tickets page *)

Section TicketsFacts.
Import Tickets.

Context {lang : Url.Conversions}.

Lemma Url_eqb_eq (a b : Url.URLSearchParams) : Url.eqb a b = true -> a = b.
Proof.
  revert b. induction a as [|[k v] a IH]; intros [|[k' v'] b]; cbn;
    try discriminate; [reflexivity |].
  intros Hb. apply andb_true_iff in Hb. destruct Hb as [Hb Hab].
  apply andb_true_iff in Hb. destruct Hb as [Hk Hv].
  apply String.eqb_eq in Hk. apply String.eqb_eq in Hv.
  rewrite Hk, Hv, (IH b Hab). reflexivity.
Qed.

Lemma editId_needs_edit (params : Url.URLSearchParams) (e : Z) :
  editId params = Some e -> Url.get "edit" params <> None.
Proof.
  unfold editId, Url.idParam. destruct (Url.get "edit" params); [discriminate |].
  cbn. discriminate.
Qed.

Lemma delete_changes (params : Url.URLSearchParams) :
  Url.get "edit" params <> None ->
  Url.eqb (Url.delete "edit" params) params = false.
Proof.
  intros Hg. destruct (Url.eqb (Url.delete "edit" params) params) eqn:E; [| reflexivity].
  apply Url_eqb_eq in E. exfalso. apply Hg. rewrite <- E. apply get_delete_same.
Qed.

(** When the effect gets past its guards. *)
Lemma editEffect_fires (admin : bool) (params : Url.URLSearchParams)
    (ts : option (list Z)) (r : EditRequest) :
  editEffect admin params ts = Some r ->
  admin = true /\ editId params = Some (openEditRow r) /\ openEditRow r <> 0 /\
  (exists l, ts = Some l /\ In (openEditRow r) l) /\
  search r = Url.delete "edit" params.
Proof.
  unfold editEffect. destruct admin; [| discriminate]. cbn [negb].
  destruct (editId params) as [e|]; [| discriminate].
  unfold Js.truthyNumber. destruct (e =? 0) eqn:E0; [discriminate |]. cbn [negb].
  destruct ts as [l|]; [| discriminate].
  destruct (Z.of_nat (List.length l) =? 0); [discriminate |].
  destruct (List.find (fun t => t =? e) l) as [row|] eqn:Hfind; [| discriminate].
  intros [= <-]. cbn.
  apply List.find_some in Hfind. destruct Hfind as [Hin Heq].
  apply Z.eqb_eq in Heq. subst row. apply Z.eqb_neq in E0.
  repeat split; auto. exists l. auto.
Qed.

Lemma editEffect_complete (admin : bool) (params : Url.URLSearchParams)
    (ts : option (list Z)) (e : Z) (l : list Z) :
  admin = true -> editId params = Some e -> e <> 0 -> ts = Some l -> In e l ->
  exists r, editEffect admin params ts = Some r /\ openEditRow r = e.
Proof.
  intros -> He Hne -> Hin. unfold editEffect. rewrite He. cbn [negb].
  unfold Js.truthyNumber. apply Z.eqb_neq in Hne. rewrite Hne. cbn [negb].
  destruct (Z.of_nat (List.length l) =? 0) eqn:Hlen.
  { apply Z.eqb_eq in Hlen. destruct l; [destruct Hin | cbn in Hlen; lia]. }
  destruct (List.find (fun t => t =? e) l) as [row|] eqn:Hfind.
  - apply List.find_some in Hfind. destruct Hfind as [_ Heq].
    apply Z.eqb_eq in Heq. subst row. eexists. split; reflexivity.
  - pose proof (List.find_none _ _ Hfind e Hin) as Hn. cbn in Hn.
    rewrite Z.eqb_refl in Hn. discriminate.
Qed.

Lemma atRest_effect (s : Page) (admin : bool) (ts : option (list Z)) :
  atRest s -> editEffect admin (searchParams s) ts = None.
Proof.
  intros (_ & _ & _ & _ & Hg). apply editEffect_without_edit. exact Hg.
Qed.

Lemma atRest_rerun (s : Page) : atRest s -> atRest (rerunEffect s).
Proof.
  intros Hr. pose proof Hr as (Ht & Hn & He & Ho & Hg).
  unfold rerunEffect, runEffect.
  assert (Hc : atRest (runCleanup s)).
  { unfold runCleanup. destruct (cleanup s) as [t|]; [| exact Hr].
    unfold atRest. cbn. rewrite Ht. repeat split; auto. }
  rewrite (atRest_effect (isAdmin (runCleanup s)) (tickets (runCleanup s)) Hc).
  exact Hc.
Qed.

Lemma atRest_step (e : PageEvent) (s : Page) : atRest s -> atRest (pageStep e s).
Proof.
  intros Hr. pose proof Hr as (Ht & Hn & He & Ho & Hg).
  destruct e as [h | | ts | admin |]; cbn [pageStep].
  - rewrite Ht. exact Hr.
  - rewrite Hn. exact Hr.
  - apply atRest_rerun. unfold atRest. cbn. repeat split; auto.
  - destruct (Bool.eqb admin (isAdmin s)); [exact Hr |].
    apply atRest_rerun. unfold atRest. cbn. repeat split; auto.
  - exact Hr.
Qed.

Lemma atRest_run (evs : list PageEvent) (s : Page) : atRest s -> atRest (pageRun evs s).
Proof.
  revert s. induction evs as [|e evs IH]; intros s Hr; [exact Hr |].
  cbn. apply IH, atRest_step, Hr.
Qed.

(** X13. The auto-open edit effect and its timer. The effect gets past its
    guards exactly for an administrator, a loaded ticket list and a
    non-zero [edit] identifier that is in the list. Run on a page where
    nothing is pending (at the first render, or later when the role or the
    tickets arrive), it then starts one zero-delay timer for that ticket,
    asks for the location without [edit] and returns the cleanup that
    clears the timer. If the timer runs before the router commits the new
    location, the form opens on that ticket and stays open. If the location
    is committed first, the cleanup clears the timer and, [edit] being
    gone, the form never opens, whatever happens afterwards. *)
Theorem edit_dialog_race (s : Page) :
  let s0 := runEffect s in
  let t := nextHandle s in
  (forall r,
     idle s -> editEffect (isAdmin s) (searchParams s) (tickets s) = Some r ->
     (isAdmin s = true /\ editId (searchParams s) = Some (openEditRow r) /\
      openEditRow r <> 0 /\
      exists l, tickets s = Some l /\ In (openEditRow r) l) /\
     (timers s0 = [(t, openEditRow r)] /\ cleanup s0 = Some t /\
      navigation s0 = Some (Url.delete "edit" (searchParams s)) /\
      searchParams s0 = searchParams s /\
      editing s0 = None /\ openForm s0 = false) /\
     (let s1 := pageStep (TimerFires t) s0 in
      let s2 := pageStep LocationCommitted s1 in
      editing s1 = Some (openEditRow r) /\ openForm s1 = true /\ timers s1 = [] /\
      searchParams s2 = Url.delete "edit" (searchParams s) /\
      editing s2 = Some (openEditRow r) /\ openForm s2 = true /\
      timers s2 = [] /\ navigation s2 = None) /\
     (let s1 := pageStep LocationCommitted s0 in
      searchParams s1 = Url.delete "edit" (searchParams s) /\ timers s1 = [] /\
      forall evs, editing (pageRun evs s1) = None /\
                  openForm (pageRun evs s1) = false)) /\
  (forall e l, isAdmin s = true -> editId (searchParams s) = Some e -> e <> 0 ->
               tickets s = Some l -> In e l ->
               exists r, editEffect (isAdmin s) (searchParams s) (tickets s) = Some r /\
                         openEditRow r = e) /\
  (editEffect (isAdmin s) (searchParams s) (tickets s) = None -> s0 = s).
Proof.
  intros s0 t. split; [| split].
  - intros r (It & In_ & Ic & Ie & Io) Hr.
    destruct (editEffect_fires _ _ _ Hr) as (Ha & He & Hnz & Hin & Hs).
    assert (Hg : Url.get "edit" (searchParams s) <> None)
      by (eapply editId_needs_edit; eauto).
    assert (Hgone : forall admin ts,
               editEffect admin (Url.delete "edit" (searchParams s)) ts = None)
      by (intros; apply editEffect_without_edit, get_delete_same).
    assert (E0 : s0 = mkPage (isAdmin s) (searchParams s) (tickets s)
                        (Some (Url.delete "edit" (searchParams s)))
                        [(t, openEditRow r)] (N.succ t) (Some t) None false).
    { unfold s0, runEffect. rewrite Hr, Hs, It, Ie, Io. reflexivity. }
    split; [repeat split; auto |].
    split; [rewrite E0; repeat split |].
    split.
    + rewrite E0. cbn. rewrite !N.eqb_refl. cbn. rewrite ?N.eqb_refl. cbn.
      rewrite (@delete_changes (searchParams s) Hg).
      unfold rerunEffect, runCleanup, runEffect. cbn. rewrite Hgone.
      repeat split.
    + rewrite E0. cbn. rewrite (@delete_changes (searchParams s) Hg).
      unfold rerunEffect, runCleanup, runEffect, clearTimeout. cbn.
      rewrite !N.eqb_refl. cbn. rewrite Hgone. cbn.
      split; [reflexivity |]. split; [reflexivity |].
      intros evs.
      set (s1 := mkPage _ _ _ _ _ _ _ _ _).
      assert (H1 : atRest s1).
      { unfold atRest, s1. cbn. repeat split. apply get_delete_same. }
      destruct (atRest_run evs H1) as (_ & _ & H3 & H4 & _). split; assumption.
  - intros e l. apply editEffect_complete.
  - intros Hn. unfold s0, runEffect. rewrite Hn. reflexivity.
Qed.

(** Without an [edit] parameter the form is never opened by the effect. *)
Lemma no_edit_never_opens (admin : bool) (params : Url.URLSearchParams)
    (ts : option (list Z)) (evs : list PageEvent) :
  Url.get "edit" params = None ->
  editing (pageRun evs (pageMount admin params ts)) = None.
Proof.
  intros Hg.
  assert (H0 : atRest (pageMount admin params ts)).
  { unfold pageMount, runEffect. cbn.
    rewrite (@editEffect_without_edit lang admin params ts Hg).
    unfold atRest. cbn. repeat split. exact Hg. }
  apply (atRest_run evs H0).
Qed.

End TicketsFacts.

Section TicketsExamples.
Import Tickets.

Local Existing Instance Url.decimalNumber.

Lemma edit_dialog_race_witness :
  let s0 := pageMount true [("edit", "7"); ("focus", "7")] (Some [5; 7]) in
  editing (pageRun [TimerFires 1%N; LocationCommitted] s0) = Some 7 /\
  editing (pageRun [LocationCommitted; TimerFires 1%N] s0) = None /\
  searchParams (pageStep LocationCommitted s0) = [("focus", "7")].
Proof.
  intros s0.
  assert (Hidle : idle (mkPage true [("edit", "7"); ("focus", "7")] (Some [5; 7])
                          None [] 1%N None None false))
    by (repeat split).
  destruct (proj1 (@edit_dialog_race Url.decimalNumber
                     (mkPage true [("edit", "7"); ("focus", "7")] (Some [5; 7])
                        None [] 1%N None None false)) _ Hidle eq_refl)
    as (_ & _ & Htimer & Hloc).
  cbv zeta in Htimer, Hloc.
  destruct Htimer as (_ & _ & _ & _ & H2 & _).
  destruct Hloc as (Hp & _ & Hnever).
  split; [exact H2 |]. split; [exact (proj1 (Hnever [TimerFires 1%N])) |].
  exact Hp.
Defined.

End TicketsExamples.

(** ** Optimistic updates of the notification cache *)

Section CacheFacts.
Import Notifications Cache.

Variable nowIso : string.

Lemma isRead_markedRead (n : NotificationItem) : isRead (markedRead nowIso n) = true.
Proof.
  unfold isRead, markedRead. cbn.
  destruct (Js.truthyString _); reflexivity.
Qed.

Lemma id_markedRead (n : NotificationItem) : id (markedRead nowIso n) = id n.
Proof. reflexivity. Qed.

(** X14. The optimistic "mark all read" update leaves no unread
    notification: afterwards the unread list is empty and the badge count
    is 0, while the cache holds the same notifications (same identifiers,
    same order) and the context keeps the list as it was. *)
Theorem markAll_optimistic (c : QueryData) :
  let prev := fst (markAll_onMutate nowIso c) in
  let c' := snd (markAll_onMutate nowIso c) in
  unreadOnly c' = [] /\ unreadCount c' = 0%nat /\
  List.map id (orEmpty c') = List.map id (orEmpty c) /\
  prev = orEmpty c.
Proof.
  unfold markAll_onMutate. cbn [fst snd]. cbv zeta.
  assert (H : unreadOnly (Some (List.map (markedRead nowIso) (orEmpty c))) = []).
  { unfold unreadOnly. cbn [orEmpty]. apply filter_none.
    intros x Hx. apply List.in_map_iff in Hx. destruct Hx as (n & <- & _).
    rewrite isRead_markedRead. reflexivity. }
  unfold unreadCount. rewrite H. repeat split.
  cbn [orEmpty]. rewrite List.map_map. apply List.map_ext. intros n. reflexivity.
Qed.

(** X15. The optimistic "mark one read" update touches that notification
    only: afterwards the unread list is the former unread list without the
    notifications of that identifier, so the badge count does not grow;
    identifiers and order are kept, and every notification with another
    identifier is in the cache unchanged. *)
Theorem markOne_optimistic (target : Z) (c : QueryData) :
  let prev := fst (markOne_onMutate nowIso target c) in
  let c' := snd (markOne_onMutate nowIso target c) in
  unreadOnly c' = List.filter (fun n => negb (id n =? target)) (unreadOnly c) /\
  (unreadCount c' <= unreadCount c)%nat /\
  List.map id (orEmpty c') = List.map id (orEmpty c) /\
  (forall n, In n (orEmpty c) -> id n <> target -> In n (orEmpty c')) /\
  prev = orEmpty c.
Proof.
  unfold markOne_onMutate. cbn [fst snd]. cbv zeta.
  assert (H : unreadOnly
                (Some (List.map (fun n => if id n =? target then markedRead nowIso n else n)
                         (orEmpty c)))
              = List.filter (fun n => negb (id n =? target)) (unreadOnly c)).
  { unfold unreadOnly. cbn [orEmpty]. induction (orEmpty c) as [|n l IH]; [reflexivity |].
    cbn [List.map List.filter]. destruct (id n =? target) eqn:E.
    - rewrite isRead_markedRead. cbn [negb]. rewrite IH.
      destruct (negb (isRead n)); [cbn [List.filter]; rewrite E |]; reflexivity.
    - rewrite IH. destruct (negb (isRead n)); [cbn [List.filter]; rewrite E |];
        reflexivity. }
  unfold unreadCount. rewrite H. repeat split.
  - apply List.filter_length_le.
  - cbn [orEmpty]. rewrite List.map_map. apply List.map_ext. intros n.
    destruct (id n =? target); reflexivity.
  - intros n Hin Hne. cbn [orEmpty]. apply List.in_map_iff. exists n. split; [| exact Hin].
    apply Z.eqb_neq in Hne. rewrite Hne. reflexivity.
Qed.

Section CacheBackend.

Variable W : Type.
Variable postMarkAllRead : W -> bool * W.
Variable patchRead : Z -> W -> bool * W.

(** X16. A "mark one read" that the backend rejects is rolled back: the
    cache holds again the list it held before the optimistic update (the
    empty list when it held nothing), with the same unread notifications;
    one that the backend accepts keeps the optimistic list. *)
Theorem markOne_rollback (target : Z) (c : QueryData) (s : Session W) :
  (fst (patchRead target (net s)) = false ->
   fst (markOneReadMut_mutate nowIso patchRead target c s) = Some (orEmpty c) /\
   unreadOnly (fst (markOneReadMut_mutate nowIso patchRead target c s))
   = unreadOnly c) /\
  (fst (patchRead target (net s)) = true ->
   fst (markOneReadMut_mutate nowIso patchRead target c s)
   = snd (markOne_onMutate nowIso target c)).
Proof.
  unfold markOneReadMut_mutate, api_patch_read. cbn.
  destruct (patchRead target (net s)) as [ok w]. cbn.
  split; intros ->; cbn; [| reflexivity].
  split; [reflexivity |]. unfold unreadOnly. reflexivity.
Qed.


End CacheBackend.

End CacheFacts.

Lemma markOne_optimistic_witness :
  In (Notifications.unreadItem 4)
     (Cache.orEmpty
        (snd (Cache.markOne_onMutate "2024-05-02T08:00:00Z" 2
                (Some Notifications.sixItems)))).
Proof.
  apply (proj1 (proj2 (proj2 (proj2
           (@markOne_optimistic "2024-05-02T08:00:00Z" 2 (Some Notifications.sixItems)))))
           (Notifications.unreadItem 4)).
  - cbn. tauto.
  - discriminate.
Defined.

Lemma markOne_rollback_witness :
  let s := {| Notifications.net :=
                {| Notifications.readIds := []; Notifications.rejecting := [3];
                   Notifications.bulkWorks := false |};
              Notifications.calls := [] |} in
  fst (Cache.markOneReadMut_mutate "2024-05-02T08:00:00Z" Notifications.backend_patch 3
         (Some Notifications.sixItems) s) = Some Notifications.sixItems /\
  fst (Cache.markOneReadMut_mutate "2024-05-02T08:00:00Z" Notifications.backend_patch 2
         (Some Notifications.sixItems) s)
  = snd (Cache.markOne_onMutate "2024-05-02T08:00:00Z" 2 (Some Notifications.sixItems)).
Proof.
  intros s. split.
  - apply (proj1 (@markOne_rollback "2024-05-02T08:00:00Z" Notifications.Backend
                    Notifications.backend_patch 3 (Some Notifications.sixItems) s)
             eq_refl).
  - apply (proj2 (@markOne_rollback "2024-05-02T08:00:00Z" Notifications.Backend
                    Notifications.backend_patch 2 (Some Notifications.sixItems) s)
             eq_refl).
Defined.
(** ** Preferences in localStorage *)

Section PrefsFacts.
Import Prefs.

Lemma getItem_setItem_same (k v : string) (ls : LocalStorage) :
  getItem k (setItem k v ls) = Some v.
Proof. unfold setItem. cbn. rewrite String.eqb_refl. reflexivity. Qed.

Lemma getItem_removeItem_other (k k0 : string) (ls : LocalStorage) :
  k0 <> k -> getItem k0 (removeItem k ls) = getItem k0 ls.
Proof.
  intros Hne. unfold removeItem.
  induction ls as [|[k' v'] rest IH]; [reflexivity |].
  cbn. destruct (String.eqb k' k) eqn:E; cbn.
  - apply String.eqb_eq in E. subst k'.
    destruct (String.eqb k k0) eqn:E0; [| exact IH].
    apply String.eqb_eq in E0. congruence.
  - destruct (String.eqb k' k0); [reflexivity | exact IH].
Qed.

Lemma getItem_setItem_other (k k0 v : string) (ls : LocalStorage) :
  k0 <> k -> getItem k0 (setItem k v ls) = getItem k0 ls.
Proof.
  intros Hne. unfold setItem. cbn.
  destruct (String.eqb k k0) eqn:E.
  - apply String.eqb_eq in E. congruence.
  - apply getItem_removeItem_other. exact Hne.
Qed.

Lemma themeStore_get_set (m : ThemeMode) (ls : LocalStorage) :
  themeStore_get (themeStore_set m ls) = m.
Proof.
  unfold themeStore_get, themeStore_set. rewrite getItem_setItem_same.
  destruct m; reflexivity.
Qed.

(** X18. The theme preference: storing a mode and reading it back gives
    that mode; toggling switches to the other mode, keeps the [mode] state
    equal to what storage holds, and toggling twice is back at the first
    mode; no other key of the storage is affected; and a stored value that
    is neither ["light"] nor ["dark"], or none at all, reads as dark. *)
Theorem theme_toggle (a : AppTheme) :
  let a' := toggleTheme a in
  (forall m ls, themeStore_get (themeStore_set m ls) = m) /\
  mode a' <> mode a /\
  themeStore_get (storage a') = mode a' /\
  mode (toggleTheme a') = mode a /\
  (forall k, k <> THEME_KEY -> getItem k (storage a') = getItem k (storage a)) /\
  (forall ls, getItem THEME_KEY ls = None -> themeStore_get ls = dark) /\
  (forall ls v, getItem THEME_KEY ls = Some v -> v <> "light" ->
                themeStore_get ls = dark).
Proof.
  intros a'. split; [intros m ls; apply themeStore_get_set |].
  assert (Hm : mode a' = match mode a with dark => light | light => dark end)
    by (unfold a', toggleTheme; cbn [mode]; apply themeStore_get_set).
  split; [rewrite Hm; destruct (mode a); discriminate |].
  split; [reflexivity |]. split.
  - unfold toggleTheme at 1. cbn [mode]. rewrite themeStore_get_set, Hm.
    destruct (mode a); reflexivity.
  - split; [| split].
    + intros k Hk. unfold a', toggleTheme, themeStore_set. cbn [storage].
      apply getItem_setItem_other. exact Hk.
    + intros ls H. unfold themeStore_get. rewrite H. reflexivity.
    + intros ls v H Hne. unfold themeStore_get. rewrite H.
      destruct (String.eqb v "light") eqn:E.
      * apply String.eqb_eq in E. contradiction.
      * destruct (String.eqb v "dark"); reflexivity.
Qed.

Lemma theme_toggle_witness :
  themeStore_get [("ui_theme_mode", "blue")] = dark /\
  getItem "auth_tokens"
    (storage (toggleTheme (initTheme [("auth_tokens", "{}")]))) = Some "{}".
Proof.
  pose proof (theme_toggle (initTheme [("auth_tokens", "{}")]))
    as (_ & _ & _ & _ & Hk & _ & Hv).
  split.
  - apply (Hv [("ui_theme_mode", "blue")] "blue" eq_refl). discriminate.
  - rewrite Hk; [reflexivity | discriminate].
Defined.

(** X19. The sidebar flag: what the effect stores is what the initializer
    reads back at the next start; without a stored value the sidebar starts
    open, and any stored value other than ["1"] starts it closed; the flag
    and the theme preference do not disturb each other. *)
Theorem sidebar_persistence (sidebarOpen : bool) (m : ThemeMode) (ls : LocalStorage) :
  sidebarInit (sidebarPersist sidebarOpen ls) = sidebarOpen /\
  (getItem SIDEBAR_KEY ls = None -> sidebarInit ls = true) /\
  (forall v, getItem SIDEBAR_KEY ls = Some v -> v <> "1" -> sidebarInit ls = false) /\
  themeStore_get (sidebarPersist sidebarOpen ls) = themeStore_get ls /\
  sidebarInit (themeStore_set m ls) = sidebarInit ls.
Proof.
  split; [| split; [| split; [| split]]].
  - unfold sidebarInit, sidebarPersist. rewrite getItem_setItem_same.
    destruct sidebarOpen; reflexivity.
  - intros H. unfold sidebarInit. rewrite H. reflexivity.
  - intros v H Hne. unfold sidebarInit. rewrite H.
    apply String.eqb_neq. exact Hne.
  - unfold themeStore_get, sidebarPersist.
    rewrite getItem_setItem_other; [reflexivity | discriminate].
  - unfold sidebarInit, themeStore_set.
    rewrite getItem_setItem_other; [reflexivity | discriminate].
Qed.

Lemma sidebar_persistence_witness :
  sidebarInit [] = true /\ sidebarInit [("sidebar_open", "yes")] = false.
Proof.
  split.
  - apply (proj1 (proj2 (sidebar_persistence true dark [])) eq_refl).
  - apply (proj1 (proj2 (proj2 (sidebar_persistence true dark
                                   [("sidebar_open", "yes")]))) "yes" eq_refl).
    discriminate.
Defined.

End PrefsFacts.

(** ** Dates of the assignment form *)

Section DateFacts.
Import Dates.

Lemma sliceTo_length (n : nat) (s : string) : (String.length (sliceTo n s) <= n)%nat.
Proof.
  revert s. induction n as [|n IH]; intros s; [cbn; lia |].
  destruct s as [|c rest]; cbn; [lia |]. specialize (IH rest). lia.
Qed.

Lemma sliceTo_idem (n : nat) (s : string) : sliceTo n (sliceTo n s) = sliceTo n s.
Proof.
  revert s. induction n as [|n IH]; intros s; [reflexivity |].
  destruct s as [|c rest]; cbn; [reflexivity |]. rewrite IH. reflexivity.
Qed.

Lemma sliceTo_prefix (n : nat) (s : string) :
  exists rest, s = (sliceTo n s ++ rest)%string.
Proof.
  revert s. induction n as [|n IH]; intros s; [exists s; reflexivity |].
  destruct s as [|c r]; [exists ""; reflexivity |].
  destruct (IH r) as [rest Hr]. exists rest. cbn. congruence.
Qed.

Lemma sliceTo_app (d rest : string) : sliceTo (String.length d) (d ++ rest) = d.
Proof.
  induction d as [|c d IH]; cbn; [reflexivity |]. rewrite IH. reflexivity.
Qed.

Lemma sliceTo_nonempty (n : nat) (s : string) :
  s <> "" -> sliceTo (S n) s <> "".
Proof. destruct s; [congruence | cbn; discriminate]. Qed.

Lemma truthy_nonempty (s : string) : Js.truthyString s = true <-> s <> "".
Proof.
  unfold Js.truthyString. destruct (String.eqb s "") eqn:E; cbn.
  - apply String.eqb_eq in E. split; [discriminate | congruence].
  - apply String.eqb_neq in E. split; auto.
Qed.

Lemma ymd_idem (s : option string) : ymd (Some (ymd s)) = ymd s.
Proof.
  unfold ymd. destruct s as [x|]; [| reflexivity].
  destruct (Js.truthyString x) eqn:Hx; cbn [negb]; [| reflexivity].
  destruct (Js.truthyString (sliceTo 10 x)) eqn:Hy; cbn [negb].
  - apply sliceTo_idem.
  - unfold Js.truthyString in Hy. apply negb_false_iff, String.eqb_eq in Hy.
    symmetry. exact Hy.
Qed.

(** X20. [ymd] keeps at most the first ten characters: its result is never
    longer than 10, is a prefix of the input, is left unchanged by another
    [ymd], is empty for a missing or empty input, and for a timestamp that
    starts with a ten-character date it is that date. *)
Theorem ymd_prefix (s : option string) :
  (String.length (ymd s) <= 10)%nat /\
  ymd (Some (ymd s)) = ymd s /\
  (forall x, s = Some x -> exists rest, x = (ymd s ++ rest)%string) /\
  (s = None \/ s = Some "" -> ymd s = "") /\
  (forall date rest, String.length date = 10%nat ->
                     ymd (Some (date ++ rest)%string) = date).
Proof.
  split; [| split; [| split; [| split]]].
  - unfold ymd. destruct s as [x|]; [| cbn; lia].
    destruct (negb (Js.truthyString x)); [cbn; lia | apply sliceTo_length].
  - apply ymd_idem.
  - intros x ->. unfold ymd. destruct (Js.truthyString x) eqn:Hx; cbn [negb].
    + apply sliceTo_prefix.
    + exists x. reflexivity.
  - intros [-> | ->]; reflexivity.
  - intros date rest Hlen. unfold ymd.
    destruct (Js.truthyString (date ++ rest)) eqn:Hx; cbn [negb].
    + rewrite <- Hlen. apply sliceTo_app.
    + destruct date; [discriminate Hlen | discriminate Hx].
Qed.

Lemma ymd_prefix_witness :
  ymd (Some "2024-05-01T10:00:00Z") = "2024-05-01" /\ ymd (Some "") = "".
Proof.
  split.
  - apply (proj2 (proj2 (proj2 (proj2 (ymd_prefix None)))) "2024-05-01" "T10:00:00Z"
             eq_refl).
  - apply (proj1 (proj2 (proj2 (proj2 (ymd_prefix (Some ""))))) (or_intror eq_refl)).
Defined.

(** X21. Opening the edit form on an assignment and saving it unchanged:
    the payload carries the assignment's dates cut to ten characters; a
    missing or empty return date goes out as [null], any other as its
    first ten characters; and opening the form on what was saved shows the
    same form again. *)
Theorem edit_form_dates (row : AssignmentDates) :
  let saved := payload_dates (openEdit_dates row) in
  date_assigned saved = ymd (Some (date_assigned row)) /\
  (date_returned row = None \/ date_returned row = Some "" ->
   date_returned saved = None) /\
  (forall r, date_returned row = Some r -> r <> "" ->
             date_returned saved = Some (ymd (Some r))) /\
  openEdit_dates saved = openEdit_dates row.
Proof.
  intros saved.
  assert (Hret : forall r, date_returned row = Some r -> r <> "" ->
                           date_returned saved = Some (ymd (Some r))).
  { intros r Hr Hne. unfold saved, payload_dates, openEdit_dates. rewrite Hr.
    cbn [snd date_returned].
    assert (Ht : Js.truthyString r = true) by (apply truthy_nonempty; exact Hne).
    rewrite Ht. unfold ymd. rewrite Ht. cbn [negb].
    assert (Hs : Js.truthyString (sliceTo 10 r) = true)
      by (apply truthy_nonempty, sliceTo_nonempty; exact Hne).
    rewrite Hs. reflexivity. }
  split; [reflexivity |]. split; [| split; [exact Hret |]].
  - intros [H | H]; unfold saved, payload_dates, openEdit_dates; rewrite H; reflexivity.
  - unfold openEdit_dates at 1 2. f_equal.
    + unfold saved, payload_dates. cbn [date_assigned fst openEdit_dates].
      apply ymd_idem.
    + destruct (date_returned row) as [r|] eqn:Hr.
      * destruct (Js.truthyString r) eqn:Ht.
        -- rewrite (Hret r eq_refl (proj1 (truthy_nonempty r) Ht)).
           assert (Hs : Js.truthyString (ymd (Some r)) = true).
           { unfold ymd. rewrite Ht. cbn [negb].
             apply truthy_nonempty, sliceTo_nonempty, truthy_nonempty. exact Ht. }
           rewrite Hs. apply ymd_idem.
        -- unfold saved, payload_dates, openEdit_dates. rewrite Hr, Ht. reflexivity.
      * unfold saved, payload_dates, openEdit_dates. rewrite Hr. reflexivity.
Qed.

Lemma edit_form_dates_witness :
  date_returned
    (payload_dates
       (openEdit_dates {| date_assigned := "2024-05-01T10:00:00Z";
                          date_returned := Some "2024-06-30T09:30:00Z" |}))
  = Some "2024-06-30" /\
  date_returned
    (payload_dates
       (openEdit_dates {| date_assigned := "2024-05-01"; date_returned := None |}))
  = None.
Proof.
  split.
  - apply (proj1 (proj2 (proj2 (edit_form_dates
             {| date_assigned := "2024-05-01T10:00:00Z";
                date_returned := Some "2024-06-30T09:30:00Z" |})))
             "2024-06-30T09:30:00Z" eq_refl).
    discriminate.
  - apply (proj1 (proj2 (edit_form_dates
             {| date_assigned := "2024-05-01"; date_returned := None |}))).
    left. reflexivity.
Defined.

End DateFacts.

(** ** The filtered sequence of the Assets page *)

Section AssetsListFacts.
Import AssetsList.

Variable trim : string -> string.
Variable toLowerCase : string -> string.
Variable includes : string -> string -> bool.

Context {lang : Url.Conversions}.

Local Abbreviation keepRow := (@keepRow trim toLowerCase includes).
Local Abbreviation filteredRows := (@filteredRows trim toLowerCase includes).
Local Abbreviation rowText := (@rowText toLowerCase).

Lemma keepRow_inv (statusFilter search : string) (a : Asset) :
  keepRow statusFilter search a = true ->
  (statusFilter <> "" -> status a = statusFilter) /\
  (toLowerCase (trim search) <> "" ->
   includes (rowText a) (toLowerCase (trim search)) = true).
Proof.
  unfold AssetsList.keepRow.
  destruct (Js.truthyString statusFilter) eqn:Hs; cbn [andb].
  - destruct (String.eqb (status a) statusFilter) eqn:E; cbn [negb]; [| discriminate].
    apply String.eqb_eq in E. cbv zeta.
    destruct (Js.truthyString (toLowerCase (trim search))) eqn:Hq.
    + destruct (includes _ _) eqn:Hi; cbn [negb]; [| discriminate]. auto.
    + intros _. split; [auto |]. intros Hne. exfalso.
      unfold Js.truthyString in Hq. apply negb_false_iff, String.eqb_eq in Hq.
      contradiction.
  - cbv zeta. unfold Js.truthyString in Hs. apply negb_false_iff, String.eqb_eq in Hs.
    destruct (Js.truthyString (toLowerCase (trim search))) eqn:Hq.
    + destruct (includes _ _) eqn:Hi; cbn [negb]; [| discriminate].
      intros _. split; [congruence | auto].
    + intros _. split; [congruence |]. intros Hne. exfalso.
      unfold Js.truthyString in Hq. apply negb_false_iff, String.eqb_eq in Hq.
      contradiction.
Qed.

Lemma NoDup_map_inj_on (A B : Type) (f : A -> B) (l : list A) (a b : A) :
  NoDup (List.map f l) -> In a l -> In b l -> f a = f b -> a = b.
Proof.
  induction l as [|x l IH]; intros Hnd Ha Hb Hf; [destruct Ha |].
  cbn in Hnd. inversion Hnd as [| y ys Hnin Hnd']; subst.
  destruct Ha as [Ha | Ha], Hb as [Hb | Hb]; try congruence.
  - subst x. exfalso. apply Hnin. rewrite Hf. apply List.in_map. exact Hb.
  - subst x. exfalso. apply Hnin. rewrite <- Hf. apply List.in_map. exact Ha.
  - apply IH; assumption.
Qed.

(** X22. The filtered sequence of the Assets page: every row it holds is
    one of the fetched assets, has the status asked for when a status
    filter is set, and contains the search text when one is given; with no
    status filter and a search text that is empty after trimming it is the
    whole list; without data it is empty; filtering the result again with
    the same filters changes nothing; and distinct identifiers stay
    distinct. *)
Theorem filteredRows_sound (assets : option (list Asset)) (statusFilter search : string) :
  let all := match assets with Some l => l | None => [] end in
  let rows := filteredRows assets statusFilter search in
  (forall a, In a rows ->
             In a all /\
             (statusFilter <> "" -> status a = statusFilter) /\
             (toLowerCase (trim search) <> "" ->
              includes (rowText a) (toLowerCase (trim search)) = true)) /\
  (statusFilter = "" -> toLowerCase (trim search) = "" -> rows = all) /\
  (assets = None -> rows = []) /\
  filteredRows (Some rows) statusFilter search = rows /\
  (NoDup (rowIds all) -> NoDup (rowIds rows)).
Proof.
  intros all rows. split; [| split; [| split; [| split]]].
  - intros a Hin. unfold rows, AssetsList.filteredRows in Hin.
    apply List.filter_In in Hin. destruct Hin as [Hin Hk].
    split; [exact Hin | apply keepRow_inv; exact Hk].
  - intros Hs Hq. unfold rows, AssetsList.filteredRows. fold all.
    assert (Hall : forall a, keepRow statusFilter search a = true).
    { intros a. unfold AssetsList.keepRow. rewrite Hs, Hq. reflexivity. }
    induction all as [|a l IH]; [reflexivity |]. cbn. rewrite Hall, IH. reflexivity.
  - intros ->. reflexivity.
  - unfold rows, AssetsList.filteredRows. fold all.
    induction all as [|a l IH]; [reflexivity |]. cbn.
    destruct (keepRow statusFilter search a) eqn:E; [| exact IH].
    cbn. rewrite E, IH. reflexivity.
  - unfold rows, AssetsList.filteredRows, rowIds. fold all.
    apply NoDup_map_filter.
Qed.

(** X23. Filters and focus together: with distinct identifiers, a focus
    request for an asset that the current filters hide is not found in the
    filtered sequence, so the focus effect does nothing; for an asset the
    filters keep, the index found is that of the asset itself. *)
Theorem focus_respects_filters (assets : list Asset) (statusFilter search : string)
    (a : Asset) (s : Focus.State) :
  NoDup (rowIds assets) -> In a assets ->
  let rows := filteredRows (Some assets) statusFilter search in
  Focus.filteredRows s = rowIds rows ->
  Focus.focusId s = Some (id a) ->
  (keepRow statusFilter search a = false ->
   Focus.findIndex (rowIds rows) (id a) = -1 /\ Focus.focusEffect s = s) /\
  (keepRow statusFilter search a = true ->
   Focus.findIndex (rowIds rows) (id a) <> -1 /\
   List.nth_error rows (Z.to_nat (Focus.findIndex (rowIds rows) (id a))) = Some a).
Proof.
  intros Hnd Hin rows Hrows Hf.
  assert (Hsub : forall b, In b rows -> In b assets /\ keepRow statusFilter search b = true).
  { intros b Hb. unfold rows, AssetsList.filteredRows in Hb.
    apply List.filter_In in Hb. exact Hb. }
  split; intros Hk.
  - assert (Hidx : Focus.findIndex (rowIds rows) (id a) = -1).
    { apply (proj1 (findIndex_first_occurrence (rowIds rows) (id a))).
      intros Hin'. unfold rowIds in Hin'. apply List.in_map_iff in Hin'.
      destruct Hin' as (b & Hid & Hb). destruct (Hsub b Hb) as [Hb1 Hb2].
      rewrite (@NoDup_map_inj_on _ _ id assets b a Hnd Hb1 Hin Hid) in Hb2.
      congruence. }
    split; [exact Hidx |].
    apply (@focusEffect_absent _ s (id a)); [exact Hf | rewrite Hrows; exact Hidx].
  - assert (Hina : In a rows).
    { unfold rows, AssetsList.filteredRows. apply List.filter_In. auto. }
    assert (Hne : Focus.findIndex (rowIds rows) (id a) <> -1).
    { intros H. apply (proj1 (findIndex_first_occurrence (rowIds rows) (id a))) in H.
      apply H. unfold rowIds. apply List.in_map. exact Hina. }
    split; [exact Hne |].
    destruct (proj2 (findIndex_first_occurrence (rowIds rows) (id a)) Hne)
      as (Hr & Hn & _).
    assert (Hlt : (Z.to_nat (Focus.findIndex (rowIds rows) (id a)) < List.length rows)%nat).
    { unfold rowIds in Hr. rewrite List.length_map in Hr. fold (rowIds rows) in Hr. lia. }
    set (i := Z.to_nat (Focus.findIndex (rowIds rows) (id a))) in *.
    destruct (List.nth_error rows i) as [b|] eqn:Hb.
    + f_equal.
      assert (Hbin : In b rows) by (eapply List.nth_error_In; exact Hb).
      assert (Hid : id b = id a).
      { unfold rowIds in Hn.
        rewrite <- Hn. symmetry.
        rewrite (List.nth_indep _ 0 (id b)) by (rewrite List.length_map; exact Hlt).
        rewrite List.map_nth. f_equal.
        apply List.nth_error_nth. exact Hb. }
      apply (@NoDup_map_inj_on _ _ id assets b a Hnd (proj1 (Hsub b Hbin)) Hin Hid).
    + apply List.nth_error_None in Hb. lia.
Qed.

End AssetsListFacts.

Section AssetsListExamples.

Local Existing Instance Url.decimalNumber.

Lemma filteredRows_sound_witness :
  AssetsList.filteredRows (fun s => s) (fun s => s) AssetsList.isInfix
    (Some [AssetsList.laptop; AssetsList.phone]) "" ""
  = [AssetsList.laptop; AssetsList.phone] /\
  AssetsList.filteredRows (fun s => s) (fun s => s) AssetsList.isInfix
    (Some [AssetsList.laptop; AssetsList.phone]) "REPAIR" "mob"
  = [AssetsList.phone].
Proof.
  split.
  - apply (proj1 (proj2 (@filteredRows_sound (fun s => s) (fun s => s) AssetsList.isInfix
                           (Some [AssetsList.laptop; AssetsList.phone]) "" ""))
             eq_refl eq_refl).
  - reflexivity.
Defined.

Lemma focus_respects_filters_witness :
  let rows := AssetsList.filteredRows (fun s => s) (fun s => s) AssetsList.isInfix
                (Some [AssetsList.laptop; AssetsList.phone]) "REPAIR" "" in
  let s := Focus.initial [("focus", "1")] (AssetsList.rowIds rows) in
  Focus.focusEffect s = s.
Proof.
  intros rows s.
  apply (proj1 (@focus_respects_filters (fun s => s) (fun s => s) AssetsList.isInfix
                  Url.decimalNumber
                  [AssetsList.laptop; AssetsList.phone] "REPAIR" "" AssetsList.laptop s
                  ltac:(repeat constructor; cbn; intuition discriminate)
                  (or_introl eq_refl) eq_refl eq_refl)).
  reflexivity.
Defined.

End AssetsListExamples.
